(** * Resume export pipeline: parser, DOCX builder, ATS validator, exporter

    A shallow embedding of [src/resume_export/parser.py],
    [src/resume_export/docx_builder.py],
    [src/resume_export/validators/ats_checker.py] and
    [src/resume_export/exporter.py], with the properties the specification
    states about them.

    Text is modelled by [string] (8-bit characters).  The character classes
    of Python ([str.strip], [\s], [\w], [\d], [str.lower], [str.upper]) are
    modelled on the ASCII range; a character above 127 belongs to none of
    them and has no case. *)

From Stdlib Require Import String Ascii List Bool Arith NArith ZArith Lia DecimalString.
From Stdlib Require Import Permutation.
Import ListNotations.
Local Open Scope string_scope.
Local Open Scope list_scope.
Local Open Scope nat_scope.

(** ** Python string primitives *)

Module Py.

Definition LF : ascii := "010"%char.

Definition between (lo hi : nat) (c : ascii) : bool :=
  let n := nat_of_ascii c in (lo <=? n) && (n <=? hi).

(** [str.isspace] on one character: TAB, LF, VT, FF, CR, FS, GS, RS, US, SP. *)
Definition isspace (c : ascii) : bool := between 9 13 c || between 28 32 c.

Definition isdigit (c : ascii) : bool := between 48 57 c.

Definition isupper (c : ascii) : bool := between 65 90 c.

Definition islower (c : ascii) : bool := between 97 122 c.

(** The class [\w]. *)
Definition isword (c : ascii) : bool :=
  isupper c || islower c || isdigit c || Ascii.eqb c "_".

Definition lower_char (c : ascii) : ascii :=
  if isupper c then ascii_of_nat (nat_of_ascii c + 32) else c.

Definition upper_char (c : ascii) : ascii :=
  if islower c then ascii_of_nat (nat_of_ascii c - 32) else c.

Fixpoint map_chars (f : ascii -> ascii) (s : string) : string :=
  match s with
  | EmptyString => EmptyString
  | String c s' => String (f c) (map_chars f s')
  end.

Definition lower : string -> string := map_chars lower_char.
Definition upper : string -> string := map_chars upper_char.

(** Truth value of a string: [bool(s)]. *)
Definition truthy (s : string) : bool :=
  match s with EmptyString => false | String _ _ => true end.

Definition startswith (p s : string) : bool := String.prefix p s.

(** [s[n:]] *)
Fixpoint skip (n : nat) (s : string) : string :=
  match n, s with
  | O, _ => s
  | S _, EmptyString => EmptyString
  | S n', String _ s' => skip n' s'
  end.

Definition endswith (p s : string) : bool :=
  (String.length p <=? String.length s)
  && String.eqb (skip (String.length s - String.length p) s) p.

(** [p in s] *)
Fixpoint contains (p s : string) : bool :=
  String.prefix p s
  || match s with
     | EmptyString => false
     | String _ s' => contains p s'
     end.

Fixpoint has_char (c : ascii) (s : string) : bool :=
  match s with
  | EmptyString => false
  | String a s' => Ascii.eqb a c || has_char c s'
  end.

Fixpoint lstrip_by (p : ascii -> bool) (s : string) : string :=
  match s with
  | EmptyString => EmptyString
  | String c s' => if p c then lstrip_by p s' else s
  end.

Fixpoint rstrip_by (p : ascii -> bool) (s : string) : string :=
  match s with
  | EmptyString => EmptyString
  | String c s' =>
      match rstrip_by p s' with
      | EmptyString => if p c then EmptyString else String c EmptyString
      | r => String c r
      end
  end.

Definition strip_by (p : ascii -> bool) (s : string) : string :=
  rstrip_by p (lstrip_by p s).

(** [s.strip()] *)
Definition strip : string -> string := strip_by isspace.

(** [s.strip(chars)] and [s.lstrip(chars)] *)
Definition strip_chars (chars : string) : string -> string :=
  strip_by (fun c => has_char c chars).
Definition lstrip_chars (chars : string) : string -> string :=
  lstrip_by (fun c => has_char c chars).

(** [s.split(c)] for a one-character separator; never the empty list. *)
Fixpoint split (c : ascii) (s : string) : list string :=
  match s with
  | EmptyString => [EmptyString]
  | String a s' =>
      let r := split c s' in
      if Ascii.eqb a c then EmptyString :: r
      else match r with
           | h :: t => String a h :: t
           | [] => [String a EmptyString]
           end
  end.

(** [sep.join(l)] *)
Definition join (sep : string) (l : list string) : string := String.concat sep l.

Fixpoint rev_onto (s acc : string) : string :=
  match s with
  | EmptyString => acc
  | String c s' => rev_onto s' (String c acc)
  end.

(** [str(n)] for a non-negative integer. *)
Definition str_of_nat (n : nat) : string := NilEmpty.string_of_uint (Nat.to_uint n).
Definition str_of_N (n : N) : string := NilEmpty.string_of_uint (N.to_uint n).

End Py.

(** ** Regular expressions, with the backtracking semantics of [re] *)

Module Re.

Inductive regex : Type :=
| Eps
| Cls (p : ascii -> bool)
| Cat (a b : regex)
| Alt (a b : regex)
| Star (a : regex)
| Grp (i : nat) (a : regex).

Definition Chr (c : ascii) : regex := Cls (Ascii.eqb c).
Definition OneOf (cs : string) : regex := Cls (fun c => Py.has_char c cs).
Definition Plus (a : regex) : regex := Cat a (Star a).
Definition Opt (a : regex) : regex := Alt a Eps.
Fixpoint Rep (n : nat) (a : regex) : regex :=
  match n with O => Eps | S n' => Cat a (Rep n' a) end.
Fixpoint Lit (s : string) : regex :=
  match s with
  | EmptyString => Eps
  | String c s' => Cat (Chr c) (Lit s')
  end.

Definition digit : regex := Cls Py.isdigit.
Definition space : regex := Cls Py.isspace.
Definition word : regex := Cls Py.isword.
(** [.] matches everything but a line feed. *)
Definition dot : regex := Cls (fun c => negb (Ascii.eqb c Py.LF)).

(** Capture groups, latest binding first. *)
Definition groups := list (nat * string).

Fixpoint group (i : nat) (g : groups) : option string :=
  match g with
  | [] => None
  | (j, v) :: g' => if Nat.eqb i j then Some v else group i g'
  end.

(** The text read between position [s] and the later position [s']. *)
Definition consumed (s s' : string) : string :=
  String.substring 0 (String.length s - String.length s') s.

(** [run r s g k]: match [r] at the front of [s], then continue with [k] on
    what is left; alternatives are tried left to right and a star takes as
    many iterations as it can before giving one back.  A star iteration has
    to read at least one character, which every star of this program does. *)
Fixpoint run (r : regex) (s : string) (g : groups)
    (k : string -> groups -> option (string * groups)) {struct r}
    : option (string * groups) :=
  match r with
  | Eps => k s g
  | Cls p =>
      match s with
      | String c s' => if p c then k s' g else None
      | EmptyString => None
      end
  | Cat a b => run a s g (fun s' g' => run b s' g' k)
  | Alt a b =>
      match run a s g k with
      | Some x => Some x
      | None => run b s g k
      end
  | Star a =>
      (fix loop (n : nat) (s : string) (g : groups) {struct n} :=
         match n with
         | O => k s g
         | S n' =>
             match run a s g (fun s' g' =>
                     if String.length s' <? String.length s
                     then loop n' s' g' else None) with
             | Some x => Some x
             | None => k s g
             end
         end) (String.length s) s g
  | Grp i a => run a s g (fun s' g' => k s' ((i, consumed s s') :: g'))
  end.

(** [re.match(r, s)]: the unread rest and the groups. *)
Definition match_ (r : regex) (s : string) : option (string * groups) :=
  run r s [] (fun s' g => Some (s', g)).

(** [re.search(r, s)]: [group(0)] and the groups of the leftmost match. *)
Fixpoint search (r : regex) (s : string) : option (string * groups) :=
  match match_ r s with
  | Some (rest, g) => Some (consumed s rest, g)
  | None =>
      match s with
      | EmptyString => None
      | String _ s' => search r s'
      end
  end.

Definition found (r : regex) (s : string) : bool :=
  match search r s with Some _ => true | None => false end.

(** [re.split(r, s)] for a pattern without groups that reads at least one
    character; [acc] holds the current piece, reversed. *)
Fixpoint split_loop (fuel : nat) (r : regex) (s acc : string) : list string :=
  match fuel with
  | O => [Py.rev_onto acc s]
  | S fuel' =>
      match s with
      | EmptyString => [Py.rev_onto acc EmptyString]
      | String c s' =>
          match match_ r s with
          | Some (rest, _) =>
              if String.length rest <? String.length s
              then Py.rev_onto acc EmptyString :: split_loop fuel' r rest EmptyString
              else split_loop fuel' r s' (String c acc)
          | None => split_loop fuel' r s' (String c acc)
          end
      end
  end.

Definition split (r : regex) (s : string) : list string :=
  split_loop (S (String.length s)) r s EmptyString.

(** The words a pattern denotes. *)
Inductive matches : regex -> string -> Prop :=
| MEps : matches Eps EmptyString
| MCls p c : p c = true -> matches (Cls p) (String c EmptyString)
| MCat a b u v : matches a u -> matches b v -> matches (Cat a b) (u ++ v)%string
| MAltL a b u : matches a u -> matches (Alt a b) u
| MAltR a b u : matches b u -> matches (Alt a b) u
| MStar0 a : matches (Star a) EmptyString
| MStarS a u v : matches a u -> matches (Star a) v -> matches (Star a) (u ++ v)%string
| MGrp i a u : matches a u -> matches (Grp i a) u.

(** Patterns without star and group. *)
Fixpoint plain (r : regex) : bool :=
  match r with
  | Eps | Cls _ => true
  | Cat a b | Alt a b => plain a && plain b
  | Star _ | Grp _ _ => false
  end.

End Re.

Import Re.

Definition nl : string := String Py.LF "".

(** ** Python dictionaries: keys in insertion order *)

Module Dict.

Definition dict (V : Type) := list (string * V).

Fixpoint get {V} (k : string) (d : dict V) : option V :=
  match d with
  | [] => None
  | (k', v) :: d' => if String.eqb k k' then Some v else get k d'
  end.

Definition mem {V} (k : string) (d : dict V) : bool :=
  match get k d with Some _ => true | None => false end.

(** [d[k] = v]: an existing key keeps its place, a new one goes last. *)
Fixpoint set {V} (k : string) (v : V) (d : dict V) : dict V :=
  match d with
  | [] => [(k, v)]
  | (k', v') :: d' =>
      if String.eqb k k' then (k', v) :: d' else (k', v') :: set k v d'
  end.

Definition keys {V} (d : dict V) : list string := map fst d.

End Dict.

Import Dict.

(** ** parser.py *)

Module Parser.

Record Contact := {
  location : string;
  email : string;
  phone : string;
  linkedin : string;
  github : string;
  website : string }.

(** A job dictionary; [_parse_job_header] builds it without the key
    "achievements", which [_parse_experience] sets to [[]] straight away. *)
Record Job := {
  title : string;
  company : string;
  job_location : string;
  dates : string;
  description : string;
  achievements : list string }.

Record Edu := {
  degree : string;
  school : string;
  year : string;
  details : list string }.

Record ResumeData := {
  name : string;
  contact : Contact;
  summary : string;
  skills : dict (list string);
  experience : list Job;
  education : list Edu;
  certifications : list string;
  raw_sections : dict string }.

(** *** The patterns of the module *)

(** [[\w\.-]] *)
Definition word_dot_dash : regex :=
  Cls (fun c => Py.isword c || Py.has_char c ".-").
(** [[\w\.\-/]] *)
Definition word_dot_dash_slash : regex :=
  Cls (fun c => Py.isword c || Py.has_char c ".-/").
(** [[-.\s]?] *)
Definition sep_opt : regex :=
  Opt (Cls (fun c => Py.has_char c "-." || Py.isspace c)).

(** [[\w\.-]+@[\w\.-]+\.\w+] *)
Definition email_re : regex :=
  Cat (Plus word_dot_dash)
    (Cat (Chr "@") (Cat (Plus word_dot_dash) (Cat (Chr ".") (Plus word)))).

(** [\d{3}[-.\s]?\d{3}[-.\s]?\d{4}] *)
Definition phone_digits_re : regex :=
  Cat (Rep 3 digit) (Cat sep_opt (Cat (Rep 3 digit) (Cat sep_opt (Rep 4 digit)))).

(** [\(?\d{3}\)?[-.\s]?\d{3}[-.\s]?\d{4}] *)
Definition phone_re : regex :=
  Cat (Opt (Chr "("))
    (Cat (Rep 3 digit)
       (Cat (Opt (Chr ")"))
          (Cat sep_opt (Cat (Rep 3 digit) (Cat sep_opt (Rep 4 digit)))))).

(** [[Ll]inked[Ii]n:\s*([\w\.\-/]+)] *)
Definition linkedin_re : regex :=
  Cat (OneOf "Ll") (Cat (Lit "inked") (Cat (OneOf "Ii") (Cat (Lit "n:")
    (Cat (Star space) (Grp 1 (Plus word_dot_dash_slash)))))).

(** [[Gg]it[Hh]ub:\s*([\w\.\-/]+)] *)
Definition github_re : regex :=
  Cat (OneOf "Gg") (Cat (Lit "it") (Cat (OneOf "Hh") (Cat (Lit "ub:")
    (Cat (Star space) (Grp 1 (Plus word_dot_dash_slash)))))).

(** [[^*]] *)
Definition not_star : regex := Cls (fun c => negb (Ascii.eqb c "*")).

(** [\*\*([^*]+)\*\*:\s*(.+)] *)
Definition skill_line_re : regex :=
  Cat (Lit "**") (Cat (Grp 1 (Plus not_star)) (Cat (Lit "**:")
    (Cat (Star space) (Grp 2 (Plus dot))))).

(** [[Jj]an], [[Ff]eb], ... *)
Definition month (cap low : ascii) (rest : string) : regex :=
  Cat (Cls (fun c => Ascii.eqb c cap || Ascii.eqb c low)) (Lit rest).

(** [\d{4}|[Jj]an|[Ff]eb|[Mm]ar|[Aa]pr|[Mm]ay|[Jj]un|[Jj]ul|[Aa]ug|[Ss]ep|[Oo]ct|[Nn]ov|[Dd]ec] *)
Definition dates_re : regex :=
  Alt (Rep 4 digit)
  (Alt (month "J" "j" "an") (Alt (month "F" "f" "eb") (Alt (month "M" "m" "ar")
  (Alt (month "A" "a" "pr") (Alt (month "M" "m" "ay") (Alt (month "J" "j" "un")
  (Alt (month "J" "j" "ul") (Alt (month "A" "a" "ug") (Alt (month "S" "s" "ep")
  (Alt (month "O" "o" "ct") (Alt (month "N" "n" "ov") (month "D" "d" "ec")))))))))))).

(** [\*\*([^*]+)\*\*(.+)?] *)
Definition degree_re : regex :=
  Cat (Lit "**") (Cat (Grp 1 (Plus not_star)) (Cat (Lit "**")
    (Opt (Grp 2 (Plus dot))))).

(** [\s*[|\-]\s*] *)
Definition pipe_or_dash_re : regex :=
  Cat (Star space) (Cat (OneOf "|-") (Star space)).

(** [\d{4}] *)
Definition year_re : regex := Rep 4 digit.

(** [\|] *)
Definition pipe_re : regex := Chr "|".

(** *** ResumeParser *)

(** [self.lines = self.content.split('\n')] *)
Definition lines_of (content : string) : list string := Py.split Py.LF content.

Fixpoint _extract_name (lines : list string) : string :=
  match lines with
  | [] => "Resume"
  | l :: rest =>
      let line := Py.strip l in
      if Py.startswith "# " line then Py.strip (Py.skip 2 line)
      else _extract_name rest
  end.

(** The first loop of [_extract_contact]: the stripped non-empty lines after
    the first H1 and before the first H2. *)
Fixpoint contact_lines_from (lines : list string) (in_contact_section : bool)
    : list string :=
  match lines with
  | [] => []
  | l :: rest =>
      let line := Py.strip l in
      if Py.startswith "# " line then contact_lines_from rest true
      else if Py.startswith "## " line then []
      else if in_contact_section && Py.truthy line
           then line :: contact_lines_from rest in_contact_section
           else contact_lines_from rest in_contact_section
  end.

(** The last loop of [_extract_contact]; [cur] is [contact["location"]]. *)
Fixpoint location_from (contact_lines : list string) (cur : string) : string :=
  match contact_lines with
  | [] => cur
  | line :: rest =>
      let line_clean := Py.strip line in
      if Py.truthy line_clean
         && negb (Py.has_char "@" line_clean)
         && negb (Py.contains "linkedin" (Py.lower line_clean))
         && negb (Py.contains "github" (Py.lower line_clean))
         && negb (Re.found phone_digits_re line_clean)
      then
        let loc := Py.strip (hd "" (Re.split pipe_re line_clean)) in
        if Py.truthy loc then loc else location_from rest cur
      else location_from rest cur
  end.

Definition group0_or (r : regex) (text dflt : string) : string :=
  match Re.search r text with
  | Some (m, _) => m
  | None => dflt
  end.

Definition group1_or (r : regex) (text dflt : string) : string :=
  match Re.search r text with
  | Some (_, g) => match Re.group 1 g with Some v => v | None => dflt end
  | None => dflt
  end.

Definition _extract_contact (lines : list string) : Contact :=
  let contact_lines := contact_lines_from lines false in
  let contact_text := Py.join " " contact_lines in
  {| location := location_from contact_lines "";
     email := group0_or email_re contact_text "";
     phone := group0_or phone_re contact_text "";
     linkedin := group1_or linkedin_re contact_text "";
     github := group1_or github_re contact_text "";
     website := "" |}.

(** State of the loop of [_split_into_sections]; [current_section] is
    [None] for Python's [None]. *)
Record split_state := {
  sections : dict string;
  current_section : option string;
  section_content : list string }.

Definition section_open (st : split_state) : bool :=
  match current_section st with
  | Some n => Py.truthy n
  | None => false
  end.

Definition save_section (st : split_state) : dict string :=
  match current_section st with
  | Some n =>
      if Py.truthy n
      then Dict.set n (Py.join (String Py.LF "") (section_content st)) (sections st)
      else sections st
  | None => sections st
  end.

Definition split_step (st : split_state) (line : string) : split_state :=
  if Py.startswith "## " line then
    {| sections := save_section st;
       current_section := Some (Py.strip (Py.skip 3 line));
       section_content := [] |}
  else if section_open st then
    {| sections := sections st;
       current_section := current_section st;
       section_content := section_content st ++ [line] |}
  else st.

Definition _split_into_sections (lines : list string) : dict string :=
  save_section
    (fold_left split_step lines
       {| sections := []; current_section := None; section_content := [] |}).

Definition _parse_summary (content : string) : string :=
  Py.join " "
    (map Py.strip
       (filter (fun line => Py.truthy (Py.strip line)) (Py.split Py.LF content))).

(** *** Skills *)

Record skills_state := {
  skills_acc : dict (list string);
  current_category : string }.

Definition comma_items (text : string) : list string :=
  map Py.strip (Py.split "," text).

(** [skills[category]] once the key is known to be there. *)
Definition items_of (category : string) (d : dict (list string)) : list string :=
  match Dict.get category d with Some l => l | None => [] end.

(** The [else] branch of the loop: a regular skill item. *)
Definition add_skill_item (st : skills_state) (line : string) : skills_state :=
  let cat := current_category st in
  let d := if Dict.mem cat (skills_acc st) then skills_acc st
           else Dict.set cat [] (skills_acc st) in
  {| skills_acc :=
       if Py.has_char "," line
       then Dict.set cat (items_of cat d ++ comma_items line) d
       else Dict.set cat (items_of cat d ++ [line]) d;
     current_category := cat |}.

Definition skills_step (st : skills_state) (raw : string) : skills_state :=
  let line := Py.strip raw in
  if negb (Py.truthy line) then st
  else if Py.startswith "### " line then
    let cat := Py.strip (Py.skip 4 line) in
    {| skills_acc := Dict.set cat [] (skills_acc st); current_category := cat |}
  else if Py.startswith "**" line && Py.endswith "**" line then
    let cat := Py.strip (Py.strip_chars "*" line) in
    {| skills_acc := Dict.set cat [] (skills_acc st); current_category := cat |}
  else if Py.contains "**" line && Py.has_char ":" line then
    match Re.match_ skill_line_re line with
    | Some (_, g) =>
        match Re.group 1 g, Re.group 2 g with
        | Some g1, Some g2 =>
            let category := Py.strip g1 in
            let skills_text := Py.strip g2 in
            {| skills_acc := Dict.set category (comma_items skills_text) (skills_acc st);
               current_category := current_category st |}
        | _, _ => st
        end
    | None => st
    end
  else add_skill_item st line.

Definition skills_loop (lines : list string) (st : skills_state) : skills_state :=
  fold_left skills_step lines st.

Definition _parse_skills (content : string) : dict (list string) :=
  skills_acc
    (skills_loop (Py.split Py.LF content)
       {| skills_acc := []; current_category := "General" |}).

(** *** Experience *)

Definition looks_like_dates (part : string) : bool := Re.found dates_re part.

Definition _parse_job_header (header_line : string) : Job :=
  let parts := map Py.strip (Py.split "|" header_line) in
  let third_part := nth 2 parts "" in
  let dates3 :=
    if 3 <=? length parts
    then (if looks_like_dates third_part then third_part else "")
    else "" in
  {| title := if 1 <=? length parts then nth 0 parts "" else "";
     company := if 2 <=? length parts then nth 1 parts "" else "";
     job_location :=
       if 3 <=? length parts
       then (if looks_like_dates third_part then "" else third_part)
       else "";
     dates := if 4 <=? length parts then nth 3 parts "" else dates3;
     description := "";
     achievements := [] |}.

Record exp_state := {
  experiences : list Job;
  current_job : option Job }.

Definition flush_job (st : exp_state) : list Job :=
  match current_job st with
  | Some job => experiences st ++ [job]
  | None => experiences st
  end.

Definition set_dates (job : Job) (d : string) : Job :=
  {| title := title job; company := company job; job_location := job_location job;
     dates := d; description := description job; achievements := achievements job |}.

Definition set_description (job : Job) (d : string) : Job :=
  {| title := title job; company := company job; job_location := job_location job;
     dates := dates job; description := d; achievements := achievements job |}.

Definition add_achievement (job : Job) (a : string) : Job :=
  {| title := title job; company := company job; job_location := job_location job;
     dates := dates job; description := description job;
     achievements := achievements job ++ [a] |}.

Definition with_job (st : exp_state) (job : Job) : exp_state :=
  {| experiences := experiences st; current_job := Some job |}.

(** The third test of the chain: a description paragraph. *)
Definition wants_description (st : exp_state) (line_stripped : string) : bool :=
  match current_job st with
  | Some job =>
      Py.truthy line_stripped
      && negb (Py.startswith "-" line_stripped)
      && negb (Py.startswith "*" line_stripped)
      && negb (Py.truthy (description job))
  | None => false
  end.

Definition exp_step (st : exp_state) (line : string) : exp_state :=
  let line_stripped := Py.strip line in
  if Py.startswith "### " line_stripped then
    {| experiences := flush_job st;
       current_job := Some (_parse_job_header (Py.skip 4 line_stripped)) |}
  else if Py.startswith "*" line_stripped && Py.endswith "*" line_stripped then
    match current_job st with
    | Some job =>
        if negb (Py.truthy (dates job))
        then with_job st (set_dates job (Py.strip (Py.strip_chars "*" line_stripped)))
        else st
    | None => st
    end
  else if wants_description st line_stripped then
    match current_job st with
    | Some job => with_job st (set_description job line_stripped)
    | None => st
    end
  else if Py.startswith "- " line_stripped then
    match current_job st with
    | Some job => with_job st (add_achievement job (Py.strip (Py.skip 2 line_stripped)))
    | None => st
    end
  else st.

Definition _parse_experience (content : string) : list Job :=
  flush_job
    (fold_left exp_step (Py.split Py.LF content)
       {| experiences := []; current_job := None |}).

(** *** Education

    [current_edu] stays bound to an entry that was already appended when a
    degree line does not match the pattern, so the list can hold the same
    dictionary more than once and later detail lines reach every copy.  The
    entries therefore live in a store and the list holds references. *)

Record edu_state := {
  store : list Edu;
  education_refs : list nat;
  current_edu : option nat }.

Definition empty_edu : Edu :=
  {| degree := ""; school := ""; year := ""; details := [] |}.

Definition deref (st : list Edu) (i : nat) : Edu := nth i st empty_edu.

Fixpoint update_at (i : nat) (f : Edu -> Edu) (st : list Edu) : list Edu :=
  match st, i with
  | [], _ => []
  | e :: st', O => f e :: st'
  | e :: st', S i' => e :: update_at i' f st'
  end.

Definition add_detail (line : string) (e : Edu) : Edu :=
  {| degree := degree e; school := school e; year := year e;
     details := details e ++ [line] |}.

Definition flush_edu (st : edu_state) : list nat :=
  match current_edu st with
  | Some i => education_refs st ++ [i]
  | None => education_refs st
  end.

(** The dictionary built from a degree line that matched [degree_re]. *)
Definition new_edu (g1 : string) (g2 : option string) : Edu :=
  let rest0 :=
    match g2 with
    | Some r => if Py.truthy r then Py.strip r else ""
    | None => ""
    end in
  let rest := Py.strip (Py.lstrip_chars "|-" rest0) in
  let parts := Re.split pipe_or_dash_re rest in
  {| degree := Py.strip g1;
     school :=
       if Py.truthy rest0 && (1 <=? length parts)
       then Py.strip (nth 0 parts "") else "";
     year :=
       if Py.truthy rest0 && (2 <=? length parts)
       then match Re.search year_re (nth 1 parts "") with
            | Some (m, _) => m
            | None => Py.strip (nth 1 parts "")
            end
       else "";
     details := [] |}.

Definition edu_step (st : edu_state) (raw : string) : edu_state :=
  let line := Py.strip raw in
  if negb (Py.truthy line) then st
  else if Py.startswith "**" line && Py.contains "**" (Py.skip 2 line) then
    match Re.match_ degree_re line with
    | Some (_, g) =>
        match Re.group 1 g with
        | Some g1 =>
            {| store := store st ++ [new_edu g1 (Re.group 2 g)];
               education_refs := flush_edu st;
               current_edu := Some (length (store st)) |}
        | None =>
            {| store := store st; education_refs := flush_edu st;
               current_edu := current_edu st |}
        end
    | None =>
        {| store := store st; education_refs := flush_edu st;
           current_edu := current_edu st |}
    end
  else
    match current_edu st with
    | Some i =>
        {| store := update_at i (add_detail line) (store st);
           education_refs := education_refs st;
           current_edu := current_edu st |}
    | None => st
    end.

Definition _parse_education (content : string) : list Edu :=
  let st := fold_left edu_step (Py.split Py.LF content)
              {| store := []; education_refs := []; current_edu := None |} in
  map (deref (store st)) (flush_edu st).

(** *** Certifications *)

Definition cert_step (certs : list string) (raw : string) : list string :=
  let line := Py.strip raw in
  if Py.truthy line && negb (Py.startswith "#" line)
  then certs ++ [if Py.startswith "- " line then Py.skip 2 line else line]
  else certs.

Definition _parse_certifications (content : string) : list string :=
  fold_left cert_step (Py.split Py.LF content) [].

(** *** parse *)

Definition with_summary (d : ResumeData) (v : string) : ResumeData :=
  {| name := name d; contact := contact d; summary := v; skills := skills d;
     experience := experience d; education := education d;
     certifications := certifications d; raw_sections := raw_sections d |}.

Definition with_skills (d : ResumeData) (v : dict (list string)) : ResumeData :=
  {| name := name d; contact := contact d; summary := summary d; skills := v;
     experience := experience d; education := education d;
     certifications := certifications d; raw_sections := raw_sections d |}.

Definition with_experience (d : ResumeData) (v : list Job) : ResumeData :=
  {| name := name d; contact := contact d; summary := summary d; skills := skills d;
     experience := v; education := education d;
     certifications := certifications d; raw_sections := raw_sections d |}.

Definition with_education (d : ResumeData) (v : list Edu) : ResumeData :=
  {| name := name d; contact := contact d; summary := summary d; skills := skills d;
     experience := experience d; education := v;
     certifications := certifications d; raw_sections := raw_sections d |}.

Definition with_certifications (d : ResumeData) (v : list string) : ResumeData :=
  {| name := name d; contact := contact d; summary := summary d; skills := skills d;
     experience := experience d; education := education d;
     certifications := v; raw_sections := raw_sections d |}.

Definition with_raw_section (d : ResumeData) (k v : string) : ResumeData :=
  {| name := name d; contact := contact d; summary := summary d; skills := skills d;
     experience := experience d; education := education d;
     certifications := certifications d;
     raw_sections := Dict.set k v (raw_sections d) |}.

(** The body of the loop over [sections.items()]. *)
Definition parse_step (data : ResumeData) (section : string * string) : ResumeData :=
  let (section_name, section_content) := section in
  let section_lower := Py.lower section_name in
  if Py.contains "summary" section_lower then
    with_summary data (_parse_summary section_content)
  else if Py.contains "skill" section_lower then
    with_skills data (_parse_skills section_content)
  else if Py.contains "experience" section_lower then
    with_experience data (_parse_experience section_content)
  else if Py.contains "education" section_lower then
    with_education data (_parse_education section_content)
  else if Py.contains "certification" section_lower then
    with_certifications data (_parse_certifications section_content)
  else with_raw_section data section_name section_content.

Definition empty_contact : Contact :=
  {| location := ""; email := ""; phone := ""; linkedin := ""; github := "";
     website := "" |}.

(** [data] before the loop over the sections. *)
Definition initial_data (lines : list string) : ResumeData :=
  {| name := _extract_name lines;
     contact := _extract_contact lines;
     summary := "";
     skills := [];
     experience := [];
     education := [];
     certifications := [];
     raw_sections := [] |}.

(** [parse] on the lines the constructor has split. *)
Definition parse_lines (lines : list string) : ResumeData :=
  fold_left parse_step (_split_into_sections lines) (initial_data lines).

(** *** The file behind the parser *)

(** What [open] or [read] raises, with [str(e)], on a path that exists but
    gives no text: a directory, a file the process may not read, bytes that
    are not UTF-8.  None of them is a [FileNotFoundError]. *)
Inductive read_error : Type :=
| IsADirectoryError (msg : string)
| PermissionError (msg : string)
| UnicodeDecodeError (msg : string).

Inductive exn : Type :=
| FileNotFoundError (msg : string)
| ReadError (e : read_error).

Inductive result (A : Type) : Type :=
| Ok (a : A)
| Raise (e : exn).
Arguments Ok {A} a.
Arguments Raise {A} e.

Definition bind {A B} (m : result A) (f : A -> result B) : result B :=
  match m with
  | Ok a => f a
  | Raise e => Raise e
  end.

(** What is at a path that exists: a file that reads as a text, or what
    reading it raises. *)
Inductive entry : Type :=
| Text (text : string)
| Unreadable (e : read_error).

(** The paths that exist, with what is there. *)
Definition filesystem := string -> option entry.

Record ResumeParser := {
  markdown_path : string;
  content : string;
  lines : list string;
  current_line : nat }.

Definition _read_file (fs : filesystem) (markdown_path : string) : result string :=
  match fs markdown_path with
  | None => Raise (FileNotFoundError ("Resume file not found: " ++ markdown_path))
  | Some (Unreadable e) => Raise (ReadError e)
  | Some (Text text) => Ok text
  end.

(** [ResumeParser.__init__] *)
Definition init (fs : filesystem) (markdown_path : string) : result ResumeParser :=
  bind (_read_file fs markdown_path) (fun text =>
  Ok {| markdown_path := markdown_path;
        content := text;
        lines := lines_of text;
        current_line := 0 |}).

Definition parse (self : ResumeParser) : ResumeData := parse_lines (lines self).

Definition parse_resume (fs : filesystem) (markdown_path : string) : result ResumeData :=
  bind (init fs markdown_path) (fun parser => Ok (parse parser)).

(** [parse] on a text: what [parse_resume] returns when the file holds it. *)
Definition parse_text (text : string) : ResumeData := parse_lines (lines_of text).

End Parser.

(** ** The document object of python-docx, as far as the program uses it *)

Module Docx.

(** Lengths are in English Metric Units. *)
Definition Pt (points : Z) : Z := (points * 12700)%Z.
(** [Inches(0.25)] *)
Definition quarter_inch : Z := 228600%Z.

Inductive Alignment : Type := CENTER.

Record Run := {
  text : string;
  font_name : option string;
  font_size : option Z;
  bold : option bool;
  italic : option bool;
  color_rgb : option (nat * nat * nat) }.

(** The [w:bottom] child of a [w:pBdr] element. *)
Record Border := {
  val : string;
  sz : string;
  space : string;
  color : string }.

Record Paragraph := {
  runs : list Run;
  style : option string;
  alignment : option Alignment;
  space_before : option Z;
  space_after : option Z;
  left_indent : option Z;
  first_line_indent : option Z;
  bottom_border : option Border }.

Record Table := { cells : list (list string) }.

(** [paragraphs] and [tables] of the body, and the [target_ref] of every
    relationship of the document part. *)
Record Document := {
  paragraphs : list Paragraph;
  tables : list Table;
  rels : list string }.

(** [Paragraph.text] *)
Definition para_text (p : Paragraph) : string := String.concat "" (map text (runs p)).

(** [document.add_paragraph]: the new paragraph goes last. *)
Definition add_paragraph (p : Paragraph) (doc : Document) : Document :=
  {| paragraphs := paragraphs doc ++ [p]; tables := tables doc; rels := rels doc |}.

Definition add_paragraphs (ps : list Paragraph) (doc : Document) : Document :=
  fold_left (fun d p => add_paragraph p d) ps doc.

End Docx.

Import Docx.

(** ** docx_builder.py *)

Module DocxBuilder.

Import Parser.

(** One entry of [styles["fonts"]]; a key can be missing. *)
Record FontConfig := {
  fc_name : option string;
  fc_size : option Z;
  fc_bold : option bool }.

(** [styles.yaml] as [build] reads it; sizes are whole points. *)
Record Styles := {
  fonts_body : FontConfig;
  fonts_name : FontConfig;
  fonts_section_header : FontConfig;
  fonts_job_title : FontConfig;
  fonts_dates : option FontConfig;
  spacing_paragraph : Z;
  spacing_section : Z;
  spacing_before_header : option Z;
  spacing_after_header : option Z }.

Definition _default_styles : Styles :=
  {| fonts_body := {| fc_name := Some "Calibri"; fc_size := Some 11%Z; fc_bold := None |};
     fonts_name := {| fc_name := Some "Calibri"; fc_size := Some 16%Z; fc_bold := Some true |};
     fonts_section_header :=
       {| fc_name := Some "Calibri"; fc_size := Some 12%Z; fc_bold := Some true |};
     fonts_job_title :=
       {| fc_name := Some "Calibri"; fc_size := Some 11%Z; fc_bold := Some true |};
     fonts_dates := None;
     spacing_paragraph := 6%Z;
     spacing_section := 12%Z;
     spacing_before_header := None;
     spacing_after_header := None |}.

(** [d.get(key, default)] *)
Definition get_or {A} (o : option A) (dflt : A) : A :=
  match o with Some a => a | None => dflt end.

(** A run with the font name and size of [fc] and black colour. *)
Definition styled_run (fc : FontConfig) (dflt_size : Z) (t : string)
    (b i : option bool) : Run :=
  {| text := t;
     font_name := Some (get_or (fc_name fc) "Calibri");
     font_size := Some (Pt (get_or (fc_size fc) dflt_size));
     bold := b;
     italic := i;
     color_rgb := Some (0, 0, 0) |}.

Definition plain_paragraph (rs : list Run) (after : option Z) : Paragraph :=
  {| runs := rs; style := None; alignment := None; space_before := None;
     space_after := after; left_indent := None; first_line_indent := None;
     bottom_border := None |}.

Definition centered_paragraph (rs : list Run) (after : option Z) : Paragraph :=
  {| runs := rs; style := None; alignment := Some CENTER; space_before := None;
     space_after := after; left_indent := None; first_line_indent := None;
     bottom_border := None |}.

(** An empty paragraph whose [space_after] is set. *)
Definition spacing_para (after : Z) : Paragraph := plain_paragraph [] (Some (Pt after)).

Definition nonempty_strings (l : list string) : list string := filter Py.truthy l.

Section Builder.

Variable styles : Styles.

Definition contact_lines (c : Contact) : list string :=
  let line1_parts := nonempty_strings [location c; email c; phone c] in
  let line2_parts :=
    (if Py.truthy (linkedin c) then ["LinkedIn: " ++ linkedin c]%string else [])
    ++ (if Py.truthy (github c) then ["GitHub: " ++ github c]%string else [])
    ++ (if Py.truthy (website c) then [website c] else []) in
  (match line1_parts with [] => [] | _ => [Py.join "  " line1_parts] end)
  ++ (match line2_parts with [] => [] | _ => [Py.join " | " line2_parts] end).

Definition header_block (nm : string) (c : Contact) : list Paragraph :=
  let fc := fonts_name styles in
  [centered_paragraph
     [styled_run fc 16 (Py.upper nm) (Some (get_or (fc_bold fc) true)) None]
     (Some (Pt 6))]
  ++ map (fun contact_line =>
            centered_paragraph
              [styled_run (fonts_body styles) 11 contact_line None None]
              (Some (Pt 3)))
       (contact_lines c)
  ++ [spacing_para (spacing_section styles)].

Definition _add_header (nm : string) (c : Contact) (doc : Document) : Document :=
  add_paragraphs (header_block nm c) doc.

Definition section_border : Border :=
  {| val := "single"; sz := "6"; space := "1"; color := "000000" |}.

(** The paragraph [_add_section_header] appends. *)
Definition section_header (title : string) : Paragraph :=
  let fc := fonts_section_header styles in
  {| runs := [styled_run fc 12 (Py.upper title) (Some (get_or (fc_bold fc) true)) None];
     style := None;
     alignment := None;
     space_before := Some (Pt (get_or (spacing_before_header styles) 6%Z));
     space_after := Some (Pt (get_or (spacing_after_header styles) 3%Z));
     left_indent := None;
     first_line_indent := None;
     bottom_border := Some section_border |}.

Definition _add_section_header (title : string) (doc : Document) : Document :=
  add_paragraph (section_header title) doc.

Definition section_block (title content : string) : list Paragraph :=
  section_header title
  :: (if Py.truthy (Py.strip content)
      then [plain_paragraph
              [styled_run (fonts_body styles) 11 (Py.strip content) None None]
              (Some (Pt (spacing_section styles)))]
      else []).

Definition _add_section (title content : string) (doc : Document) : Document :=
  add_paragraphs (section_block title content) doc.

Definition skill_paragraphs (sk : dict (list string)) : list Paragraph :=
  flat_map (fun kv : string * list string =>
              let (category, skill_list) := kv in
              match skill_list with
              | [] => []
              | _ =>
                  let fc := fonts_body styles in
                  [plain_paragraph
                     [styled_run fc 11 category (Some true) None;
                      styled_run fc 11 (nl ++ Py.join ", " skill_list) None None]
                     (Some (Pt (spacing_paragraph styles)))]
              end) sk.

Definition skills_block (sk : dict (list string)) : list Paragraph :=
  section_header "Core Skills" :: skill_paragraphs sk
  ++ [spacing_para (spacing_section styles)].

Definition _add_skills_section (sk : dict (list string)) (doc : Document) : Document :=
  add_paragraphs (skills_block sk) doc.

Definition bullet_paragraph (t : string) (indent : bool) : Paragraph :=
  {| runs := [styled_run (fonts_body styles) 11 t None None];
     style := Some "List Bullet";
     alignment := None;
     space_before := None;
     space_after := Some (Pt 3);
     left_indent := if indent then Some quarter_inch else None;
     first_line_indent := if indent then Some (- quarter_inch)%Z else None;
     bottom_border := None |}.

(** The paragraphs of one job; [last] tells whether it is the last one. *)
Definition job_paragraphs (job : Job) (last : bool) : list Paragraph :=
  let company_parts := nonempty_strings [company job; job_location job] in
  [plain_paragraph
     (styled_run (fonts_job_title styles) 11 (title job) (Some true) None
      :: match company_parts with
         | [] => []
         | _ => [styled_run (fonts_body styles) 11
                   (" | " ++ Py.join " | " company_parts) None None]
         end)
     (Some (Pt 3))]
  ++ (if Py.truthy (dates job)
      then [plain_paragraph
              [styled_run (get_or (fonts_dates styles) (fonts_body styles)) 11
                 (dates job) None (Some true)]
              (Some (Pt 6))]
      else [])
  ++ (if Py.truthy (description job)
      then [plain_paragraph
              [styled_run (fonts_body styles) 11 (description job) None None]
              (Some (Pt 6))]
      else [])
  ++ map (fun a => bullet_paragraph a true) (achievements job)
  ++ (if last then [] else [spacing_para (spacing_paragraph styles)]).

Fixpoint jobs_paragraphs (jobs : list Job) : list Paragraph :=
  match jobs with
  | [] => []
  | [job] => job_paragraphs job true
  | job :: rest => job_paragraphs job false ++ jobs_paragraphs rest
  end.

Definition experience_block (jobs : list Job) : list Paragraph :=
  section_header "Professional Experience" :: jobs_paragraphs jobs
  ++ [spacing_para (spacing_section styles)].

Definition _add_experience_section (jobs : list Job) (doc : Document) : Document :=
  add_paragraphs (experience_block jobs) doc.

Definition edu_paragraphs (edu : Edu) : list Paragraph :=
  let fc := fonts_body styles in
  let edu_parts :=
    (if Py.truthy (school edu) then [school edu] else [])
    ++ (if Py.truthy (year edu) then ["(" ++ year edu ++ ")"]%string else []) in
  plain_paragraph
    (styled_run fc 11 (degree edu) (Some true) None
     :: match edu_parts with
        | [] => []
        | first :: _ =>
            let edu_text :=
              if length edu_parts =? 2 then Py.join " - " edu_parts else first in
            [styled_run fc 11 (" | " ++ edu_text) None None]
        end)
    (Some (Pt (spacing_paragraph styles)))
  :: map (fun detail => plain_paragraph [styled_run fc 11 detail None None] (Some (Pt 3)))
       (filter (fun detail => Py.truthy (Py.strip detail)) (details edu)).

Definition education_block (edus : list Edu) : list Paragraph :=
  section_header "Education" :: flat_map edu_paragraphs edus
  ++ [spacing_para (spacing_section styles)].

Definition _add_education_section (edus : list Edu) (doc : Document) : Document :=
  add_paragraphs (education_block edus) doc.

Definition certifications_block (certs : list string) : list Paragraph :=
  section_header "Certifications" :: map (fun c => bullet_paragraph c false) certs
  ++ [spacing_para (spacing_section styles)].

Definition _add_certifications_section (certs : list string) (doc : Document)
    : Document :=
  add_paragraphs (certifications_block certs) doc.

(** [build], threading [self.document] through the calls. *)
Definition build (resume_data : ResumeData) (document : Document) : Document :=
  let d1 := _add_header (name resume_data) (contact resume_data) document in
  let d2 := if Py.truthy (summary resume_data)
            then _add_section "Summary" (summary resume_data) d1 else d1 in
  let d3 := match skills resume_data with
            | [] => d2
            | _ => _add_skills_section (skills resume_data) d2
            end in
  let d4 := match experience resume_data with
            | [] => d3
            | _ => _add_experience_section (experience resume_data) d3
            end in
  let d5 := match education resume_data with
            | [] => d4
            | _ => _add_education_section (education resume_data) d4
            end in
  let d6 := match certifications resume_data with
            | [] => d5
            | _ => _add_certifications_section (certifications resume_data) d5
            end in
  fold_left (fun d (kv : string * string) => _add_section (fst kv) (snd kv) d)
    (raw_sections resume_data) d6.

End Builder.

(** [Document()] without a template: an empty body. *)
Definition empty_document : Document := {| paragraphs := []; tables := []; rels := [] |}.

End DocxBuilder.

(** ** validators/ats_checker.py *)

Module ATSValidator.

Record ValidationResult := {
  check_name : string;
  passed : bool;
  message : string;
  severity : string }.

Definition ATS_FRIENDLY_FONTS : list string :=
  ["Calibri"; "Arial"; "Times New Roman"; "Georgia"; "Helvetica"].

(** [MAX_FILE_SIZE_MB = 1.0], in bytes. *)
Definition MAX_FILE_SIZE_BYTES : N := (1024 * 1024)%N.

Definition MIN_PAGES : nat := 1.
Definition MAX_PAGES : nat := 2.

(** What [validate] can see of the file at [docx_path]: whether it exists,
    its size in bytes, and what [Document(docx_path)] gives: the document,
    or the text of the exception. *)
Record Artifact := {
  docx_path : string;
  file_exists : bool;
  st_size : N;
  opened : string + Document }.

(** [styles.get("ats_rules", {}).get("standard_sections")], when present. *)
Record Styles := { standard_sections : option (list string) }.

Definition default_standard_sections : list string :=
  ["Summary"; "Professional Summary";
   "Core Skills"; "Skills"; "Technical Skills";
   "Experience"; "Professional Experience"; "Work Experience";
   "Education"].

Definition two_digits (n : N) : string :=
  if (n <? 10)%N then ("0" ++ Py.str_of_N n)%string else Py.str_of_N n.

(** [f"{size / (1024 * 1024):.2f}"]: the quotient by a power of two is exact
    in a double for every size below 2^53, and the format rounds it to the
    nearest hundredth, a tie going to the even one. *)
Definition format_mb (size : N) : string :=
  let h := (size * 100)%N in
  let q := (h / MAX_FILE_SIZE_BYTES)%N in
  let r := (h mod MAX_FILE_SIZE_BYTES)%N in
  let q' :=
    match (2 * r ?= MAX_FILE_SIZE_BYTES)%N with
    | Gt => (q + 1)%N
    | Eq => if N.even q then q else (q + 1)%N
    | Lt => q
    end in
  (Py.str_of_N (q' / 100)%N ++ "." ++ two_digits (q' mod 100)%N)%string.

Definition mem_string (x : string) (l : list string) : bool :=
  existsb (String.eqb x) l.

Section Validator.

(** The order in which Python iterates over the set built from a list; it
    depends on the hashes of the strings. *)
Variable set_order : list string -> list string.

Variable styles : Styles.

Definition _check_file_size (size : N) : ValidationResult :=
  if (size <=? MAX_FILE_SIZE_BYTES)%N then
    {| check_name := "File Size";
       passed := true;
       message := "File size: " ++ format_mb size ++ "MB (under 1.0MB limit)";
       severity := "info" |}
  else
    {| check_name := "File Size";
       passed := false;
       message := "File size (" ++ format_mb size ++ "MB) exceeds 1.0MB limit";
       severity := "critical" |}.

(** The names added to [non_ats_fonts], in the order of the runs. *)
Definition non_ats_fonts (doc : Document) : list string :=
  flat_map (fun para =>
    flat_map (fun run =>
      match font_name run with
      | Some fname =>
          if Py.truthy fname && negb (mem_string fname ATS_FRIENDLY_FONTS)
          then [fname] else []
      | None => []
      end) (runs para)) (paragraphs doc).

Definition _check_fonts (doc : Document) : ValidationResult :=
  match non_ats_fonts doc with
  | [] =>
      {| check_name := "Fonts";
         passed := true;
         message := "All fonts are ATS-friendly";
         severity := "info" |}
  | fonts =>
      {| check_name := "Fonts";
         passed := false;
         message := "Non-ATS fonts detected: " ++ Py.join ", " (set_order fonts)
                    ++ ". Use " ++ Py.join ", " ATS_FRIENDLY_FONTS;
         severity := "warning" |}
  end.

Definition _check_tables (doc : Document) : ValidationResult :=
  let table_count := length (tables doc) in
  if table_count =? 0 then
    {| check_name := "Tables";
       passed := true;
       message := "No tables found (good for ATS)";
       severity := "info" |}
  else
    {| check_name := "Tables";
       passed := false;
       message := "Document contains " ++ Py.str_of_nat table_count
                  ++ " table(s). ATS systems may not parse tables correctly.";
       severity := "critical" |}.

Definition image_count (doc : Document) : nat :=
  length (filter (fun target_ref => Py.contains "image" (Py.lower target_ref)) (rels doc)).

Definition _check_images (doc : Document) : ValidationResult :=
  if image_count doc =? 0 then
    {| check_name := "Images";
       passed := true;
       message := "No images found (good for ATS)";
       severity := "info" |}
  else
    {| check_name := "Images";
       passed := false;
       message := "Document contains " ++ Py.str_of_nat (image_count doc)
                  ++ " image(s). ATS systems cannot parse images.";
       severity := "critical" |}.

(** [[p.text.strip() for p in doc.paragraphs if p.text.strip()]] *)
Definition paragraph_text (doc : Document) : list string :=
  filter Py.truthy (map (fun p => Py.strip (para_text p)) (paragraphs doc)).

Definition found_sections (doc : Document) : list string :=
  filter (fun section =>
            existsb (fun t => Py.contains (Py.lower section) (Py.lower t))
              (paragraph_text doc))
    (match standard_sections styles with
     | Some l => l
     | None => default_standard_sections
     end).

Definition _check_sections (doc : Document) : ValidationResult :=
  let found := found_sections doc in
  let has_experience := existsb (fun s => Py.contains "experience" (Py.lower s)) found in
  let has_education := existsb (fun s => Py.contains "education" (Py.lower s)) found in
  if has_experience && has_education then
    {| check_name := "Sections";
       passed := true;
       message := "Found standard sections: " ++ Py.join ", " (set_order found);
       severity := "info" |}
  else
    let missing :=
      (if has_experience then [] else ["Experience"])
      ++ (if has_education then [] else ["Education"]) in
    {| check_name := "Sections";
       passed := false;
       message := "Missing standard sections: " ++ Py.join ", " missing;
       severity := "warning" |}.

(** [len([p for p in doc.paragraphs if p.text.strip()])] *)
Definition paragraph_count (doc : Document) : nat :=
  length (filter (fun p => Py.truthy (Py.strip (para_text p))) (paragraphs doc)).

Definition estimated_pages (doc : Document) : nat :=
  Nat.max 1 (paragraph_count doc / 30).

Definition _check_page_length (doc : Document) : ValidationResult :=
  let pages := estimated_pages doc in
  if (MIN_PAGES <=? pages) && (pages <=? MAX_PAGES) then
    {| check_name := "Length";
       passed := true;
       message := "Resume length: ~" ++ Py.str_of_nat pages ++ " page(s) (optimal)";
       severity := "info" |}
  else if pages <? MIN_PAGES then
    {| check_name := "Length";
       passed := false;
       message := "Resume may be too short (~" ++ Py.str_of_nat pages
                  ++ " page). Consider adding more detail.";
       severity := "info" |}
  else
    {| check_name := "Length";
       passed := false;
       message := "Resume may be too long (~" ++ Py.str_of_nat pages
                  ++ " pages). Consider condensing to " ++ Py.str_of_nat MAX_PAGES
                  ++ " pages.";
       severity := "warning" |}.

Definition spacing_issues (doc : Document) : nat :=
  length (filter (fun para => negb (Py.truthy (Py.strip (para_text para))))
            (paragraphs doc)).

Definition long_lines (doc : Document) : nat :=
  length (filter (fun para => 150 <? String.length (para_text para)) (paragraphs doc)).

Definition _check_formatting (doc : Document) : list ValidationResult :=
  [if 10 <? spacing_issues doc then
     {| check_name := "Spacing";
        passed := false;
        message := "Excessive empty paragraphs (" ++ Py.str_of_nat (spacing_issues doc)
                   ++ "). Clean up spacing for ATS.";
        severity := "warning" |}
   else
     {| check_name := "Spacing";
        passed := true;
        message := "Spacing looks good";
        severity := "info" |}]
  ++ (if 5 <? long_lines doc then
        [{| check_name := "Line Length";
            passed := false;
            message := Py.str_of_nat (long_lines doc)
                       ++ " paragraphs have very long lines. Consider breaking them up.";
            severity := "info" |}]
      else []).

Definition is_critical_failure (r : ValidationResult) : bool :=
  negb (passed r) && String.eqb (severity r) "critical".

(** The checks [validate] runs on a document it could open. *)
Definition content_checks (size : N) (doc : Document) : list ValidationResult :=
  [_check_file_size size;
   _check_fonts doc;
   _check_tables doc;
   _check_images doc;
   _check_sections doc;
   _check_page_length doc]
  ++ _check_formatting doc.

Definition validate (art : Artifact) : bool * list ValidationResult :=
  if negb (file_exists art) then
    (false,
     [{| check_name := "File Existence";
         passed := false;
         message := "File not found: " ++ docx_path art;
         severity := "critical" |}])
  else
    match opened art with
    | inl e =>
        (false,
         [{| check_name := "File Format";
             passed := false;
             message := "Cannot open as .docx file: " ++ e;
             severity := "critical" |}])
    | inr doc =>
        let results := content_checks (st_size art) doc in
        let critical_failures := filter is_critical_failure results in
        (length critical_failures =? 0, results)
    end.

End Validator.

(** *** The report

    The status glyphs of the source are not ASCII text; they are kept as
    they come. *)

Section Report.

(** The marks for a passed check, a critical failure and any other failure,
    and the marks that head the lists of critical issues and suggestions. *)
Variable glyph_passed glyph_critical glyph_warning : string.
Variable glyph_siren glyph_info : string.

(** [ValidationResult.__str__] *)
Definition __str__ (r : ValidationResult) : string :=
  let status :=
    if passed r then glyph_passed
    else if String.eqb (severity r) "critical" then glyph_critical
    else glyph_warning in
  (status ++ " " ++ check_name r ++ ": " ++ message r)%string.

Fixpoint repeat_string (s : string) (n : nat) : string :=
  match n with
  | O => EmptyString
  | S n' => (s ++ repeat_string s n')%string
  end.

Definition failed_with (sev : string) (r : ValidationResult) : bool :=
  negb (passed r) && String.eqb (severity r) sev.

(** A header line, the results of the group and an empty line; nothing for
    an empty group. *)
Definition report_group (header : string) (group : list ValidationResult)
    : list string :=
  match group with
  | [] => []
  | _ => header :: map (fun result => ("  " ++ __str__ result)%string) group ++ [EmptyString]
  end.

(** The lines [generate_report] joins. *)
Definition report_lines (results : list ValidationResult) : list string :=
  let critical := filter (failed_with "critical") results in
  let warnings := filter (failed_with "warning") results in
  let info := filter (failed_with "info") results in
  let passed_results := filter passed results in
  [(nl ++ repeat_string "=" 70)%string;
   "ATS COMPLIANCE VALIDATION REPORT";
   (repeat_string "=" 70 ++ nl)%string]
  ++ [match critical with
      | [] => (glyph_passed ++ " OVERALL STATUS: ATS-COMPLIANT")%string
      | _ => (glyph_critical ++ " OVERALL STATUS: NOT ATS-COMPLIANT")%string
      end]
  ++ [EmptyString]
  ++ report_group (glyph_siren ++ " CRITICAL ISSUES (Must Fix):")%string critical
  ++ report_group (glyph_warning ++ "  WARNINGS (Should Fix):")%string warnings
  ++ report_group (glyph_info ++ "  SUGGESTIONS:")%string info
  ++ [(glyph_passed ++ " PASSED CHECKS:")%string]
  ++ map (fun result => ("  " ++ __str__ result)%string) passed_results
  ++ [(nl ++ repeat_string "=" 70)%string].

Definition generate_report (results : list ValidationResult) : string :=
  Py.join nl (report_lines results).

(** [validate_resume]: a validator with the default styles file, which
    [styles] stands for. *)
Definition validate_resume (set_order : list string -> list string) (styles : Styles)
    (art : Artifact) : bool * string :=
  let (is_valid, results) := validate set_order styles art in
  (is_valid, generate_report results).

End Report.

End ATSValidator.

(** ** exporter.py *)

Module Exporter.

(** What a call raises, with [str(e)]: [export] has a handler for
    [FileNotFoundError] and one for any other [Exception]. *)
Inductive raised : Type :=
| NotFound (text : string)
| OtherException (text : string).

Definition of_exn (e : Parser.exn) : raised :=
  match e with
  | Parser.FileNotFoundError msg => NotFound msg
  | Parser.ReadError (Parser.IsADirectoryError msg) => OtherException msg
  | Parser.ReadError (Parser.PermissionError msg) => OtherException msg
  | Parser.ReadError (Parser.UnicodeDecodeError msg) => OtherException msg
  end.

Record ExportResults := {
  success : bool;
  input_file : string;
  output_file : string;
  errors : list string;
  warnings : list string;
  validation : option (bool * list ATSValidator.ValidationResult) }.

Definition set_success (b : bool) (results : ExportResults) : ExportResults :=
  {| success := b;
     input_file := input_file results;
     output_file := output_file results;
     errors := errors results;
     warnings := warnings results;
     validation := validation results |}.

Definition set_validation (v : option (bool * list ATSValidator.ValidationResult))
    (results : ExportResults) : ExportResults :=
  {| success := success results;
     input_file := input_file results;
     output_file := output_file results;
     errors := errors results;
     warnings := warnings results;
     validation := v |}.

(** [results["errors"].append(msg)] *)
Definition append_error (msg : string) (results : ExportResults) : ExportResults :=
  {| success := success results;
     input_file := input_file results;
     output_file := output_file results;
     errors := errors results ++ [msg];
     warnings := warnings results;
     validation := validation results |}.

(** [results["warnings"].append(msg)] *)
Definition append_warning (msg : string) (results : ExportResults) : ExportResults :=
  {| success := success results;
     input_file := input_file results;
     output_file := output_file results;
     errors := errors results;
     warnings := warnings results ++ [msg];
     validation := validation results |}.

(** The two handlers of [export]. *)
Definition handle (results : ExportResults) (e : raised) : ExportResults :=
  match e with
  | NotFound text => append_error ("File not found: " ++ text) results
  | OtherException text => append_error ("Export failed: " ++ text) results
  end.

(** One turn of the loop over the validation results. *)
Definition message_step (results : ExportResults) (vr : ATSValidator.ValidationResult)
    : ExportResults :=
  if negb (ATSValidator.passed vr) then
    if String.eqb (ATSValidator.severity vr) "critical"
    then append_error (ATSValidator.message vr) results
    else append_warning (ATSValidator.message vr) results
  else results.

Section World.

(** The markdown files that exist. *)
Variable fs : Parser.filesystem.
(** [DocxBuilder(self.template_path)]: the styles it loads and the document
    of the template, or a new one, after [_setup_document]. *)
Variable new_builder : raised + (DocxBuilder.Styles * Docx.Document).
(** [builder.save(output_path)]: what it raises, if it does. *)
Variable save : Docx.Document -> string -> option raised.
(** The file the validator finds at the path after the document was saved. *)
Variable stored : Docx.Document -> string -> ATSValidator.Artifact.
(** The validator of the exporter: its styles, and the order in which a set
    of names is joined. *)
Variable set_order : list string -> list string.
Variable validator_styles : ATSValidator.Styles.

Definition export (markdown_path output_path : string) (validate : bool) : ExportResults :=
  let results := {| success := false;
                    input_file := markdown_path;
                    output_file := output_path;
                    errors := [];
                    warnings := [];
                    validation := None |} in
  match Parser.init fs markdown_path with
  | Parser.Raise e => handle results (of_exn e)
  | Parser.Ok parser =>
      let resume_data := Parser.parse parser in
      match new_builder with
      | inl e => handle results e
      | inr (styles, template) =>
          let document := DocxBuilder.build styles resume_data template in
          match save document output_path with
          | Some e => handle results e
          | None =>
              let results := set_success true results in
              if validate then
                let (is_valid, validation_results) :=
                  ATSValidator.validate set_order validator_styles
                    (stored document output_path) in
                let results := set_validation (Some (is_valid, validation_results)) results in
                fold_left message_step validation_results results
              else results
          end
      end
  end.

End World.

End Exporter.

(** ** Inputs and notions of the specification *)

Module Spec.

Import Parser.

(** Concrete scenario A. *)
Definition scenario_a : string :=
  ("# Jane Doe" ++ nl ++ "NYC | jane@x.com | 555-123-4567" ++ nl
   ++ "## Education" ++ nl ++ "**BS Computer Science** | MIT | 2020" ++ nl)%string.

(** Scenario A parsed: the only contact line holds the address and the phone
    number, so no location is taken from it. *)
Definition scenario_a_data : ResumeData :=
  {| name := "Jane Doe";
     contact :=
       {| location := ""; email := "jane@x.com"; phone := "555-123-4567";
          linkedin := ""; github := ""; website := "" |};
     summary := "";
     skills := [];
     experience := [];
     education :=
       [{| degree := "BS Computer Science"; school := "MIT"; year := "2020";
           details := [] |}];
     certifications := [];
     raw_sections := [] |}.

(** Concrete scenario C: a skills section with two subheadings. *)
Definition scenario_c : string :=
  ("### Languages" ++ nl ++ "Python, Go" ++ nl ++ "### Cloud" ++ nl ++ "AWS" ++ nl)%string.


(** The substrings that give a section its type, in the order of precedence
    the specification fixes. *)
Inductive Category : Type :=
| Summary | Skills | Experience | Education | Certifications | Other.

Definition keyword_table : list (string * Category) :=
  [("summary", Summary); ("skill", Skills); ("experience", Experience);
   ("education", Education); ("certification", Certifications)].


(** The first category whose keyword the lowercased name contains. *)
Definition category_of (section_name : string) : Category :=
  match find (fun kc => Py.contains (fst kc) (Py.lower section_name)) keyword_table with
  | Some (_, c) => c
  | None => Other
  end.

(** Where a section of a given category goes. *)
Definition route (data : ResumeData) (c : Category) (section_name section_content : string)
    : ResumeData :=
  match c with
  | Summary => with_summary data (_parse_summary section_content)
  | Skills => with_skills data (_parse_skills section_content)
  | Experience => with_experience data (_parse_experience section_content)
  | Education => with_education data (_parse_education section_content)
  | Certifications => with_certifications data (_parse_certifications section_content)
  | Other => with_raw_section data section_name section_content
  end.

(** A section header is the paragraph with the bottom border rule. *)
Definition is_section_header (p : Paragraph) : bool :=
  match bottom_border p with Some _ => true | None => false end.

(** A document with a summary and skills and nothing else. *)
Definition summary_and_skills : ResumeData :=
  {| name := "Jane Doe";
     contact := {| location := "NYC"; email := "jane@x.com"; phone := "";
                   linkedin := ""; github := "jane"; website := "" |};
     summary := "Engineer.";
     skills := [("Languages", ["Python"; "Go"])];
     experience := [];
     education := [];
     certifications := [];
     raw_sections := [] |}.

(** The tests that lead a stripped line of a skills section to the [else]
    branch of the loop: a regular skill item. *)
Definition is_plain_skill_line (line : string) : bool :=
  Py.truthy line
  && negb (Py.startswith "### " line)
  && negb (Py.startswith "**" line && Py.endswith "**" line)
  && negb (Py.contains "**" line && Py.has_char ":" line).

(** The tests that lead a stripped line to the branch of the pattern
    [**Category**: item, item]. *)
Definition is_bold_colon_line (line : string) : bool :=
  Py.truthy line
  && negb (Py.startswith "### " line)
  && negb (Py.startswith "**" line && Py.endswith "**" line)
  && (Py.contains "**" line && Py.has_char ":" line).

(** The items a regular skill line adds. *)
Definition plain_items (line : string) : list string :=
  if Py.has_char "," line then comma_items line else [line].

(** A bold label with a colon, then a plain line. *)
Definition bold_colon_then_plain : string :=
  ("**Languages**: Python, Go" ++ nl ++ "Rust")%string.

(** Four digits in a row. *)
Definition four_digits (u : string) : Prop :=
  exists d1 d2 d3 d4,
    u = String d1 (String d2 (String d3 (String d4 EmptyString)))
    /\ Py.isdigit d1 = true /\ Py.isdigit d2 = true
    /\ Py.isdigit d3 = true /\ Py.isdigit d4 = true.

(** The spellings the program knows a month by: the three-letter
    abbreviations, capitalised or in lower case; a month name written that
    way starts with its abbreviation. *)
Definition month_abbreviations : list string :=
  ["Jan"; "jan"; "Feb"; "feb"; "Mar"; "mar"; "Apr"; "apr"; "May"; "may";
   "Jun"; "jun"; "Jul"; "jul"; "Aug"; "aug"; "Sep"; "sep"; "Oct"; "oct";
   "Nov"; "nov"; "Dec"; "dec"].

(** A segment holds a run of four digits or a month abbreviation in one of
    these spellings. *)
Definition dates_like (segment : string) : Prop :=
  exists before u after,
    segment = (before ++ u ++ after)%string
    /\ (four_digits u \/ In u month_abbreviations).

(** The months as the specification names them: a month name or its
    abbreviation, however it is written. *)
Definition month_words : list string :=
  ["january"; "february"; "march"; "april"; "may"; "june"; "july"; "august";
   "september"; "october"; "november"; "december";
   "jan"; "feb"; "mar"; "apr"; "jun"; "jul"; "aug"; "sep"; "oct"; "nov"; "dec"].

(** A segment holds a run of four digits or a month name or abbreviation,
    in any case. *)
Definition names_dates (segment : string) : Prop :=
  exists before u after,
    segment = (before ++ u ++ after)%string
    /\ (four_digits u \/ In (Py.lower u) month_words).

(** A file system with one file. *)
Definition one_file (path text : string) : filesystem :=
  fun p => if String.eqb p path then Some (Text text) else None.



(** One table, half a megabyte, no paragraph. *)
Definition one_table_document : Document :=
  {| paragraphs := []; tables := [{| cells := [["a"; "b"]] |}]; rels := [] |}.

Definition one_table_artifact : ATSValidator.Artifact :=
  {| ATSValidator.docx_path := "resume.docx";
     ATSValidator.file_exists := true;
     ATSValidator.st_size := 524288%N;
     ATSValidator.opened := inr one_table_document |}.


Definition no_styles : ATSValidator.Styles := {| ATSValidator.standard_sections := None |}.

Definition insertion_order (l : list string) : list string := nodup string_dec l.


(** No character other than white space; the empty text is such a text. *)
Fixpoint only_white_space (s : string) : bool :=
  match s with
  | EmptyString => true
  | String c rest => Py.isspace c && only_white_space rest
  end.

(** An empty paragraph: its text shows nothing. *)
Definition is_empty_paragraph (p : Paragraph) : bool := only_white_space (para_text p).

(** A paragraph whose text exceeds 150 characters. *)
Definition exceeds_150_characters (p : Paragraph) : bool :=
  negb (String.length (para_text p) <=? 150).

(** How many elements of a list have a property. *)
Fixpoint how_many {A : Type} (f : A -> bool) (l : list A) : nat :=
  match l with
  | [] => 0
  | x :: rest => (if f x then 1 else 0) + how_many f rest
  end.

(** A paragraph with one run of the text, without formatting. *)
Definition text_paragraph (s : string) : Paragraph :=
  {| runs := [{| text := s; font_name := None; font_size := None; bold := None;
                 italic := None; color_rgb := None |}];
     style := None; alignment := None; space_before := None; space_after := None;
     left_indent := None; first_line_indent := None; bottom_border := None |}.

Fixpoint copies (n : nat) (c : ascii) : string :=
  match n with
  | O => EmptyString
  | S n' => String c (copies n' c)
  end.

(** Six paragraphs of 151 letters, one of 150, and eleven that show nothing:
    five without text, five with blanks, one without a run. *)
Definition crowded_document : Document :=
  {| paragraphs :=
       repeat (text_paragraph (copies 151 "a")) 6
       ++ [text_paragraph (copies 150 "a")]
       ++ repeat (text_paragraph "") 5
       ++ repeat (text_paragraph "   ") 5
       ++ [{| runs := []; style := None; alignment := None; space_before := None;
              space_after := None; left_indent := None; first_line_indent := None;
              bottom_border := None |}];
     tables := [];
     rels := [] |}.

Definition crowded_artifact : ATSValidator.Artifact :=
  {| ATSValidator.docx_path := "resume.docx";
     ATSValidator.file_exists := true;
     ATSValidator.st_size := 524288%N;
     ATSValidator.opened := inr crowded_document |}.

End Spec.

(** ** Sample inputs *)

Module Samples.

(** A document that opened without paragraphs, tables and relationships,
    in a file of half a megabyte. *)
Definition blank_artifact : ATSValidator.Artifact :=
  {| ATSValidator.docx_path := "resume.docx";
     ATSValidator.file_exists := true;
     ATSValidator.st_size := 524288%N;
     ATSValidator.opened := inr DocxBuilder.empty_document |}.

(** One job and one degree. *)
Definition job_and_degree : Parser.ResumeData :=
  {| Parser.name := "Jane Doe";
     Parser.contact := Parser.empty_contact;
     Parser.summary := "";
     Parser.skills := [];
     Parser.experience :=
       [{| Parser.title := "Engineer"; Parser.company := "Acme";
           Parser.job_location := ""; Parser.dates := "2020";
           Parser.description := ""; Parser.achievements := ["Shipped"] |}];
     Parser.education :=
       [{| Parser.degree := "BS"; Parser.school := "MIT"; Parser.year := "2020";
           Parser.details := [] |}];
     Parser.certifications := [];
     Parser.raw_sections := [("Projects", "Compiler")] |}.

(** A file that holds the document saved to it, half a megabyte long. *)
Definition saved_file (document : Docx.Document) (path : string) : ATSValidator.Artifact :=
  {| ATSValidator.docx_path := path;
     ATSValidator.file_exists := true;
     ATSValidator.st_size := 524288%N;
     ATSValidator.opened := inr document |}.

(** A save that never raises. *)
Definition quiet_save (document : Docx.Document) (path : string) : option Exporter.raised :=
  None.

(** A builder with the fallback styles on a new document. *)
Definition plain_builder : Exporter.raised + (DocxBuilder.Styles * Docx.Document) :=
  inr (DocxBuilder._default_styles, DocxBuilder.empty_document).

End Samples.

(** ** Notions used to state further properties *)

Module Notions.

(** Whether some non-blank paragraph text holds [section], whatever the
    case. *)
Definition mentions (doc : Document) (section : string) : bool :=
  existsb (fun t => Py.contains (Py.lower section) (Py.lower t))
    (ATSValidator.paragraph_text doc).

(** The paragraphs of a structured document, block after block. *)
Definition rendered_blocks (styles : DocxBuilder.Styles) (d : Parser.ResumeData)
    : list Paragraph :=
  DocxBuilder.header_block styles (Parser.name d) (Parser.contact d)
  ++ (if Py.truthy (Parser.summary d)
      then DocxBuilder.section_block styles "Summary" (Parser.summary d) else [])
  ++ (match Parser.skills d with
      | [] => []
      | _ => DocxBuilder.skills_block styles (Parser.skills d)
      end)
  ++ (match Parser.experience d with
      | [] => []
      | _ => DocxBuilder.experience_block styles (Parser.experience d)
      end)
  ++ (match Parser.education d with
      | [] => []
      | _ => DocxBuilder.education_block styles (Parser.education d)
      end)
  ++ (match Parser.certifications d with
      | [] => []
      | _ => DocxBuilder.certifications_block styles (Parser.certifications d)
      end)
  ++ flat_map (fun kv : string * string =>
                 DocxBuilder.section_block styles (fst kv) (snd kv))
       (Parser.raw_sections d).

(** The titles of the section headers a structured document is given. *)
Definition section_titles (d : Parser.ResumeData) : list string :=
  (if Py.truthy (Parser.summary d) then ["Summary"] else [])
  ++ (match Parser.skills d with [] => [] | _ => ["Core Skills"] end)
  ++ (match Parser.experience d with [] => [] | _ => ["Professional Experience"] end)
  ++ (match Parser.education d with [] => [] | _ => ["Education"] end)
  ++ (match Parser.certifications d with [] => [] | _ => ["Certifications"] end)
  ++ Dict.keys (Parser.raw_sections d).

(** The texts of the section headers of a document, in order. *)
Definition header_texts (doc : Document) : list string :=
  map para_text (filter Spec.is_section_header (paragraphs doc)).

(** The font name a run gets from an entry of the styles. *)
Definition font_of (fc : DocxBuilder.FontConfig) : string :=
  DocxBuilder.get_or (DocxBuilder.fc_name fc) "Calibri".

(** Every font the builder can use is on the list of the validator. *)
Definition ats_friendly_styles (styles : DocxBuilder.Styles) : bool :=
  forallb (fun fc => ATSValidator.mem_string (font_of fc) ATSValidator.ATS_FRIENDLY_FONTS)
    [DocxBuilder.fonts_body styles; DocxBuilder.fonts_name styles;
     DocxBuilder.fonts_section_header styles; DocxBuilder.fonts_job_title styles;
     DocxBuilder.get_or (DocxBuilder.fonts_dates styles) (DocxBuilder.fonts_body styles)].

(** The entries of the styles the builder takes its fonts from. *)
Definition style_fonts (styles : DocxBuilder.Styles) : list DocxBuilder.FontConfig :=
  [DocxBuilder.fonts_body styles; DocxBuilder.fonts_name styles;
   DocxBuilder.fonts_section_header styles; DocxBuilder.fonts_job_title styles;
   DocxBuilder.get_or (DocxBuilder.fonts_dates styles) (DocxBuilder.fonts_body styles)].

(** The artifact [validate] sees when the file at [path] holds [doc] in
    [size] bytes. *)
Definition saved (path : string) (size : N) (doc : Document) : ATSValidator.Artifact :=
  {| ATSValidator.docx_path := path;
     ATSValidator.file_exists := true;
     ATSValidator.st_size := size;
     ATSValidator.opened := inr doc |}.

(** A run takes its font from the styles. *)
Definition styled (styles : DocxBuilder.Styles) (r : Run) : Prop :=
  exists fc, In fc (style_fonts styles) /\ font_name r = Some (font_of fc).

(** Every character of a text is in a class. *)
Fixpoint all_chars (p : ascii -> bool) (s : string) : bool :=
  match s with
  | EmptyString => true
  | String c s' => p c && all_chars p s'
  end.

(** The lines of a certifications section that give an item, stripped. *)
Definition certification_lines (content : string) : list string :=
  filter (fun line => Py.truthy line && negb (Py.startswith "#" line))
    (map Py.strip (Py.split Py.LF content)).

(** The content of the last section of a category, if there is one. *)
Fixpoint last_of (c : Spec.Category) (secs : list (string * string)) : option string :=
  match secs with
  | [] => None
  | (n, content) :: rest =>
      match last_of c rest with
      | Some later => Some later
      | None =>
          match Spec.category_of n, c with
          | Spec.Summary, Spec.Summary
          | Spec.Skills, Spec.Skills
          | Spec.Experience, Spec.Experience
          | Spec.Education, Spec.Education
          | Spec.Certifications, Spec.Certifications => Some content
          | _, _ => None
          end
      end
  end.

Definition is_other (section : string * string) : bool :=
  match Spec.category_of (fst section) with Spec.Other => true | _ => false end.

(** A field parsed from the last section of its category, or its default. *)
Definition field_of {A} (c : Spec.Category) (parse : string -> A) (dflt : A)
    (secs : list (string * string)) : A :=
  match last_of c secs with
  | Some content => parse content
  | None => dflt
  end.

(** A line that opens a section with a name. *)
Definition opens_section (line : string) : bool :=
  Py.startswith "## " line && Py.truthy (Py.strip (Py.skip 3 line)).

(** What the loop of [_split_into_sections] keeps true. *)
Definition split_invariant (lines : list string) (st : Parser.split_state) : Prop :=
  NoDup (Dict.keys (Parser.sections st))
  /\ (forall k, In k (Dict.keys (Parser.sections st)) ->
        k <> "" /\ exists l, In l lines /\ Py.startswith "## " l = true
                             /\ k = Py.strip (Py.skip 3 l))
  /\ (forall n, Parser.current_section st = Some n ->
        exists l, In l lines /\ Py.startswith "## " l = true
                  /\ n = Py.strip (Py.skip 3 l)).

(** A line of an experience section that starts a job. *)
Definition is_job_heading (line : string) : bool :=
  Py.startswith "### " (Py.strip line).

(** The fields of a job that come from its heading only. *)
Definition heading_fields (job : Parser.Job) : string * string * string :=
  (Parser.title job, Parser.company job, Parser.job_location job).

(** The job a heading line starts. *)
Definition job_of_heading (line : string) : Parser.Job :=
  Parser._parse_job_header (Py.skip 4 (Py.strip line)).

(** The achievements the lines of a block give. *)
Definition bullets (body : list string) : list string :=
  map (fun l => Py.strip (Py.skip 2 (Py.strip l)))
    (filter (fun l => Py.startswith "- " (Py.strip l)) body).

(** The jobs of the lines of an experience section. *)
Definition jobs_of_lines (lines : list string) : list Parser.Job :=
  Parser.flush_job
    (fold_left Parser.exp_step lines
       {| Parser.experiences := []; Parser.current_job := None |}).

(** A line of an education section that the loop takes for a degree line. *)
Definition degree_like (raw : string) : bool :=
  let line := Py.strip raw in
  Py.truthy line && (Py.startswith "**" line && Py.contains "**" (Py.skip 2 line)).

(** A degree line that the pattern of the degree matches. *)
Definition degree_matches (raw : string) : bool :=
  degree_like raw
  && match Re.match_ Parser.degree_re (Py.strip raw) with
     | Some (_, g) => match Re.group 1 g with Some _ => true | None => false end
     | None => false
     end.

(** One entry for the first line that matches and one for every later line
    that looks like a degree line. *)
Fixpoint entries_expected (lines : list string) : nat :=
  match lines with
  | [] => 0
  | l :: rest =>
      if degree_matches l then S (length (filter degree_like rest))
      else entries_expected rest
  end.

Definition edu_start : Parser.edu_state :=
  {| Parser.store := []; Parser.education_refs := []; Parser.current_edu := None |}.

(** The skills with no category but "General", which is there once it has
    an item. *)
Definition general_only (items : list string) : dict (list string) :=
  match items with
  | [] => []
  | _ => [("General", items)]
  end.

(** The items of the lines of a skills section that are not blank, when
    each is a regular item line. *)
Definition plain_skill_items (lines : list string) : list string :=
  flat_map (fun l => Spec.plain_items (Py.strip l))
    (filter (fun l => Py.truthy (Py.strip l)) lines).

(** A text holds a piece. *)
Definition piece_of (piece text : string) : Prop :=
  exists before after, text = (before ++ piece ++ after)%string.

(** [local@domain.tld] with the character classes of the pattern. *)
Definition address_shaped (s : string) : Prop :=
  exists local domain tld,
    s = (local ++ "@" ++ domain ++ "." ++ tld)%string
    /\ local <> "" /\ domain <> "" /\ tld <> ""
    /\ all_chars (fun c => Py.isword c || Py.has_char c ".-") local = true
    /\ all_chars (fun c => Py.isword c || Py.has_char c ".-") domain = true
    /\ all_chars Py.isword tld = true.

(** The text [_extract_contact] searches: the contact lines joined. *)
Definition contact_text (lines : list string) : string :=
  Py.join " " (Parser.contact_lines_from lines false).

(** A failed validation result that is not critical. *)
Definition is_other_failure (r : ATSValidator.ValidationResult) : bool :=
  negb (ATSValidator.passed r) && negb (String.eqb (ATSValidator.severity r) "critical").

(** The results [export] starts from. *)
Definition nothing_exported (markdown_path output_path : string) : Exporter.ExportResults :=
  {| Exporter.success := false;
     Exporter.input_file := markdown_path;
     Exporter.output_file := output_path;
     Exporter.errors := [];
     Exporter.warnings := [];
     Exporter.validation := None |}.

(** Reading the file, making the builder and saving succeed. *)
Definition stages_pass (fs : Parser.filesystem)
    (new_builder : Exporter.raised + (DocxBuilder.Styles * Docx.Document))
    (save : Docx.Document -> string -> option Exporter.raised)
    (markdown_path output_path : string) : Prop :=
  exists text styles template,
    fs markdown_path = Some (Parser.Text text)
    /\ new_builder = inr (styles, template)
    /\ save (DocxBuilder.build styles (Parser.parse_text text) template) output_path = None.

End Notions.

(** ** The primitives on small inputs *)

Example split_keeps_empty_pieces : Py.split "|" "a|b||c" = ["a"; "b"; ""; "c"].
Proof. reflexivity. Qed.

Example strip_both_ends : Py.strip "  a b  " = "a b".
Proof. reflexivity. Qed.

Example strip_chars_stars : Py.strip_chars "*" "**Cloud**" = "Cloud".
Proof. reflexivity. Qed.

Example search_is_leftmost : Re.search (Rep 4 digit) "ab 12345 x" = Some ("1234", []).
Proof. reflexivity. Qed.

Example star_is_greedy :
  Re.split Parser.pipe_or_dash_re "MIT | 2020 - x" = ["MIT"; "2020"; "x"].
Proof. reflexivity. Qed.

Example email_found :
  Re.search Parser.email_re "NYC | jane@x.com | 555-123-4567" = Some ("jane@x.com", []).
Proof. vm_compute. reflexivity. Qed.

Example degree_groups :
  Re.match_ Parser.degree_re "**BS** | MIT"
  = Some ("", [(2, " | MIT"); (1, "BS")]).
Proof. vm_compute. reflexivity. Qed.

Example dict_set_keeps_place :
  Dict.set "a" 3 [("a", 1); ("b", 2)] = [("a", 3); ("b", 2)].
Proof. reflexivity. Qed.

Example format_mb_half : ATSValidator.format_mb 524288 = "0.50".
Proof. vm_compute. reflexivity. Qed.

(** Concrete scenario C of the specification. *)
Example scenario_c_skills :
  Parser._parse_skills Spec.scenario_c
  = [("Languages", ["Python"; "Go"]); ("Cloud", ["AWS"])].
Proof. vm_compute. reflexivity. Qed.

(** A degree line that does not match keeps the entry current: it is listed
    twice and a later detail line reaches both copies. *)
Example education_entry_listed_twice :
  Parser._parse_education ("**A** | X" ++ nl ++ "****" ++ nl ++ "detail")%string
  = [{| Parser.degree := "A"; Parser.school := "X"; Parser.year := "";
        Parser.details := ["detail"] |};
     {| Parser.degree := "A"; Parser.school := "X"; Parser.year := "";
        Parser.details := ["detail"] |}].
Proof. vm_compute. reflexivity. Qed.

(** ** Properties of the validator *)

Section ValidatorProperties.

Import ATSValidator.

Variable set_order : list string -> list string.
Variable styles : Styles.

Lemma filter_none {A} (f : A -> bool) (l : list A) :
  (forall x, In x l -> f x = false) -> filter f l = [].
Proof.
  induction l as [|a l IH]; intros H; simpl; [reflexivity|].
  rewrite (H a (or_introl eq_refl)). apply IH. intros x Hx. apply H. now right.
Qed.

Lemma filter_some {A} (f : A -> bool) (l : list A) (x : A) :
  In x l -> f x = true -> (length (filter f l) =? 0) = false.
Proof.
  intros Hin Hf.
  assert (Hx : In x (filter f l)) by (apply filter_In; split; assumption).
  destruct (filter f l); [destruct Hx | reflexivity].
Qed.

Lemma validate_opened (art : Artifact) (doc : Document) :
  file_exists art = true -> opened art = inr doc ->
  validate set_order styles art
  = (length (filter is_critical_failure (content_checks set_order styles (st_size art) doc)) =? 0,
     content_checks set_order styles (st_size art) doc).
Proof.
  intros He Ho. unfold validate. rewrite He, Ho. reflexivity.
Qed.

Lemma check_tables_in_results (size : N) (doc : Document) :
  In (_check_tables doc) (content_checks set_order styles size doc).
Proof. unfold content_checks. simpl. tauto. Qed.

Lemma check_page_length_in_results (size : N) (doc : Document) :
  In (_check_page_length doc) (content_checks set_order styles size doc).
Proof. unfold content_checks. simpl. tauto. Qed.

(** C3: on an artifact that opens, a document with a table makes the Tables
    check a critical failure and [is_valid] false; without a table the
    Tables check is an info pass; and when no failed result is critical,
    [is_valid] is true. *)
Theorem tables_check_decides_validity (art : Artifact) (doc : Document) :
  file_exists art = true -> opened art = inr doc ->
  let (is_valid, results) := validate set_order styles art in
  let tables_result := _check_tables doc in
  In tables_result results
  /\ check_name tables_result = "Tables"
  /\ (0 < length (tables doc) ->
      passed tables_result = false /\ severity tables_result = "critical"
      /\ is_valid = false)
  /\ (length (tables doc) = 0 ->
      passed tables_result = true /\ severity tables_result = "info")
  /\ ((forall r, In r results -> passed r = false -> severity r <> "critical") ->
      is_valid = true).
Proof.
  intros He Ho. rewrite (validate_opened art doc He Ho).
  split; [apply check_tables_in_results|].
  split; [unfold _check_tables; destruct (length (tables doc) =? 0); reflexivity|].
  split; [|split].
  - intros Hpos.
    assert (Hc : _check_tables doc
                 = {| check_name := "Tables"; passed := false;
                      message := "Document contains " ++ Py.str_of_nat (length (tables doc))
                        ++ " table(s). ATS systems may not parse tables correctly.";
                      severity := "critical" |}).
    { unfold _check_tables. destruct (Nat.eqb_spec (length (tables doc)) 0); [lia|reflexivity]. }
    rewrite Hc. split; [reflexivity|]. split; [reflexivity|].
    apply filter_some with (x := _check_tables doc).
    + apply check_tables_in_results.
    + rewrite Hc. reflexivity.
  - intros Hz. unfold _check_tables. rewrite Hz. simpl. split; reflexivity.
  - intros Hnc. rewrite filter_none; [reflexivity|].
    intros r Hr. unfold is_critical_failure.
    destruct (passed r) eqn:Hp; [reflexivity|]. simpl.
    apply String.eqb_neq. apply Hnc; assumption.
Qed.


(** A text is stripped to nothing exactly when it holds white space only. *)
Lemma strip_shows_nothing (s : string) :
  Py.truthy (Py.strip s) = negb (Spec.only_white_space s).
Proof.
  unfold Py.strip, Py.strip_by.
  induction s as [|c s IH]; [reflexivity|].
  cbn [Py.lstrip_by Spec.only_white_space].
  destruct (Py.isspace c) eqn:Hc; cbn [andb]; [exact IH|].
  cbn [Py.rstrip_by negb]. rewrite Hc.
  now destruct (Py.rstrip_by Py.isspace s).
Qed.

(** The counters of the formatting check count the empty paragraphs and
    the paragraphs of more than 150 characters. *)
Lemma spacing_issues_counts_empty (doc : Document) :
  spacing_issues doc = Spec.how_many Spec.is_empty_paragraph (paragraphs doc).
Proof.
  unfold spacing_issues. induction (paragraphs doc) as [|p ps IH]; [reflexivity|].
  cbn [filter Spec.how_many]. unfold Spec.is_empty_paragraph at 1.
  rewrite strip_shows_nothing, negb_involutive.
  destruct (Spec.only_white_space (para_text p)); cbn [length]; now rewrite IH.
Qed.

Lemma long_lines_counts_long (doc : Document) :
  long_lines doc = Spec.how_many Spec.exceeds_150_characters (paragraphs doc).
Proof.
  unfold long_lines. induction (paragraphs doc) as [|p ps IH]; [reflexivity|].
  cbn [filter Spec.how_many]. unfold Spec.exceeds_150_characters at 1.
  destruct (Nat.ltb_spec 150 (String.length (para_text p))) as [H|H];
    destruct (Nat.leb_spec (String.length (para_text p)) 150) as [H'|H']; try lia;
    cbn [negb length]; now rewrite IH.
Qed.

(** C9: the formatting check gives a Spacing result first, a warning failure
    exactly when more than 10 paragraphs are empty (their text holds nothing
    but white space) and an info pass otherwise; a Line Length result
    follows exactly when more than 5 paragraphs have more than 150
    characters, and it is an info failure; the report of [validate] holds a
    Line Length result in that case only. *)
Theorem formatting_check_results (art : Artifact) (doc : Document) :
  file_exists art = true -> opened art = inr doc ->
  let empty := Spec.how_many Spec.is_empty_paragraph (paragraphs doc) in
  let long := Spec.how_many Spec.exceeds_150_characters (paragraphs doc) in
  exists spacing rest,
    _check_formatting doc = spacing :: rest
    /\ check_name spacing = "Spacing"
    /\ (10 < empty -> passed spacing = false /\ severity spacing = "warning")
    /\ (empty <= 10 -> passed spacing = true /\ severity spacing = "info")
    /\ (5 < long ->
        exists line_length,
          rest = [line_length] /\ check_name line_length = "Line Length"
          /\ passed line_length = false /\ severity line_length = "info")
    /\ (long <= 5 -> rest = [])
    /\ ((exists r, In r (snd (validate set_order styles art))
                   /\ check_name r = "Line Length")
        <-> 5 < long)
    /\ (exists first, snd (validate set_order styles art) = first ++ spacing :: rest).
Proof.
  intros He Ho. cbv zeta.
  rewrite <- spacing_issues_counts_empty, <- long_lines_counts_long.
  rewrite (validate_opened art doc He Ho). simpl snd.
  unfold _check_formatting. simpl app.
  eexists. eexists. split; [reflexivity|].
  split; [destruct (10 <? spacing_issues doc); reflexivity|].
  split; [intros H; apply Nat.ltb_lt in H; rewrite H; split; reflexivity|].
  split; [intros H; apply Nat.ltb_ge in H; rewrite H; split; reflexivity|].
  split; [intros H; apply Nat.ltb_lt in H; rewrite H; eexists; repeat split|].
  split; [intros H; apply Nat.ltb_ge in H; rewrite H; reflexivity|].
  split.
  - unfold content_checks, _check_formatting. simpl app.
    destruct (Nat.ltb_spec 5 (long_lines doc)) as [Hl|Hl].
    + split; [intros _; assumption|]. intros _.
      eexists. split; [do 7 right; left; reflexivity | reflexivity].
    + split; [|lia]. intros [r [Hin Hn]]. exfalso. simpl in Hin.
      unfold _check_file_size, _check_fonts, _check_tables, _check_images,
        _check_sections, _check_page_length in Hin.
      repeat match type of Hin with
             | _ \/ _ => destruct Hin as [Hin|Hin]
             end;
        try contradiction; subst r;
        repeat match type of Hn with
               | context [if ?b then _ else _] => destruct b
               | context [match ?l with [] => _ | _ :: _ => _ end] => destruct l
               end; discriminate.
  - exists [_check_file_size (st_size art); _check_fonts set_order doc; _check_tables doc;
            _check_images doc; _check_sections set_order styles doc;
            _check_page_length doc].
    reflexivity.
Qed.

(** C10: the estimated page count is at least one, so the Length check is
    never an info failure: it is an info pass or a warning failure (the
    latter exactly when the estimate exceeds two pages). *)
Theorem page_length_never_too_short (size : N) (doc : Document) :
  let r := _check_page_length doc in
  MIN_PAGES <= estimated_pages doc
  /\ In r (content_checks set_order styles size doc)
  /\ check_name r = "Length"
  /\ ~ (passed r = false /\ severity r = "info")
  /\ (estimated_pages doc <= MAX_PAGES -> passed r = true /\ severity r = "info")
  /\ (MAX_PAGES < estimated_pages doc -> passed r = false /\ severity r = "warning").
Proof.
  cbv zeta.
  assert (Hmin : MIN_PAGES <= estimated_pages doc)
    by (unfold estimated_pages, MIN_PAGES; lia).
  split; [assumption|].
  split; [apply check_page_length_in_results|].
  unfold _check_page_length.
  assert (H1 : (MIN_PAGES <=? estimated_pages doc) = true) by (apply Nat.leb_le; assumption).
  assert (H2 : (estimated_pages doc <? MIN_PAGES) = false) by (apply Nat.ltb_ge; assumption).
  rewrite H1, H2. simpl andb.
  destruct (Nat.leb_spec (estimated_pages doc) MAX_PAGES) as [Hle|Hgt]; simpl.
  - split; [reflexivity|]. split; [intros [Hp _]; discriminate|].
    split; [intros _; split; reflexivity | intros; lia].
  - split; [reflexivity|]. split; [intros [_ Hs]; discriminate|].
    split; [intros; lia | intros _; split; reflexivity].
Qed.

End ValidatorProperties.

(** Scenario B of the specification, as far as the Tables check goes. *)
Lemma tables_check_decides_validity_witness :
  ATSValidator.file_exists Spec.one_table_artifact = true
  /\ ATSValidator.opened Spec.one_table_artifact = inr Spec.one_table_document
  /\ fst (ATSValidator.validate Spec.insertion_order Spec.no_styles Spec.one_table_artifact)
     = false.
Proof.
  split; [reflexivity|]. split; [reflexivity|].
  generalize (tables_check_decides_validity Spec.insertion_order Spec.no_styles
                Spec.one_table_artifact Spec.one_table_document eq_refl eq_refl).
  destruct (ATSValidator.validate _ _ _) as [is_valid results].
  intros (_ & _ & H & _). apply H. simpl. lia.
Defined.


(** Eleven empty paragraphs and six long ones: the Spacing result is a
    warning failure and a Line Length result follows it. *)
Lemma formatting_check_results_witness :
  ATSValidator.file_exists Spec.crowded_artifact = true
  /\ ATSValidator.opened Spec.crowded_artifact = inr Spec.crowded_document
  /\ Spec.how_many Spec.is_empty_paragraph (paragraphs Spec.crowded_document) = 11
  /\ Spec.how_many Spec.exceeds_150_characters (paragraphs Spec.crowded_document) = 6
  /\ exists spacing line_length,
       ATSValidator._check_formatting Spec.crowded_document = [spacing; line_length]
       /\ ATSValidator.passed spacing = false
       /\ ATSValidator.severity spacing = "warning"
       /\ ATSValidator.check_name line_length = "Line Length"
       /\ ATSValidator.passed line_length = false
       /\ ATSValidator.severity line_length = "info".
Proof.
  split; [reflexivity|]. split; [reflexivity|].
  split; [vm_compute; reflexivity|]. split; [vm_compute; reflexivity|].
  destruct (formatting_check_results Spec.insertion_order Spec.no_styles
              Spec.crowded_artifact Spec.crowded_document eq_refl eq_refl)
    as (spacing & rest & Hf & _ & Hs & _ & Hl & _).
  assert (He : 10 < Spec.how_many Spec.is_empty_paragraph (paragraphs Spec.crowded_document))
    by (vm_compute; lia).
  assert (Hg : 5 < Spec.how_many Spec.exceeds_150_characters
                     (paragraphs Spec.crowded_document))
    by (vm_compute; lia).
  destruct (Hs He) as [Hp Hv]. destruct (Hl Hg) as (line_length & Hr & Hn & Hq & Hi).
  exists spacing, line_length. rewrite Hf, Hr. now repeat split.
Defined.

(** ** Properties of the parser *)

Section ParserProperties.

Import Parser.

Lemma keys_set {V} (k : string) (v : V) (d : dict V) (x : string) :
  In x (Dict.keys (Dict.set k v d)) -> x = k \/ In x (Dict.keys d).
Proof.
  unfold Dict.keys. induction d as [|[k' v'] d IH]; simpl.
  - intros [H|[]]; auto.
  - destruct (String.eqb_spec k k'); simpl.
    + intros [H|H]; auto.
    + intros [H|H]; auto. destruct (IH H); auto.
Qed.

Lemma parse_step_routes (data : ResumeData) (section_name section_content : string) :
  parse_step data (section_name, section_content)
  = Spec.route data (Spec.category_of section_name) section_name section_content.
Proof.
  unfold parse_step, Spec.category_of, Spec.keyword_table. simpl find.
  repeat match goal with
         | |- context [Py.contains ?w ?s] => destruct (Py.contains w s)
         end; reflexivity.
Qed.




End ParserProperties.


Section ParserOnFiles.

Import Parser.

(** C1, as the specification states it, fails: the location is not "NYC". *)
Lemma scenario_a_location_is_not_NYC :
  ~ (let data := parse_text Spec.scenario_a in
     name data = "Jane Doe"
     /\ email (contact data) = "jane@x.com"
     /\ phone (contact data) = "555-123-4567"
     /\ location (contact data) = "NYC"
     /\ exists e, education data = [e] /\ degree e = "BS Computer Science"
                  /\ school e = "MIT" /\ year e = "2020").
Proof.
  cbv zeta. intros (_ & _ & _ & H & _). vm_compute in H. discriminate.
Qed.

(** C1, amended: scenario A parses to the name "Jane Doe", the address
    "jane@x.com", the phone number "555-123-4567", an empty location, and
    exactly one education entry, "BS Computer Science" at "MIT" in "2020";
    every other field is empty. *)
Theorem scenario_a_parses (fs : filesystem) (path : string) :
  fs path = Some (Text Spec.scenario_a) ->
  parse_resume fs path = Ok Spec.scenario_a_data.
Proof.
  intros H. unfold parse_resume, init, _read_file. rewrite H.
  vm_compute. reflexivity.
Qed.




End ParserOnFiles.

(** Scenario A read from a file. *)
Lemma scenario_a_parses_witness :
  Spec.one_file "resume.md" Spec.scenario_a "resume.md" = Some (Parser.Text Spec.scenario_a)
  /\ Parser.parse_resume (Spec.one_file "resume.md" Spec.scenario_a) "resume.md"
     = Parser.Ok Spec.scenario_a_data.
Proof.
  split; [reflexivity|].
  apply (scenario_a_parses (Spec.one_file "resume.md" Spec.scenario_a) "resume.md").
  reflexivity.
Defined.


(** ** Properties of the builder *)

Section BuilderProperties.

Import Parser DocxBuilder.

Variable styles : Styles.

Lemma paragraphs_add_paragraphs (ps : list Paragraph) (doc : Document) :
  paragraphs (add_paragraphs ps doc) = paragraphs doc ++ ps.
Proof.
  unfold add_paragraphs. revert doc.
  induction ps as [|p ps IH]; intros doc; simpl.
  - now rewrite app_nil_r.
  - rewrite IH. simpl. now rewrite <- app_assoc.
Qed.

Lemma header_block_no_header (nm : string) (c : Contact) (p : Paragraph) :
  In p (header_block styles nm c) -> Spec.is_section_header p = false.
Proof.
  unfold header_block. intros H.
  apply in_app_or in H. destruct H as [[<-|[]]|H]; [reflexivity|].
  apply in_app_or in H. destruct H as [H|[<-|[]]]; [|reflexivity].
  apply in_map_iff in H. destruct H as (l & <- & _). reflexivity.
Qed.

Lemma section_block_header (title content : string) (p : Paragraph) :
  In p (section_block styles title content) ->
  Spec.is_section_header p = true ->
  para_text p = Py.upper title.
Proof.
  unfold section_block. intros [<-|H] Hh.
  - reflexivity.
  - destruct (Py.truthy (Py.strip content)); [|destruct H].
    destruct H as [<-|[]]. discriminate.
Qed.

Lemma skills_block_header (sk : dict (list string)) (p : Paragraph) :
  In p (skills_block styles sk) ->
  Spec.is_section_header p = true ->
  para_text p = "CORE SKILLS".
Proof.
  unfold skills_block. intros [<-|H] Hh; [reflexivity|].
  apply in_app_or in H. destruct H as [H|[<-|[]]]; [|discriminate].
  unfold skill_paragraphs in H. apply in_flat_map in H.
  destruct H as ([category skill_list] & _ & H).
  destruct skill_list; [destruct H|]. destruct H as [<-|[]]. discriminate.
Qed.

(** C8: with no experience, education, certifications and other sections,
    [build] appends the header block, then the summary section when the
    summary is not empty, then the skills section when there are skills, and
    nothing else; the only section headers it emits are those two, so no
    "Professional Experience", "Education" or "Certifications" header. *)
Theorem build_without_collections (resume_data : ResumeData) (document : Document) :
  experience resume_data = [] ->
  education resume_data = [] ->
  certifications resume_data = [] ->
  raw_sections resume_data = [] ->
  let emitted :=
    header_block styles (name resume_data) (contact resume_data)
    ++ (if Py.truthy (summary resume_data)
        then section_block styles "Summary" (summary resume_data) else [])
    ++ (match skills resume_data with
        | [] => []
        | _ => skills_block styles (skills resume_data)
        end) in
  paragraphs (build styles resume_data document) = paragraphs document ++ emitted
  /\ forall p, In p emitted -> Spec.is_section_header p = true ->
       (para_text p = "SUMMARY" /\ summary resume_data <> "")
       \/ (para_text p = "CORE SKILLS" /\ skills resume_data <> []).
Proof.
  intros He Hd Hc Hr. cbv zeta. split.
  - unfold build. rewrite He, Hd, Hc, Hr. cbn [fold_left].
    unfold _add_skills_section, _add_section, _add_header.
    destruct (skills resume_data) as [|kv sk];
      destruct (Py.truthy (summary resume_data));
      rewrite ?paragraphs_add_paragraphs, ?app_nil_r, <- ?app_assoc; reflexivity.
  - intros p Hp Hh.
    apply in_app_or in Hp. destruct Hp as [Hp|Hp].
    { rewrite (header_block_no_header _ _ _ Hp) in Hh. discriminate. }
    apply in_app_or in Hp. destruct Hp as [Hp|Hp].
    + left. destruct (summary resume_data) as [|a s] eqn:Hs; [destruct Hp|].
      split; [|discriminate].
      apply (section_block_header "Summary" _ _ Hp Hh).
    + right. destruct (skills resume_data) as [|kv sk] eqn:Hk; [destruct Hp|].
      split; [|discriminate].
      apply (skills_block_header _ _ Hp Hh).
Qed.

End BuilderProperties.

(** The texts of the paragraphs built from a summary and one skill category. *)
Lemma build_without_collections_witness :
  map para_text
    (paragraphs (DocxBuilder.build DocxBuilder._default_styles Spec.summary_and_skills
                   DocxBuilder.empty_document))
  = ["JANE DOE"; "NYC  jane@x.com"; "GitHub: jane"; "";
     "SUMMARY"; "Engineer.";
     "CORE SKILLS"; ("Languages" ++ nl ++ "Python, Go")%string; ""].
Proof.
  rewrite (proj1 (build_without_collections DocxBuilder._default_styles
                    Spec.summary_and_skills DocxBuilder.empty_document
                    eq_refl eq_refl eq_refl eq_refl)).
  vm_compute. reflexivity.
Defined.

(** ** Properties of the skills sub-parser *)

Section SkillsProperties.

Import Parser.

Lemma get_set_same {V} (k : string) (v : V) (d : dict V) :
  Dict.get k (Dict.set k v d) = Some v.
Proof.
  induction d as [|[k' v'] d IH]; simpl.
  - now rewrite String.eqb_refl.
  - destruct (String.eqb_spec k k') as [->|Hne]; simpl.
    + now rewrite String.eqb_refl.
    + destruct (String.eqb_spec k k'); [contradiction | exact IH].
Qed.

Lemma get_set_other {V} (k k' : string) (v : V) (d : dict V) :
  k <> k' -> Dict.get k (Dict.set k' v d) = Dict.get k d.
Proof.
  intros Hne. induction d as [|[k0 v0] d IH]; simpl.
  - destruct (String.eqb_spec k k'); [contradiction | reflexivity].
  - destruct (String.eqb_spec k' k0) as [->|Hne0]; simpl.
    + destruct (String.eqb_spec k k0); [contradiction | reflexivity].
    + destruct (String.eqb_spec k k0); [reflexivity | exact IH].
Qed.

(** A regular item goes to the end of the list of the current category and
    leaves the other categories and the current category as they are. *)
Lemma add_skill_item_spec (st : skills_state) (line : string) :
  current_category (add_skill_item st line) = current_category st
  /\ items_of (current_category st) (skills_acc (add_skill_item st line))
     = items_of (current_category st) (skills_acc st) ++ Spec.plain_items line
  /\ forall k, k <> current_category st ->
       Dict.get k (skills_acc (add_skill_item st line)) = Dict.get k (skills_acc st).
Proof.
  unfold add_skill_item, Spec.plain_items, items_of, Dict.mem.
  set (cat := current_category st). set (d := skills_acc st).
  split; [reflexivity|]. cbn [skills_acc].
  destruct (Dict.get cat d) as [l|] eqn:Hg.
  - rewrite Hg. split.
    + destruct (Py.has_char "," line); now rewrite get_set_same.
    + intros k Hk. destruct (Py.has_char "," line); now rewrite get_set_other.
  - rewrite get_set_same. split.
    + destruct (Py.has_char "," line); rewrite get_set_same; reflexivity.
    + intros k Hk. destruct (Py.has_char "," line); now rewrite !get_set_other.
Qed.

Lemma plain_line_step (st : skills_state) (raw : string) :
  Spec.is_plain_skill_line (Py.strip raw) = true ->
  skills_step st raw = add_skill_item st (Py.strip raw).
Proof.
  unfold Spec.is_plain_skill_line, skills_step. intros H.
  apply andb_prop in H. destruct H as [H H4].
  apply andb_prop in H. destruct H as [H H3].
  apply andb_prop in H. destruct H as [H1 H2].
  apply negb_true_iff in H2, H3, H4. rewrite H1, H2, H3, H4. reflexivity.
Qed.

Lemma bold_colon_step (st : skills_state) (raw rest g1 g2 : string) (g : Re.groups) :
  Spec.is_bold_colon_line (Py.strip raw) = true ->
  Re.match_ skill_line_re (Py.strip raw) = Some (rest, g) ->
  Re.group 1 g = Some g1 ->
  Re.group 2 g = Some g2 ->
  skills_step st raw
  = {| skills_acc := Dict.set (Py.strip g1) (comma_items (Py.strip g2)) (skills_acc st);
       current_category := current_category st |}.
Proof.
  unfold Spec.is_bold_colon_line, skills_step. intros H Hm H1 H2.
  apply andb_prop in H. destruct H as [H Hd].
  apply andb_prop in H. destruct H as [H Hc].
  apply andb_prop in H. destruct H as [Ha Hb].
  apply negb_true_iff in Hb, Hc. rewrite Ha, Hb, Hc, Hd, Hm, H1, H2. reflexivity.
Qed.

Lemma plain_lines_loop (plains : list string) (st : skills_state) :
  (forall p, In p plains -> Spec.is_plain_skill_line (Py.strip p) = true) ->
  current_category (skills_loop plains st) = current_category st
  /\ items_of (current_category st) (skills_acc (skills_loop plains st))
     = items_of (current_category st) (skills_acc st)
       ++ flat_map (fun p => Spec.plain_items (Py.strip p)) plains
  /\ forall k, k <> current_category st ->
       Dict.get k (skills_acc (skills_loop plains st)) = Dict.get k (skills_acc st).
Proof.
  unfold skills_loop. revert st.
  induction plains as [|p plains IH]; intros st Hp; cbn [fold_left flat_map].
  - rewrite app_nil_r. repeat split.
  - rewrite (plain_line_step st p (Hp p (or_introl eq_refl))).
    destruct (add_skill_item_spec st (Py.strip p)) as (Hc & Hi & Ho).
    destruct (IH (add_skill_item st (Py.strip p))
                (fun q Hq => Hp q (or_intror Hq))) as (Hc' & Hi' & Ho').
    rewrite Hc in Hc', Hi', Ho'. split; [exact Hc'|]. split.
    + rewrite Hi', Hi. now rewrite <- app_assoc.
    + intros k Hk. rewrite (Ho' k Hk). apply Ho, Hk.
Qed.

(** C5, as the specification states it, fails: after the bold label
    "Languages" the plain line "Rust" is stored under "General". *)
Lemma bold_colon_does_not_capture_next_line :
  let parsed := _parse_skills Spec.bold_colon_then_plain in
  Dict.get "Languages" parsed = Some ["Python"; "Go"]
  /\ Dict.get "General" parsed = Some ["Rust"]
  /\ ~ In "Rust" (items_of "Languages" parsed).
Proof.
  vm_compute. split; [reflexivity|]. split; [reflexivity|].
  intros [H|[H|[]]]; discriminate.
Qed.

(** C5, amended: a line that matches [**Category**: item, item] sets the list
    of that category to its comma-split items and leaves the current
    category as it was; the plain skill lines that follow are appended, in
    order, under the category that was current before the bold line, and the
    list of the bold label holds its own items only (unless the two
    categories are the same). *)
Theorem bold_colon_keeps_current_category
    (st : skills_state) (raw rest g1 g2 : string) (g : Re.groups) (plains : list string) :
  Spec.is_bold_colon_line (Py.strip raw) = true ->
  Re.match_ skill_line_re (Py.strip raw) = Some (rest, g) ->
  Re.group 1 g = Some g1 ->
  Re.group 2 g = Some g2 ->
  (forall p, In p plains -> Spec.is_plain_skill_line (Py.strip p) = true) ->
  let label := Py.strip g1 in
  let current := current_category st in
  let after_bold := skills_loop [raw] st in
  let final := skills_loop (raw :: plains) st in
  Dict.get label (skills_acc after_bold) = Some (comma_items (Py.strip g2))
  /\ current_category after_bold = current
  /\ current_category final = current
  /\ items_of current (skills_acc final)
     = items_of current (skills_acc after_bold)
       ++ flat_map (fun p => Spec.plain_items (Py.strip p)) plains
  /\ (label <> current ->
      Dict.get label (skills_acc final) = Some (comma_items (Py.strip g2))).
Proof.
  intros Hb Hm H1 H2 Hp. cbv zeta.
  unfold skills_loop. cbn [fold_left].
  rewrite (bold_colon_step st raw rest g1 g2 g Hb Hm H1 H2).
  set (st' := {| skills_acc := _; current_category := _ |}).
  destruct (plain_lines_loop plains st' Hp) as (Hc & Hi & Ho).
  unfold skills_loop in Hc, Hi, Ho. subst st'. cbn [skills_acc current_category] in *.
  split; [apply get_set_same|]. split; [reflexivity|]. split; [exact Hc|].
  split; [exact Hi|].
  intros Hne. rewrite (Ho _ Hne). apply get_set_same.
Qed.

End SkillsProperties.

(** Two plain lines after a bold label go under "General". *)
Lemma bold_colon_keeps_current_category_witness :
  Parser.items_of "General"
    (Parser.skills_acc
       (Parser.skills_loop ["**Languages**: Python, Go"; "Rust"; "C, Java"]
          {| Parser.skills_acc := []; Parser.current_category := "General" |}))
  = ["Rust"; "C"; "Java"].
Proof.
  refine (eq_trans
            (proj1 (proj2 (proj2 (proj2
               (bold_colon_keeps_current_category
                  {| Parser.skills_acc := []; Parser.current_category := "General" |}
                  "**Languages**: Python, Go" ""
                  "Languages" "Python, Go"
                  [(2, "Python, Go"); (1, "Languages")]
                  ["Rust"; "C, Java"] eq_refl eq_refl eq_refl eq_refl _))))) _).
  - intros p [<-|[<-|[]]]; reflexivity.
  - vm_compute. reflexivity.
Defined.

(** ** Properties of the job header *)

Section RegexProperties.

Lemma append_assoc (a b c : string) : ((a ++ b) ++ c = a ++ (b ++ c))%string.
Proof. induction a as [|x a IH]; simpl; [reflexivity | now rewrite IH]. Qed.

(** On a plain pattern the matcher succeeds exactly when a prefix is a word
    of the pattern and the continuation accepts what follows. *)
Lemma run_plain (r : regex) :
  Re.plain r = true ->
  forall s g k,
    Re.run r s g k <> None
    <-> exists u v, s = (u ++ v)%string /\ Re.matches r u /\ k v g <> None.
Proof.
  induction r as [|p|a IHa b IHb|a IHa b IHb|a _|i a _]; simpl; intros Hp s g k;
    try discriminate.
  - split.
    + intros H. exists EmptyString, s. repeat split; [constructor | assumption].
    + intros (u & v & -> & Hm & Hk). inversion Hm; subst. exact Hk.
  - destruct s as [|c s'].
    + split; [congruence|]. intros (u & v & He & Hm & _).
      inversion Hm; subst. discriminate.
    + destruct (p c) eqn:Hc.
      * split.
        -- intros H. exists (String c EmptyString), s'.
           repeat split; [now constructor | assumption].
        -- intros (u & v & He & Hm & Hk). inversion Hm; subst.
           simpl in He. injection He as -> ->. exact Hk.
      * split; [congruence|]. intros (u & v & He & Hm & _).
        inversion Hm; subst. simpl in He. injection He as -> ->. congruence.
  - apply andb_prop in Hp. destruct Hp as [Ha Hb].
    rewrite (IHa Ha). split.
    + intros (u & v & -> & Hu & Hk). apply (IHb Hb) in Hk.
      destruct Hk as (u' & v' & -> & Hu' & Hk).
      exists (u ++ u')%string, v'. rewrite append_assoc.
      repeat split; [now constructor | assumption].
    + intros (w & v' & -> & Hm & Hk). inversion Hm; subst.
      exists u, (v ++ v')%string. rewrite append_assoc.
      repeat split; [assumption|]. apply (IHb Hb). exists v, v'. repeat split; assumption.
  - apply andb_prop in Hp. destruct Hp as [Ha Hb].
    specialize (IHa Ha s g k). specialize (IHb Hb s g k).
    destruct (Re.run a s g k) as [x|] eqn:Hra.
    + split; [|congruence]. intros _.
      destruct (proj1 IHa) as (u & v & He & Hm & Hk); [congruence|].
      exists u, v. repeat split; [assumption | now apply MAltL | assumption].
    + rewrite IHb. split.
      * intros (u & v & He & Hm & Hk). exists u, v.
        repeat split; [assumption | now apply MAltR | assumption].
      * intros (u & v & He & Hm & Hk). inversion Hm; subst.
        -- exfalso. apply (proj2 IHa); [|reflexivity].
           exists u, v. repeat split; assumption.
        -- exists u, v. repeat split; assumption.
Qed.

Lemma match_plain (r : regex) (s : string) :
  Re.plain r = true ->
  Re.match_ r s <> None <-> exists u v, s = (u ++ v)%string /\ Re.matches r u.
Proof.
  intros Hp. unfold Re.match_. rewrite (run_plain r Hp). split.
  - intros (u & v & He & Hm & _). now exists u, v.
  - intros (u & v & He & Hm). exists u, v. repeat split; [assumption..|discriminate].
Qed.

(** [re.search] with a plain pattern finds a match exactly when the text
    holds a word of the pattern. *)
Lemma found_plain (r : regex) (s : string) :
  Re.plain r = true ->
  Re.found r s = true
  <-> exists before u after, s = (before ++ u ++ after)%string /\ Re.matches r u.
Proof.
  intros Hp. unfold Re.found. induction s as [|c s IH]; simpl.
  - pose proof (match_plain r EmptyString Hp) as Hm.
    destruct (Re.match_ r EmptyString) as [[rest g]|].
    + split; [|reflexivity]. intros _.
      destruct (proj1 Hm) as (u & v & He & Hu); [discriminate|].
      exists EmptyString, u, v. now split.
    + split; [discriminate|]. intros (pre & u & post & He & Hu). exfalso.
      destruct pre; [|discriminate]. apply (proj2 Hm); [|reflexivity].
      exists u, post. now split.
  - pose proof (match_plain r (String c s) Hp) as Hm.
    destruct (Re.match_ r (String c s)) as [[rest g]|].
    + split; [|reflexivity]. intros _.
      destruct (proj1 Hm) as (u & v & He & Hu); [discriminate|].
      exists EmptyString, u, v. now split.
    + rewrite IH. split.
      * intros (pre & u & post & -> & Hu). exists (String c pre), u, post. now split.
      * intros (pre & u & post & He & Hu). destruct pre as [|c' pre].
        -- exfalso. apply (proj2 Hm); [|reflexivity]. exists u, post. now split.
        -- simpl in He. injection He as -> ->. now exists pre, u, post.
Qed.

Lemma matches_lit (t u : string) : Re.matches (Re.Lit t) u <-> u = t.
Proof.
  revert u. induction t as [|c t IH]; intros u; simpl.
  - split; [intros H; now inversion H | intros ->; constructor].
  - split.
    + intros H. inversion H as [| |a b x y Hx Hy| | | | |]; subst.
      inversion Hx as [|p c' Hc| | | | | |]; subst.
      apply Ascii.eqb_eq in Hc. subst c'. apply IH in Hy. now subst.
    + intros ->. apply (MCat _ _ (String c EmptyString) t).
      * constructor. apply Ascii.eqb_refl.
      * now apply IH.
Qed.

Lemma matches_month (cap low : ascii) (rest u : string) :
  Re.matches (Parser.month cap low rest) u <-> u = String cap rest \/ u = String low rest.
Proof.
  unfold Parser.month. split.
  - intros H. inversion H as [| |a b x y Hx Hy| | | | |]; subst.
    inversion Hx as [|p c Hc| | | | | |]; subst.
    apply matches_lit in Hy. subst y. simpl.
    apply orb_prop in Hc. destruct Hc as [Hc|Hc]; apply Ascii.eqb_eq in Hc; subst; auto.
  - intros [->| ->].
    + apply (MCat _ _ (String cap EmptyString) rest); [|now apply matches_lit].
      constructor. now rewrite Ascii.eqb_refl.
    + apply (MCat _ _ (String low EmptyString) rest); [|now apply matches_lit].
      constructor. rewrite Ascii.eqb_refl. apply orb_true_r.
Qed.

Lemma matches_four_digits (u : string) :
  Re.matches (Re.Rep 4 Re.digit) u <-> Spec.four_digits u.
Proof.
  unfold Spec.four_digits. simpl. split.
  - intros H.
    repeat match goal with
           | H : Re.matches (Re.Cat _ _) _ |- _ => inversion H; clear H; subst
           | H : Re.matches Re.digit _ |- _ => inversion H; clear H; subst
           | H : Re.matches Re.Eps _ |- _ => inversion H; clear H; subst
           end.
    simpl. eexists _, _, _, _. repeat split; assumption.
  - intros (d1 & d2 & d3 & d4 & -> & H1 & H2 & H3 & H4).
    apply (MCat _ _ (String d1 EmptyString)); [now constructor|].
    apply (MCat _ _ (String d2 EmptyString)); [now constructor|].
    apply (MCat _ _ (String d3 EmptyString)); [now constructor|].
    apply (MCat _ _ (String d4 EmptyString) EmptyString); [now constructor|].
    constructor.
Qed.

Lemma matches_alt (a b : regex) (u : string) :
  Re.matches (Re.Alt a b) u <-> Re.matches a u \/ Re.matches b u.
Proof.
  split.
  - intros H. inversion H; subst; auto.
  - intros [H|H]; [now apply MAltL | now apply MAltR].
Qed.

Lemma matches_dates_re (u : string) :
  Re.matches Parser.dates_re u <-> Spec.four_digits u \/ In u Spec.month_abbreviations.
Proof.
  unfold Parser.dates_re. rewrite !matches_alt, !matches_month, matches_four_digits.
  unfold Spec.month_abbreviations, In. split.
  - intros H.
    repeat match type of H with _ \/ _ => destruct H as [H|H] end;
      [ now left | right; subst u .. ];
      repeat (first [left; reflexivity | right]).
  - intros [H|H]; [now left|]. right.
    repeat match type of H with _ \/ _ => destruct H as [H|H] end;
      [subst u .. | destruct H]; tauto.
Qed.

(** The test of [_parse_job_header] on the third segment. *)
Lemma looks_like_dates_spec (segment : string) :
  Parser.looks_like_dates segment = true <-> Spec.dates_like segment.
Proof.
  unfold Parser.looks_like_dates, Spec.dates_like.
  rewrite (found_plain Parser.dates_re segment eq_refl). split.
  - intros (pre & u & post & He & Hu). exists pre, u, post.
    split; [assumption | now apply matches_dates_re].
  - intros (pre & u & post & He & Hu). exists pre, u, post.
    split; [assumption | now apply matches_dates_re].
Qed.

End RegexProperties.

Section JobHeaderProperties.

Import Parser.

Lemma split_not_nil (c : ascii) (s : string) : Py.split c s <> [].
Proof.
  induction s as [|a s IH]; simpl; [discriminate|].
  destruct (Ascii.eqb a c); [discriminate|].
  destruct (Py.split c s); discriminate.
Qed.

(** C6, as the specification states it, fails: a third segment that names
    months in capitals, "JAN - JUN", is taken for the location, not for
    the dates. *)
Lemma upper_case_month_is_taken_for_location :
  Spec.names_dates "JAN - JUN"
  /\ job_location (_parse_job_header "Dev | Acme | JAN - JUN") = "JAN - JUN"
  /\ dates (_parse_job_header "Dev | Acme | JAN - JUN") = ""
  /\ ~ (forall header_line third,
          nth_error (map Py.strip (Py.split "|" header_line)) 2 = Some third ->
          Spec.names_dates third ->
          job_location (_parse_job_header header_line) = ""
          /\ (nth_error (map Py.strip (Py.split "|" header_line)) 3 = None ->
              dates (_parse_job_header header_line) = third)).
Proof.
  assert (Hm : Spec.names_dates "JAN - JUN").
  { exists "", "JAN", " - JUN". split; [reflexivity|]. right.
    vm_compute. do 12 right. left. reflexivity. }
  split; [exact Hm|]. split; [vm_compute; reflexivity|].
  split; [vm_compute; reflexivity|].
  intros H.
  destruct (H "Dev | Acme | JAN - JUN" "JAN - JUN" eq_refl Hm) as [Hl _].
  vm_compute in Hl. discriminate.
Qed.

(** C6, amended: the segments of a job header, split on "|" and stripped,
    fill the job in order: the first is the title, the second the company;
    the third is the dates when it holds four digits in a row or one of the
    abbreviations Jan to Dec, capitalised or in lower case, and the location
    otherwise; a fourth is always the dates; a field without its segment is
    the empty string.  A line of the experience section that starts with
    "### " makes the job parsed from what follows the marker the current
    one. *)
Theorem job_header_fields (header_line : string) :
  let parts := map Py.strip (Py.split "|" header_line) in
  let job := _parse_job_header header_line in
  (exists first, nth_error parts 0 = Some first /\ title job = first)
  /\ (forall second, nth_error parts 1 = Some second -> company job = second)
  /\ (forall third, nth_error parts 2 = Some third ->
        (Spec.dates_like third ->
           job_location job = "" /\ (nth_error parts 3 = None -> dates job = third))
        /\ (~ Spec.dates_like third ->
           job_location job = third /\ (nth_error parts 3 = None -> dates job = "")))
  /\ (forall fourth, nth_error parts 3 = Some fourth -> dates job = fourth)
  /\ (nth_error parts 1 = None -> company job = "")
  /\ (nth_error parts 2 = None -> job_location job = "" /\ dates job = "")
  /\ description job = "" /\ achievements job = []
  /\ (forall st line,
        Py.startswith "### " (Py.strip line) = true ->
        exp_step st line
        = {| experiences := flush_job st;
             current_job := Some (_parse_job_header (Py.skip 4 (Py.strip line))) |}).
Proof.
  cbv zeta. unfold _parse_job_header.
  assert (Hne : map Py.strip (Py.split "|" header_line) <> []).
  { intros H. apply map_eq_nil in H. now apply split_not_nil in H. }
  destruct (map Py.strip (Py.split "|" header_line)) as [|p0 [|p1 [|p2 [|p3 rest]]]];
    [contradiction| | | |]; cbn -[looks_like_dates exp_step].
  - split; [now exists p0|]. repeat split; try discriminate.
    intros st line H. unfold exp_step. now rewrite H.
  - split; [now exists p0|]. split; [now intros s [= <-]|].
    repeat split; try discriminate.
    intros st line H. unfold exp_step. now rewrite H.
  - split; [now exists p0|]. split; [now intros s [= <-]|].
    split.
    { intros third [= <-]. split.
      - intros Hd. apply looks_like_dates_spec in Hd. rewrite Hd. now split.
      - intros Hd. destruct (looks_like_dates p2) eqn:Hl.
        + exfalso. apply Hd. now apply looks_like_dates_spec.
        + now split. }
    repeat split; try discriminate.
    intros st line H. unfold exp_step. now rewrite H.
  - split; [now exists p0|]. split; [now intros s [= <-]|].
    split.
    { intros third [= <-]. split.
      - intros Hd. apply looks_like_dates_spec in Hd. rewrite Hd.
        split; [reflexivity | discriminate].
      - intros Hd. destruct (looks_like_dates p2) eqn:Hl.
        + exfalso. apply Hd. now apply looks_like_dates_spec.
        + split; [reflexivity | discriminate]. }
    split; [now intros s [= <-]|].
    repeat split; try discriminate.
    intros st line H. unfold exp_step. now rewrite H.
Qed.

End JobHeaderProperties.

(** A header with four segments, and one whose third segment names a month. *)
Lemma job_header_fields_witness :
  Parser._parse_job_header "Engineer | Acme | Mar 2019 | 2020 - Present"
  = {| Parser.title := "Engineer"; Parser.company := "Acme"; Parser.job_location := "";
       Parser.dates := "2020 - Present"; Parser.description := "";
       Parser.achievements := [] |}
  /\ Parser.dates (Parser._parse_job_header "Dev | Foo | Since March") = "Since March".
Proof.
  split; [vm_compute; reflexivity|].
  destruct (job_header_fields "Dev | Foo | Since March") as (_ & _ & H & _).
  destruct (H "Since March" eq_refl) as [Hd _].
  apply Hd; [|reflexivity].
  exists "Since ", "Mar", "ch". split; [reflexivity|]. right.
  simpl. tauto.
Defined.

(** ** Further properties of the validator *)

Section ValidityProperties.

Import ATSValidator.

Variable set_order : list string -> list string.
Variable styles : Styles.

Lemma file_size_critical (size : N) :
  is_critical_failure (_check_file_size size) = negb (size <=? MAX_FILE_SIZE_BYTES)%N.
Proof. unfold _check_file_size. destruct (size <=? MAX_FILE_SIZE_BYTES)%N; reflexivity. Qed.

Lemma fonts_never_critical (doc : Document) :
  is_critical_failure (_check_fonts set_order doc) = false.
Proof. unfold _check_fonts. destruct (non_ats_fonts doc); reflexivity. Qed.

Lemma tables_critical (doc : Document) :
  is_critical_failure (_check_tables doc) = negb (length (tables doc) =? 0).
Proof. unfold _check_tables. destruct (length (tables doc) =? 0); reflexivity. Qed.

Lemma images_critical (doc : Document) :
  is_critical_failure (_check_images doc) = negb (image_count doc =? 0).
Proof. unfold _check_images. destruct (image_count doc =? 0); reflexivity. Qed.

Lemma sections_never_critical (doc : Document) :
  is_critical_failure (_check_sections set_order styles doc) = false.
Proof.
  unfold _check_sections.
  destruct (existsb _ _ && existsb _ _); reflexivity.
Qed.

Lemma page_length_never_critical (doc : Document) :
  is_critical_failure (_check_page_length doc) = false.
Proof.
  unfold _check_page_length.
  destruct (_ && _); [reflexivity|]. destruct (_ <? _); reflexivity.
Qed.

Lemma formatting_never_critical (doc : Document) :
  filter is_critical_failure (_check_formatting doc) = [].
Proof.
  unfold _check_formatting.
  destruct (10 <? spacing_issues doc); destruct (5 <? long_lines doc); reflexivity.
Qed.

(** The critical failures of a document that opened: the file size, the
    tables and the images, when they fail, and nothing else. *)
Lemma critical_failures_of_checks (size : N) (doc : Document) :
  filter is_critical_failure (content_checks set_order styles size doc)
  = (if (size <=? MAX_FILE_SIZE_BYTES)%N then [] else [_check_file_size size])
    ++ (if length (tables doc) =? 0 then [] else [_check_tables doc])
    ++ (if image_count doc =? 0 then [] else [_check_images doc]).
Proof.
  unfold content_checks. cbn [app filter].
  rewrite file_size_critical, fonts_never_critical, tables_critical, images_critical,
    sections_never_critical, page_length_never_critical, formatting_never_critical.
  destruct (size <=? MAX_FILE_SIZE_BYTES)%N; destruct (length (tables doc) =? 0);
    destruct (image_count doc =? 0); reflexivity.
Qed.

(** The verdict on a document that opened, as a test. *)
Lemma verdict_of_opened (art : Artifact) (doc : Document) :
  file_exists art = true -> opened art = inr doc ->
  fst (validate set_order styles art)
  = (st_size art <=? MAX_FILE_SIZE_BYTES)%N
    && (length (tables doc) =? 0) && (image_count doc =? 0).
Proof.
  intros He Ho. unfold validate. rewrite He, Ho. cbn [negb fst].
  rewrite critical_failures_of_checks.
  destruct (st_size art <=? MAX_FILE_SIZE_BYTES)%N; destruct (length (tables doc) =? 0);
    destruct (image_count doc =? 0); reflexivity.
Qed.

Lemma no_image_iff (doc : Document) :
  image_count doc = 0
  <-> forall t, In t (rels doc) -> Py.contains "image" (Py.lower t) = false.
Proof.
  unfold image_count. split.
  - intros H t Ht. destruct (Py.contains "image" (Py.lower t)) eqn:Hc; [|reflexivity].
    assert (Hin : In t (filter (fun r => Py.contains "image" (Py.lower r)) (rels doc)))
      by (apply filter_In; split; assumption).
    destruct (filter _ (rels doc)); [destruct Hin | discriminate].
  - intros H. rewrite filter_none; [reflexivity | exact H].
Qed.

(** X1: a document that opens is valid exactly when the file has at most
    1048576 bytes, the body has no table and no relationship targets an
    image; fonts, sections, length and formatting never change the verdict. *)
Theorem valid_iff_size_tables_images (art : Artifact) (doc : Document) :
  file_exists art = true -> opened art = inr doc ->
  fst (validate set_order styles art) = true
  <-> (st_size art <= 1048576)%N
      /\ tables doc = []
      /\ (forall target_ref, In target_ref (rels doc) ->
            Py.contains "image" (Py.lower target_ref) = false).
Proof.
  intros He Ho. rewrite (verdict_of_opened art doc He Ho), <- no_image_iff.
  rewrite !andb_true_iff, N.leb_le, !Nat.eqb_eq, length_zero_iff_nil.
  unfold MAX_FILE_SIZE_BYTES. change (1024 * 1024)%N with 1048576%N. tauto.
Qed.

(** The three kinds of failure and the passes divide the results of
    [validate]: every result is in exactly one group of the report. *)
Lemma severity_of_results (art : Artifact) (r : ValidationResult) :
  In r (snd (validate set_order styles art)) ->
  passed r = true
  \/ (passed r = false
      /\ (severity r = "critical" \/ severity r = "warning" \/ severity r = "info")).
Proof.
  unfold validate. destruct (file_exists art); cbn [negb].
  - destruct (opened art) as [e|doc]; cbn [snd].
    + intros [<-|[]]. right. split; [reflexivity | now left].
    + unfold content_checks, _check_file_size, _check_fonts, _check_tables,
        _check_images, _check_sections, _check_page_length, _check_formatting.
      cbn [app In]. intros H.
      repeat match type of H with
             | _ \/ _ => destruct H as [H|H]
             | In _ (if ?b then _ else _) => destruct b; cbn [In] in H
             end;
        try contradiction; subst r;
        repeat match goal with
               | |- context [if ?b then _ else _] => destruct b
               | |- context [match ?l with [] => _ | _ :: _ => _ end] => destruct l
               end; cbn; auto.
  - cbn [snd]. intros [<-|[]]. right. split; [reflexivity | now left].
Qed.

End ValidityProperties.

Section ReportProperties.

Import ATSValidator.

Variable set_order : list string -> list string.
Variable styles : Styles.
Variable glyph_passed glyph_critical glyph_warning glyph_siren glyph_info : string.

Lemma groups_divide (results : list ValidationResult) :
  (forall r, In r results ->
     passed r = true
     \/ (passed r = false
         /\ (severity r = "critical" \/ severity r = "warning" \/ severity r = "info"))) ->
  Permutation
    (filter (failed_with "critical") results ++ filter (failed_with "warning") results
     ++ filter (failed_with "info") results ++ filter passed results)
    results.
Proof.
  induction results as [|r rs IH]; intros H; [constructor|].
  assert (IH' := IH (fun x Hx => H x (or_intror Hx))). clear IH.
  assert (Hf : forall sev, failed_with sev r
                           = negb (passed r) && String.eqb (severity r) sev)
    by reflexivity.
  cbn [filter]. rewrite !Hf.
  destruct (H r (or_introl eq_refl)) as [Hp|[Hp Hs]]; rewrite Hp; cbn [negb andb].
  - apply Permutation_sym. rewrite !app_assoc. apply Permutation_cons_app.
    rewrite <- !app_assoc. now apply Permutation_sym.
  - destruct Hs as [Hs|[Hs|Hs]]; rewrite Hs; cbn [String.eqb Ascii.eqb Bool.eqb andb].
    + cbn [app]. now constructor.
    + apply Permutation_sym. apply Permutation_cons_app. now apply Permutation_sym.
    + apply Permutation_sym. rewrite app_assoc. apply Permutation_cons_app.
      rewrite <- app_assoc. now apply Permutation_sym.
Qed.

Lemma status_line (art : Artifact) :
  nth_error
    (report_lines glyph_passed glyph_critical glyph_warning glyph_siren glyph_info
       (snd (validate set_order styles art))) 3
  = Some (if fst (validate set_order styles art)
          then (glyph_passed ++ " OVERALL STATUS: ATS-COMPLIANT")%string
          else (glyph_critical ++ " OVERALL STATUS: NOT ATS-COMPLIANT")%string).
Proof.
  unfold validate. destruct (file_exists art); cbn [negb].
  - destruct (opened art) as [e|doc]; cbn [fst snd]; [reflexivity|].
    unfold report_lines. cbn [app nth_error].
    change (failed_with "critical") with is_critical_failure.
    destruct (filter is_critical_failure _); reflexivity.
  - reflexivity.
Qed.

(** X2: the report of the results of [validate] states the verdict of
    [validate] in its fourth line, and its four groups (critical issues,
    warnings, suggestions, passed checks) hold every result exactly once. *)
Theorem report_agrees_with_validate (art : Artifact) :
  let (is_valid, results) := validate set_order styles art in
  nth_error
    (report_lines glyph_passed glyph_critical glyph_warning glyph_siren glyph_info results) 3
  = Some (if is_valid
          then (glyph_passed ++ " OVERALL STATUS: ATS-COMPLIANT")%string
          else (glyph_critical ++ " OVERALL STATUS: NOT ATS-COMPLIANT")%string)
  /\ Permutation
       (filter (failed_with "critical") results ++ filter (failed_with "warning") results
        ++ filter (failed_with "info") results ++ filter passed results)
       results.
Proof.
  pose proof (severity_of_results set_order styles art) as Hsev.
  pose proof (status_line art) as Hst.
  destruct (validate set_order styles art) as [is_valid results].
  split; [exact Hst | apply groups_divide; exact Hsev].
Qed.

(** X3: a failed result whose severity is none of "critical", "warning" and
    "info" (the default of the constructor is "error") is in no group: the
    report is the one of the other results. *)
Theorem report_drops_unknown_severity (r : ValidationResult) (results : list ValidationResult) :
  passed r = false ->
  severity r <> "critical" -> severity r <> "warning" -> severity r <> "info" ->
  generate_report glyph_passed glyph_critical glyph_warning glyph_siren glyph_info
    (r :: results)
  = generate_report glyph_passed glyph_critical glyph_warning glyph_siren glyph_info results.
Proof.
  intros Hp Hc Hw Hi.
  assert (Hf : forall sev, sev = "critical" \/ sev = "warning" \/ sev = "info" ->
                           failed_with sev r = false).
  { intros sev Hsev. unfold failed_with. rewrite Hp. cbn [negb andb].
    apply String.eqb_neq. destruct Hsev as [->|[->| ->]]; assumption. }
  unfold generate_report, report_lines. cbn [filter].
  rewrite !Hf, Hp by auto. reflexivity.
Qed.

End ReportProperties.

(** A failed result with the default severity, before a passed one. *)
Lemma report_drops_unknown_severity_witness :
  ATSValidator.report_lines "+" "x" "!" "!!" "i"
    [{| ATSValidator.check_name := "Custom"; ATSValidator.passed := false;
        ATSValidator.message := "failed"; ATSValidator.severity := "error" |};
     {| ATSValidator.check_name := "Tables"; ATSValidator.passed := true;
        ATSValidator.message := "none"; ATSValidator.severity := "info" |}]
  = [(nl ++ ATSValidator.repeat_string "=" 70)%string;
     "ATS COMPLIANCE VALIDATION REPORT";
     (ATSValidator.repeat_string "=" 70 ++ nl)%string;
     "+ OVERALL STATUS: ATS-COMPLIANT"; "";
     "+ PASSED CHECKS:"; "  + Tables: none";
     (nl ++ ATSValidator.repeat_string "=" 70)%string]
  /\ ATSValidator.generate_report "+" "x" "!" "!!" "i"
       [{| ATSValidator.check_name := "Custom"; ATSValidator.passed := false;
           ATSValidator.message := "failed"; ATSValidator.severity := "error" |};
        {| ATSValidator.check_name := "Tables"; ATSValidator.passed := true;
           ATSValidator.message := "none"; ATSValidator.severity := "info" |}]
     = ATSValidator.generate_report "+" "x" "!" "!!" "i"
         [{| ATSValidator.check_name := "Tables"; ATSValidator.passed := true;
             ATSValidator.message := "none"; ATSValidator.severity := "info" |}].
Proof.
  split; [vm_compute; reflexivity|].
  apply report_drops_unknown_severity; [reflexivity | discriminate..].
Defined.

(** An empty document of half a megabyte is valid. *)
Lemma valid_iff_size_tables_images_witness :
  fst (ATSValidator.validate Spec.insertion_order Spec.no_styles Samples.blank_artifact)
  = true.
Proof.
  apply (proj2 (valid_iff_size_tables_images Spec.insertion_order Spec.no_styles
                  Samples.blank_artifact DocxBuilder.empty_document eq_refl eq_refl)).
  split; [vm_compute; discriminate|]. split; [reflexivity|]. intros t [].
Defined.

(** ** Substrings *)

Section SubstringProperties.

Lemma prefix_spec (p s : string) :
  String.prefix p s = true <-> exists b, s = (p ++ b)%string.
Proof.
  revert s. induction p as [|c p IH]; intros s.
  - split; [intros _; now exists s | intros _; destruct s; reflexivity].
  - destruct s as [|d s]; simpl.
    + split; [discriminate | intros [b H]; discriminate].
    + destruct (ascii_dec c d) as [->|Hne].
      * rewrite IH. split; intros [b H]; exists b; [now rewrite H | now injection H].
      * split; [discriminate|]. intros [b H]. injection H as H1 H2. congruence.
Qed.

(** [p in s] holds exactly when [s] is some text, [p], and some text. *)
Lemma contains_spec (p s : string) :
  Py.contains p s = true <-> exists a b, s = (a ++ p ++ b)%string.
Proof.
  induction s as [|c s IH]; simpl.
  - rewrite orb_false_r. change (match p with
                                 | EmptyString => true
                                 | String _ _ => false
                                 end) with (String.prefix p EmptyString).
    rewrite prefix_spec. split.
    + intros [b H]. now exists EmptyString, b.
    + intros (a & b & H). destruct a; [now exists b | discriminate].
  - rewrite orb_true_iff, IH.
    change (match p with
            | EmptyString => true
            | String a' s1' => if ascii_dec a' c then String.prefix s1' s else false
            end) with (String.prefix p (String c s)).
    rewrite prefix_spec. split.
    + intros [[b H]|(a & b & H)].
      * now exists EmptyString, b.
      * exists (String c a), b. simpl. now rewrite H.
    + intros (a & b & H). destruct a as [|d a].
      * left. now exists b.
      * right. simpl in H. injection H as _ H. now exists a, b.
Qed.

Lemma contains_trans (p q s : string) :
  Py.contains p q = true -> Py.contains q s = true -> Py.contains p s = true.
Proof.
  rewrite !contains_spec. intros (a & b & ->) (a' & b' & ->).
  exists (a' ++ a)%string, (b ++ b')%string. now rewrite !append_assoc.
Qed.

End SubstringProperties.

(** ** The Sections check with the built-in section names *)

Section SectionsCheckProperties.

Import ATSValidator.

Variable set_order : list string -> list string.

Lemma existsb_filter {A} (f g : A -> bool) (l : list A) :
  existsb g (filter f l) = existsb (fun x => f x && g x) l.
Proof.
  induction l as [|a l IH]; [reflexivity|]. cbn [filter existsb].
  destruct (f a); cbn [existsb andb orb]; now rewrite IH.
Qed.

Lemma mentions_longer (doc : Document) (short long : string) :
  Py.contains (Py.lower short) (Py.lower long) = true ->
  Notions.mentions doc long = true -> Notions.mentions doc short = true.
Proof.
  unfold Notions.mentions. intros Hc H. apply existsb_exists in H. destruct H as (t & Ht & H).
  apply existsb_exists. exists t. split; [assumption|].
  exact (contains_trans _ _ _ Hc H).
Qed.

Lemma found_default (doc : Document) :
  found_sections Spec.no_styles doc = filter (Notions.mentions doc) default_standard_sections.
Proof. reflexivity. Qed.

Lemma has_experience_default (doc : Document) :
  existsb (fun s => Py.contains "experience" (Py.lower s))
    (found_sections Spec.no_styles doc)
  = Notions.mentions doc "Experience".
Proof.
  rewrite found_default, existsb_filter. unfold default_standard_sections.
  cbn -[Notions.mentions]. rewrite !andb_false_r, !andb_true_r, !orb_false_r. cbn [orb].
  destruct (Notions.mentions doc "Experience") eqn:He; [reflexivity|]. cbn [orb].
  destruct (Notions.mentions doc "Professional Experience") eqn:Hp.
  { rewrite (mentions_longer doc "Experience" "Professional Experience" eq_refl Hp) in He.
    discriminate. }
  destruct (Notions.mentions doc "Work Experience") eqn:Hw; [|reflexivity].
  rewrite (mentions_longer doc "Experience" "Work Experience" eq_refl Hw) in He.
  discriminate.
Qed.

Lemma has_education_default (doc : Document) :
  existsb (fun s => Py.contains "education" (Py.lower s))
    (found_sections Spec.no_styles doc)
  = Notions.mentions doc "Education".
Proof.
  rewrite found_default, existsb_filter. unfold default_standard_sections.
  cbn -[Notions.mentions]. now rewrite !andb_false_r, !andb_true_r, !orb_false_r.
Qed.

Lemma sections_passed_default (doc : Document) :
  passed (_check_sections set_order Spec.no_styles doc)
  = Notions.mentions doc "Experience" && Notions.mentions doc "Education".
Proof.
  unfold _check_sections. rewrite has_experience_default, has_education_default.
  destruct (Notions.mentions doc "Experience" && Notions.mentions doc "Education");
    reflexivity.
Qed.

(** X4: with the built-in list of section names, the Sections check passes
    exactly when some non-blank paragraph holds "experience" and some holds
    "education", in any case; when it fails it is a warning. *)
Theorem sections_check_with_default_names (doc : Document) :
  let r := _check_sections set_order Spec.no_styles doc in
  (passed r = true
   <-> (exists t, In t (paragraph_text doc)
                  /\ Py.contains "experience" (Py.lower t) = true)
       /\ (exists t, In t (paragraph_text doc)
                     /\ Py.contains "education" (Py.lower t) = true))
  /\ (passed r = false -> severity r = "warning").
Proof.
  cbv zeta. split.
  - rewrite sections_passed_default, andb_true_iff.
    unfold Notions.mentions. rewrite !existsb_exists. reflexivity.
  - unfold _check_sections. destruct (_ && _); [discriminate | reflexivity].
Qed.

End SectionsCheckProperties.

(** ** Further properties of the builder *)

Section BuildComposition.

Import Parser DocxBuilder.

Variable styles : Styles.

Lemma add_paragraphs_app (ps qs : list Paragraph) (doc : Document) :
  add_paragraphs (ps ++ qs) doc = add_paragraphs qs (add_paragraphs ps doc).
Proof. unfold add_paragraphs. apply fold_left_app. Qed.

Lemma add_paragraphs_nil (doc : Document) : add_paragraphs [] doc = doc.
Proof. reflexivity. Qed.

Lemma add_raw_sections (secs : dict string) (doc : Document) :
  fold_left (fun d (kv : string * string) => _add_section styles (fst kv) (snd kv) d)
    secs doc
  = add_paragraphs
      (flat_map (fun kv : string * string => section_block styles (fst kv) (snd kv)) secs)
      doc.
Proof.
  revert doc. induction secs as [|kv secs IH]; intros doc; cbn [fold_left flat_map].
  - reflexivity.
  - rewrite IH, add_paragraphs_app. reflexivity.
Qed.

(** [build] appends the blocks of the document in their fixed order. *)
Lemma build_appends_blocks (resume_data : ResumeData) (document : Document) :
  build styles resume_data document
  = add_paragraphs (Notions.rendered_blocks styles resume_data) document.
Proof.
  unfold build, Notions.rendered_blocks.
  rewrite add_raw_sections, !add_paragraphs_app.
  unfold _add_header, _add_section, _add_skills_section, _add_experience_section,
    _add_education_section, _add_certifications_section.
  destruct (Py.truthy (summary resume_data)); destruct (skills resume_data);
    destruct (experience resume_data); destruct (education resume_data);
    destruct (certifications resume_data); reflexivity.
Qed.

Lemma tables_add_paragraphs (ps : list Paragraph) (doc : Document) :
  tables (add_paragraphs ps doc) = tables doc /\ rels (add_paragraphs ps doc) = rels doc.
Proof.
  unfold add_paragraphs. revert doc.
  induction ps as [|p ps IH]; intros doc; cbn [fold_left]; [now split|].
  destruct (IH (add_paragraph p doc)) as [Ht Hr]. now rewrite Ht, Hr.
Qed.

Lemma build_paragraphs_tables_rels (resume_data : ResumeData) (document : Document) :
  paragraphs (build styles resume_data document)
  = paragraphs document ++ Notions.rendered_blocks styles resume_data
  /\ tables (build styles resume_data document) = tables document
  /\ rels (build styles resume_data document) = rels document.
Proof.
  rewrite build_appends_blocks. split; [apply paragraphs_add_paragraphs|].
  apply tables_add_paragraphs.
Qed.

(** X5: [build] only appends paragraphs: the paragraphs of the document it
    is given stay in front, followed by the blocks of the structured
    document in the fixed order, and the tables and the relationships (so
    the images) of the document are left as they are. *)
Theorem build_only_appends (resume_data : ResumeData) (document : Document) :
  paragraphs (build styles resume_data document)
  = paragraphs document ++ Notions.rendered_blocks styles resume_data
  /\ tables (build styles resume_data document) = tables document
  /\ rels (build styles resume_data document) = rels document.
Proof.
  rewrite build_appends_blocks. split.
  - apply paragraphs_add_paragraphs.
  - apply tables_add_paragraphs.
Qed.

(** *** The section headers *)

Lemma no_header_filter (ps : list Paragraph) :
  (forall p, In p ps -> bottom_border p = None) ->
  filter Spec.is_section_header ps = [].
Proof.
  intros H. apply filter_none. intros p Hp. unfold Spec.is_section_header.
  now rewrite (H p Hp).
Qed.

Lemma header_block_plain (nm : string) (c : Contact) :
  filter Spec.is_section_header (header_block styles nm c) = [].
Proof. apply filter_none. apply header_block_no_header. Qed.

Lemma section_block_headers (title content : string) :
  filter Spec.is_section_header (section_block styles title content)
  = [section_header styles title].
Proof.
  unfold section_block. cbn [filter]. change (Spec.is_section_header _) with true at 1.
  destruct (Py.truthy (Py.strip content)); reflexivity.
Qed.

Lemma skill_paragraphs_plain (sk : dict (list string)) (p : Paragraph) :
  In p (skill_paragraphs styles sk) -> bottom_border p = None.
Proof.
  intros Hp. unfold skill_paragraphs in Hp.
  apply in_flat_map in Hp. destruct Hp as ([category skill_list] & _ & Hp).
  destruct skill_list; [destruct Hp|]. now destruct Hp as [<-|[]].
Qed.

Lemma job_paragraphs_plain (job : Job) (last : bool) (p : Paragraph) :
  In p (job_paragraphs styles job last) -> bottom_border p = None.
Proof.
  unfold job_paragraphs. intros H.
  repeat (apply in_app_or in H; destruct H as [H|H]).
  - now destruct H as [<-|[]].
  - destruct (Py.truthy (dates job)); [|destruct H]. now destruct H as [<-|[]].
  - destruct (Py.truthy (description job)); [|destruct H]. now destruct H as [<-|[]].
  - apply in_map_iff in H. now destruct H as (a & <- & _).
  - destruct last; [destruct H|]. now destruct H as [<-|[]].
Qed.

Lemma jobs_paragraphs_plain (jobs : list Job) (p : Paragraph) :
  In p (jobs_paragraphs styles jobs) -> bottom_border p = None.
Proof.
  induction jobs as [|job jobs IH]; [intros []|].
  cbn [jobs_paragraphs]. destruct jobs as [|job' jobs].
  - apply job_paragraphs_plain.
  - intros H. apply in_app_or in H. destruct H as [H|H];
      [now apply job_paragraphs_plain in H | now apply IH].
Qed.

Lemma edu_paragraphs_plain (edu : Edu) (p : Paragraph) :
  In p (edu_paragraphs styles edu) -> bottom_border p = None.
Proof.
  unfold edu_paragraphs. intros [<-|H]; [reflexivity|].
  apply in_map_iff in H. now destruct H as (a & <- & _).
Qed.

Lemma block_headers (title : string) (inner : list Paragraph) :
  (forall p, In p inner -> bottom_border p = None) ->
  filter Spec.is_section_header
    (section_header styles title :: inner ++ [spacing_para (spacing_section styles)])
  = [section_header styles title].
Proof.
  intros H. cbn [filter]. change (Spec.is_section_header _) with true at 1.
  rewrite filter_app, (no_header_filter inner H). reflexivity.
Qed.

Lemma raw_section_headers (secs : dict string) :
  map para_text
    (filter Spec.is_section_header
       (flat_map (fun kv : string * string => section_block styles (fst kv) (snd kv)) secs))
  = map Py.upper (Dict.keys secs).
Proof.
  induction secs as [|[k v] secs IH]; [reflexivity|].
  cbn [flat_map fst snd]. rewrite filter_app, map_app, section_block_headers, IH.
  reflexivity.
Qed.

(** X6: the section headers of the built document are those of the document
    it is given, then "SUMMARY", "CORE SKILLS", "PROFESSIONAL EXPERIENCE",
    "EDUCATION" and "CERTIFICATIONS", each only when its field is not empty,
    then the names of the other sections in their stored order, in upper
    case: one header for each, and no other. *)
Theorem build_section_headers (resume_data : ResumeData) (document : Document) :
  Notions.header_texts (build styles resume_data document)
  = Notions.header_texts document ++ map Py.upper (Notions.section_titles resume_data).
Proof.
  unfold Notions.header_texts.
  rewrite (proj1 (build_paragraphs_tables_rels resume_data document)), filter_app, map_app.
  f_equal. unfold Notions.rendered_blocks, Notions.section_titles.
  rewrite !filter_app, !map_app, header_block_plain, raw_section_headers.
  cbn [map app]. f_equal; [|f_equal; [|f_equal; [|f_equal; [|f_equal]]]].
  - destruct (Py.truthy (summary resume_data)); [|reflexivity].
    now rewrite section_block_headers.
  - destruct (skills resume_data) as [|kv sk]; [reflexivity|]. unfold skills_block.
    rewrite block_headers; [reflexivity | apply skill_paragraphs_plain].
  - destruct (experience resume_data) as [|job jobs]; [reflexivity|].
    unfold experience_block.
    rewrite block_headers; [reflexivity | apply jobs_paragraphs_plain].
  - destruct (education resume_data) as [|edu edus]; [reflexivity|].
    unfold education_block.
    rewrite block_headers; [reflexivity|].
    intros q Hq. apply in_flat_map in Hq. destruct Hq as (entry & _ & Hq).
    now apply edu_paragraphs_plain in Hq.
  - destruct (certifications resume_data) as [|cert certs]; [reflexivity|].
    unfold certifications_block.
    rewrite block_headers; [reflexivity|].
    intros q Hq. apply in_map_iff in Hq. now destruct Hq as (item & <- & _).
Qed.

End BuildComposition.

(** ** The built document under the validator *)

Section BuiltDocumentChecks.

Import Parser DocxBuilder.

Variable styles : Styles.
Variable set_order : list string -> list string.

Ltac styled_by := eexists; split; [|reflexivity]; unfold Notions.style_fonts; simpl; tauto.

Ltac in_apps H :=
  repeat match type of H with
         | In _ (_ ++ _) => apply in_app_or in H; destruct H as [H|H]
         end.

Lemma header_block_runs (nm : string) (c : Contact) (p : Paragraph) (r : Run) :
  In p (header_block styles nm c) -> In r (runs p) -> Notions.styled styles r.
Proof.
  unfold header_block. intros Hp Hr. in_apps Hp.
  - destruct Hp as [<-|[]]. destruct Hr as [<-|[]]. styled_by.
  - apply in_map_iff in Hp. destruct Hp as (l & <- & _).
    destruct Hr as [<-|[]]. styled_by.
  - destruct Hp as [<-|[]]. destruct Hr.
Qed.

Lemma section_block_runs (title content : string) (p : Paragraph) (r : Run) :
  In p (section_block styles title content) -> In r (runs p) -> Notions.styled styles r.
Proof.
  unfold section_block. intros [<-|Hp] Hr.
  - destruct Hr as [<-|[]]. styled_by.
  - destruct (Py.truthy (Py.strip content)); [|destruct Hp].
    destruct Hp as [<-|[]]. destruct Hr as [<-|[]]. styled_by.
Qed.

Lemma skills_block_runs (sk : dict (list string)) (p : Paragraph) (r : Run) :
  In p (skills_block styles sk) -> In r (runs p) -> Notions.styled styles r.
Proof.
  unfold skills_block. intros [<-|Hp] Hr.
  - destruct Hr as [<-|[]]. styled_by.
  - in_apps Hp; [|destruct Hp as [<-|[]]; destruct Hr].
    unfold skill_paragraphs in Hp. apply in_flat_map in Hp.
    destruct Hp as ([category skill_list] & _ & Hp).
    destruct skill_list; [destruct Hp|]. destruct Hp as [<-|[]].
    destruct Hr as [<-|[<-|[]]]; styled_by.
Qed.

Lemma job_paragraphs_runs (job : Job) (last : bool) (p : Paragraph) (r : Run) :
  In p (job_paragraphs styles job last) -> In r (runs p) -> Notions.styled styles r.
Proof.
  unfold job_paragraphs. intros Hp Hr. in_apps Hp.
  - destruct Hp as [<-|[]]. destruct Hr as [<-|Hr]; [styled_by|].
    destruct (nonempty_strings _); [destruct Hr|]. destruct Hr as [<-|[]]. styled_by.
  - destruct (Py.truthy (dates job)); [|destruct Hp]. destruct Hp as [<-|[]].
    destruct Hr as [<-|[]]. styled_by.
  - destruct (Py.truthy (description job)); [|destruct Hp]. destruct Hp as [<-|[]].
    destruct Hr as [<-|[]]. styled_by.
  - apply in_map_iff in Hp. destruct Hp as (a & <- & _).
    destruct Hr as [<-|[]]. styled_by.
  - destruct last; [destruct Hp|]. destruct Hp as [<-|[]]. destruct Hr.
Qed.

Lemma experience_block_runs (jobs : list Job) (p : Paragraph) (r : Run) :
  In p (experience_block styles jobs) -> In r (runs p) -> Notions.styled styles r.
Proof.
  unfold experience_block. intros [<-|Hp] Hr.
  - destruct Hr as [<-|[]]. styled_by.
  - in_apps Hp; [|destruct Hp as [<-|[]]; destruct Hr].
    induction jobs as [|job jobs IH]; [destruct Hp|]. cbn [jobs_paragraphs] in Hp.
    destruct jobs as [|job' jobs]; [eapply job_paragraphs_runs; eassumption|].
    in_apps Hp; [eapply job_paragraphs_runs; eassumption | now apply IH].
Qed.

Lemma education_block_runs (edus : list Edu) (p : Paragraph) (r : Run) :
  In p (education_block styles edus) -> In r (runs p) -> Notions.styled styles r.
Proof.
  unfold education_block. intros [<-|Hp] Hr.
  - destruct Hr as [<-|[]]. styled_by.
  - in_apps Hp; [|destruct Hp as [<-|[]]; destruct Hr].
    apply in_flat_map in Hp. destruct Hp as (edu & _ & Hp).
    unfold edu_paragraphs in Hp. destruct Hp as [<-|Hp].
    + destruct Hr as [<-|Hr]; [styled_by|].
      destruct (_ ++ _); [destruct Hr|]. destruct Hr as [<-|[]]. styled_by.
    + apply in_map_iff in Hp. destruct Hp as (detail & <- & _).
      destruct Hr as [<-|[]]. styled_by.
Qed.

Lemma certifications_block_runs (certs : list string) (p : Paragraph) (r : Run) :
  In p (certifications_block styles certs) -> In r (runs p) -> Notions.styled styles r.
Proof.
  unfold certifications_block. intros [<-|Hp] Hr.
  - destruct Hr as [<-|[]]. styled_by.
  - in_apps Hp; [|destruct Hp as [<-|[]]; destruct Hr].
    apply in_map_iff in Hp. destruct Hp as (c & <- & _).
    destruct Hr as [<-|[]]. styled_by.
Qed.

(** Every run the builder writes takes its font from the styles. *)
Lemma runs_of_blocks (d : ResumeData) (p : Paragraph) (r : Run) :
  In p (Notions.rendered_blocks styles d) -> In r (runs p) ->
  exists fc, In fc (Notions.style_fonts styles) /\ font_name r = Some (Notions.font_of fc).
Proof.
  unfold Notions.rendered_blocks. intros Hp Hr.
  apply in_app_or in Hp. destruct Hp as [Hp|Hp]; [eapply header_block_runs; eassumption|].
  apply in_app_or in Hp. destruct Hp as [Hp|Hp].
  { destruct (Py.truthy (summary d)); [|destruct Hp].
    eapply section_block_runs; eassumption. }
  apply in_app_or in Hp. destruct Hp as [Hp|Hp].
  { destruct (skills d); [destruct Hp|]. eapply skills_block_runs; eassumption. }
  apply in_app_or in Hp. destruct Hp as [Hp|Hp].
  { destruct (experience d); [destruct Hp|]. eapply experience_block_runs; eassumption. }
  apply in_app_or in Hp. destruct Hp as [Hp|Hp].
  { destruct (education d); [destruct Hp|]. eapply education_block_runs; eassumption. }
  apply in_app_or in Hp. destruct Hp as [Hp|Hp].
  { destruct (certifications d); [destruct Hp|].
    eapply certifications_block_runs; eassumption. }
  apply in_flat_map in Hp. destruct Hp as ([k v] & _ & Hp).
  eapply section_block_runs; eassumption.
Qed.

Lemma non_ats_fonts_build (d : ResumeData) (document : Document) :
  ATSValidator.non_ats_fonts (build styles d document)
  = ATSValidator.non_ats_fonts document
    ++ ATSValidator.non_ats_fonts
         {| paragraphs := Notions.rendered_blocks styles d; tables := []; rels := [] |}.
Proof.
  unfold ATSValidator.non_ats_fonts.
  rewrite (proj1 (build_paragraphs_tables_rels styles d document)). cbn [paragraphs].
  apply flat_map_app.
Qed.

Lemma flat_map_nil {A B} (f : A -> list B) (l : list A) :
  (forall x, In x l -> f x = []) -> flat_map f l = [].
Proof.
  induction l as [|a l IH]; intros H; [reflexivity|]. cbn [flat_map].
  rewrite (H a (or_introl eq_refl)), IH; [reflexivity|].
  intros x Hx. apply H. now right.
Qed.

(** X7: when every font of the styles is on the list of the validator, the
    builder adds no other font: the Fonts check passes on the built
    document whenever it passes on the document the builder started from. *)
Theorem fonts_check_on_built_document (d : ResumeData) (document : Document) :
  Notions.ats_friendly_styles styles = true ->
  ATSValidator.non_ats_fonts (build styles d document)
  = ATSValidator.non_ats_fonts document
  /\ (ATSValidator.passed (ATSValidator._check_fonts set_order document) = true ->
      ATSValidator.passed
        (ATSValidator._check_fonts set_order (build styles d document)) = true).
Proof.
  intros Hs.
  assert (Hn : ATSValidator.non_ats_fonts (build styles d document)
               = ATSValidator.non_ats_fonts document).
  { rewrite non_ats_fonts_build. unfold ATSValidator.non_ats_fonts at 2. cbn [paragraphs].
    rewrite flat_map_nil; [apply app_nil_r|].
    intros p Hp. apply flat_map_nil. intros r Hr.
    destruct (runs_of_blocks d p r Hp Hr) as (fc & Hfc & ->).
    unfold Notions.ats_friendly_styles in Hs. rewrite forallb_forall in Hs.
    rewrite (Hs fc Hfc). now rewrite andb_false_r. }
  split; [exact Hn|]. unfold ATSValidator._check_fonts. rewrite Hn. tauto.
Qed.

(** X8: a document built on a template without tables and image
    relationships has none either, so the file that holds it is valid
    exactly when it has at most 1048576 bytes. *)
Theorem built_document_valid_iff_small
    (d : ResumeData) (document : Document) (path : string) (size : N) :
  tables document = [] ->
  (forall target_ref, In target_ref (rels document) ->
     Py.contains "image" (Py.lower target_ref) = false) ->
  fst (ATSValidator.validate set_order Spec.no_styles
         (Notions.saved path size (build styles d document))) = true
  <-> (size <= 1048576)%N.
Proof.
  intros Ht Hi.
  rewrite (verdict_of_opened set_order Spec.no_styles
             (Notions.saved path size (build styles d document))
             (build styles d document) eq_refl eq_refl).
  destruct (build_paragraphs_tables_rels styles d document) as (_ & Ht' & Hr').
  assert (Hi' : ATSValidator.image_count (build styles d document) = 0).
  { apply no_image_iff. now rewrite Hr'. }
  rewrite Ht', Ht, Hi'. cbn [ATSValidator.st_size Notions.saved length Nat.eqb andb].
  rewrite !andb_true_r, N.leb_le. unfold ATSValidator.MAX_FILE_SIZE_BYTES.
  change (1024 * 1024)%N with 1048576%N. tauto.
Qed.

(** X9: a structured document with at least one job and one education entry
    gives a built document that passes the Sections check with the built-in
    section names, whatever the styles and the template. *)
Theorem sections_check_on_built_document (d : ResumeData) (document : Document) :
  experience d <> [] -> education d <> [] ->
  ATSValidator.passed
    (ATSValidator._check_sections set_order Spec.no_styles (build styles d document))
  = true.
Proof.
  intros He Hd.
  rewrite sections_passed_default.
  assert (Hin : forall title,
             In (section_header styles title) (Notions.rendered_blocks styles d) ->
             Py.truthy (Py.strip (Py.upper title)) = true ->
             In (Py.strip (Py.upper title))
               (ATSValidator.paragraph_text (build styles d document))).
  { intros title Hin Htr. unfold ATSValidator.paragraph_text.
    apply filter_In. split; [|assumption].
    apply in_map_iff. exists (section_header styles title). split; [reflexivity|].
    rewrite (proj1 (build_paragraphs_tables_rels styles d document)).
    apply in_or_app. now right. }
  apply andb_true_iff. unfold Notions.mentions. rewrite !existsb_exists. split.
  - exists (Py.strip (Py.upper "Professional Experience")). split; [|reflexivity].
    apply Hin; [|reflexivity]. unfold Notions.rendered_blocks.
    do 3 (apply in_or_app; right). apply in_or_app. left.
    destruct (experience d); [contradiction | now left].
  - exists (Py.strip (Py.upper "Education")). split; [|reflexivity].
    apply Hin; [|reflexivity]. unfold Notions.rendered_blocks.
    do 4 (apply in_or_app; right). apply in_or_app. left.
    destruct (education d); [contradiction | now left].
Qed.

End BuiltDocumentChecks.

(** The built-in styles use Calibri only. *)
Lemma fonts_check_on_built_document_witness :
  Notions.ats_friendly_styles DocxBuilder._default_styles = true
  /\ ATSValidator.passed
       (ATSValidator._check_fonts Spec.insertion_order
          (DocxBuilder.build DocxBuilder._default_styles Samples.job_and_degree
             DocxBuilder.empty_document)) = true.
Proof.
  split; [reflexivity|].
  apply (proj2 (fonts_check_on_built_document DocxBuilder._default_styles
                  Spec.insertion_order Samples.job_and_degree DocxBuilder.empty_document
                  eq_refl)).
  reflexivity.
Defined.

(** A built document in a file of half a megabyte. *)
Lemma built_document_valid_iff_small_witness :
  fst (ATSValidator.validate Spec.insertion_order Spec.no_styles
         (Notions.saved "resume.docx" 524288
            (DocxBuilder.build DocxBuilder._default_styles Samples.job_and_degree
               DocxBuilder.empty_document))) = true.
Proof.
  apply (proj2 (built_document_valid_iff_small DocxBuilder._default_styles
                  Spec.insertion_order Samples.job_and_degree DocxBuilder.empty_document
                  "resume.docx" 524288 eq_refl (fun t (H : In t []) => match H with end))).
  vm_compute. discriminate.
Defined.

(** One job and one degree. *)
Lemma sections_check_on_built_document_witness :
  ATSValidator.passed
    (ATSValidator._check_sections Spec.insertion_order Spec.no_styles
       (DocxBuilder.build DocxBuilder._default_styles Samples.job_and_degree
          DocxBuilder.empty_document)) = true.
Proof.
  apply (sections_check_on_built_document DocxBuilder._default_styles
           Spec.insertion_order Samples.job_and_degree DocxBuilder.empty_document);
    discriminate.
Defined.

(** ** Stripping *)

Section StripProperties.

Variable p : ascii -> bool.

Lemma lstrip_empty (s : string) :
  Py.lstrip_by p s = EmptyString <-> Notions.all_chars p s = true.
Proof.
  induction s as [|c s IH]; simpl; [tauto|].
  destruct (p c); simpl; [exact IH|]. split; discriminate.
Qed.

Lemma rstrip_empty (s : string) :
  Py.rstrip_by p s = EmptyString <-> Notions.all_chars p s = true.
Proof.
  induction s as [|c s IH]; simpl; [tauto|].
  destruct (Py.rstrip_by p s) as [|d r].
  - destruct (p c); simpl.
    + split; [intros _; now apply IH | reflexivity].
    + split; discriminate.
  - split; [discriminate|]. intros H. apply andb_prop in H. destruct H as [_ H].
    apply IH in H. discriminate.
Qed.

Lemma all_chars_lstrip (s : string) :
  Notions.all_chars p (Py.lstrip_by p s) = Notions.all_chars p s.
Proof.
  induction s as [|c s IH]; simpl; [reflexivity|].
  destruct (p c) eqn:Hc; simpl; [exact IH | now rewrite Hc].
Qed.

Lemma rstrip_idempotent (s : string) :
  Py.rstrip_by p (Py.rstrip_by p s) = Py.rstrip_by p s.
Proof.
  induction s as [|c s IH]; simpl; [reflexivity|].
  destruct (Py.rstrip_by p s) as [|d r] eqn:Hr.
  - destruct (p c) eqn:Hc; simpl; [reflexivity | now rewrite Hc].
  - change (Py.rstrip_by p (String c (String d r))) with
      (match Py.rstrip_by p (String d r) with
       | EmptyString => if p c then EmptyString else String c EmptyString
       | String a' r' => String c (String a' r')
       end).
    now rewrite IH.
Qed.

Lemma lstrip_idempotent (s : string) :
  Py.lstrip_by p (Py.lstrip_by p s) = Py.lstrip_by p s.
Proof.
  induction s as [|c s IH]; simpl; [reflexivity|].
  destruct (p c) eqn:Hc; [exact IH | simpl; now rewrite Hc].
Qed.

Lemma lstrip_of_rstrip (t : string) :
  Py.lstrip_by p t = t -> Py.lstrip_by p (Py.rstrip_by p t) = Py.rstrip_by p t.
Proof.
  destruct t as [|c t]; [reflexivity|]. simpl.
  destruct (p c) eqn:Hc.
  - intros H. exfalso.
    assert (Hl : String.length (Py.lstrip_by p t) <= String.length t).
    { clear. induction t as [|d t IH]; simpl; [lia|]. destruct (p d); simpl; lia. }
    rewrite H in Hl. simpl in Hl. lia.
  - intros _. destruct (Py.rstrip_by p t); simpl; now rewrite Hc.
Qed.

(** Stripping twice is stripping once. *)
Lemma strip_idempotent (s : string) :
  Py.strip_by p (Py.strip_by p s) = Py.strip_by p s.
Proof.
  unfold Py.strip_by.
  rewrite (lstrip_of_rstrip (Py.lstrip_by p s) (lstrip_idempotent s)).
  apply rstrip_idempotent.
Qed.

Lemma strip_empty (s : string) :
  Py.strip_by p s = EmptyString <-> Notions.all_chars p s = true.
Proof. unfold Py.strip_by. now rewrite rstrip_empty, all_chars_lstrip. Qed.

Lemma rstrip_fixed_tail (c : ascii) (s : string) :
  Py.rstrip_by p (String c s) = String c s ->
  s = EmptyString \/ (Py.rstrip_by p s = s /\ s <> EmptyString).
Proof.
  simpl. destruct (Py.rstrip_by p s) as [|d r] eqn:Hr.
  - destruct (p c); [discriminate|]. intros [= <-]. now left.
  - intros [= <-]. right. split; [reflexivity | discriminate].
Qed.

(** In a stripped text, what follows a character of the class is not
    empty and does not end in the class. *)
Lemma stripped_after_class (s : string) (c d : ascii) (rest : string) :
  Py.strip_by p s = String c (String d rest) -> p d = true ->
  Py.rstrip_by p rest = rest /\ rest <> EmptyString
  /\ Py.strip_by p rest <> EmptyString.
Proof.
  intros Hs Hd.
  assert (Hfix : Py.rstrip_by p (String c (String d rest)) = String c (String d rest)).
  { rewrite <- Hs. unfold Py.strip_by. apply rstrip_idempotent. }
  apply rstrip_fixed_tail in Hfix. destruct Hfix as [Hfix|[Hfix _]]; [discriminate|].
  destruct (rstrip_fixed_tail d rest Hfix) as [->|[Hr Hne]].
  - simpl in Hfix. rewrite Hd in Hfix. discriminate.
  - split; [assumption|]. split; [assumption|].
    intros He. apply strip_empty in He. apply rstrip_empty in He. congruence.
Qed.

End StripProperties.

(** ** Further properties of the parser *)

Section NameProperties.

Import Parser.

Lemma starts_with_two (a b : ascii) (s : string) :
  Py.startswith (String a (String b EmptyString)) s = true ->
  exists rest, s = String a (String b rest).
Proof.
  unfold Py.startswith. intros H. apply prefix_spec in H. destruct H as [rest ->].
  now exists rest.
Qed.

(** X10: the name is never empty and has no white space around it; it is
    "Resume" when no stripped line starts with "# ", and otherwise the
    stripped rest of the first such line. *)
Theorem name_is_stripped_and_not_empty (lines : list string) :
  _extract_name lines <> ""
  /\ Py.strip (_extract_name lines) = _extract_name lines
  /\ ((forall l, In l lines -> Py.startswith "# " (Py.strip l) = false) ->
      _extract_name lines = "Resume")
  /\ (forall before l after,
        lines = before ++ l :: after ->
        (forall l', In l' before -> Py.startswith "# " (Py.strip l') = false) ->
        Py.startswith "# " (Py.strip l) = true ->
        _extract_name lines = Py.strip (Py.skip 2 (Py.strip l))).
Proof.
  split; [|split; [|split]].
  - induction lines as [|l lines IH]; simpl; [discriminate|].
    destruct (Py.startswith "# " (Py.strip l)) eqn:Hs; [|exact IH].
    destruct (starts_with_two _ _ _ Hs) as [rest Hr]. rewrite Hr. simpl.
    now apply (stripped_after_class Py.isspace l "#" " " rest Hr).
  - induction lines as [|l lines IH]; simpl; [reflexivity|].
    destruct (Py.startswith "# " (Py.strip l)); [|exact IH].
    apply strip_idempotent.
  - induction lines as [|l lines IH]; intros H; simpl; [reflexivity|].
    rewrite (H l (or_introl eq_refl)). apply IH. intros l' Hl'. apply H. now right.
  - intros before l after -> Hb Hl.
    induction before as [|b before IH]; simpl.
    + now rewrite Hl.
    + rewrite (Hb b (or_introl eq_refl)). apply IH. intros l' Hl'. apply Hb. now right.
Qed.

End NameProperties.

Section CertificationProperties.

Import Parser.

Lemma cert_fold (lines : list string) (acc : list string) :
  fold_left cert_step lines acc
  = acc ++ map (fun line => if Py.startswith "- " line then Py.skip 2 line else line)
             (filter (fun line => Py.truthy line && negb (Py.startswith "#" line))
                (map Py.strip lines)).
Proof.
  revert acc. induction lines as [|l lines IH]; intros acc; cbn [fold_left map filter].
  - now rewrite app_nil_r.
  - rewrite IH. unfold cert_step.
    destruct (Py.truthy (Py.strip l) && negb (Py.startswith "#" (Py.strip l)));
      [now rewrite <- app_assoc | reflexivity].
Qed.

(** X11: the certifications are the stripped lines of the section that are
    neither blank nor start with "#", in order, one item for each, without
    a leading "- "; no item is empty. *)
Theorem certifications_one_per_line (content : string) :
  _parse_certifications content
  = map (fun line => if Py.startswith "- " line then Py.skip 2 line else line)
      (Notions.certification_lines content)
  /\ length (_parse_certifications content) = length (Notions.certification_lines content)
  /\ forall item, In item (_parse_certifications content) -> item <> "".
Proof.
  assert (He : _parse_certifications content
               = map (fun line => if Py.startswith "- " line then Py.skip 2 line else line)
                   (Notions.certification_lines content))
    by (unfold _parse_certifications; now rewrite cert_fold).
  split; [exact He|]. split; [rewrite He; apply length_map|].
  intros item Hi. rewrite He in Hi. apply in_map_iff in Hi.
  destruct Hi as (line & <- & Hl). unfold Notions.certification_lines in Hl.
  apply filter_In in Hl. destruct Hl as [Hl Hk].
  apply in_map_iff in Hl. destruct Hl as (raw & <- & _).
  apply andb_prop in Hk. destruct Hk as [Ht _].
  destruct (Py.startswith "- " (Py.strip raw)) eqn:Hs.
  - destruct (starts_with_two _ _ _ Hs) as [rest Hr]. rewrite Hr. simpl.
    now apply (stripped_after_class Py.isspace raw "-" " " rest Hr).
  - destruct (Py.strip raw); [discriminate | discriminate].
Qed.

End CertificationProperties.

Section SectionSplitProperties.

Import Parser.

Lemma keys_set_in {V} (k : string) (v : V) (d : dict V) :
  In k (Dict.keys (Dict.set k v d)).
Proof.
  unfold Dict.keys. induction d as [|[k' v'] d IH]; simpl; [now left|].
  destruct (String.eqb_spec k k') as [->|Hne]; simpl; [now left | now right].
Qed.

Lemma nodup_set {V} (k : string) (v : V) (d : dict V) :
  NoDup (Dict.keys d) -> NoDup (Dict.keys (Dict.set k v d)).
Proof.
  induction d as [|[k' v'] d IH]; simpl; intros H.
  - constructor; [intros [] | constructor].
  - destruct (String.eqb_spec k k') as [->|Hne]; simpl; [exact H|].
    inversion H as [|x l Hnin Hnd]; subst. constructor; [|now apply IH].
    intros Hin. destruct (keys_set _ _ _ _ Hin) as [He|Hin']; [congruence | contradiction].
Qed.

Lemma set_fresh {V} (k : string) (v : V) (d : dict V) :
  ~ In k (Dict.keys d) -> Dict.set k v d = d ++ [(k, v)].
Proof.
  induction d as [|[k' v'] d IH]; simpl; intros H; [reflexivity|].
  destruct (String.eqb_spec k k') as [->|Hne]; [exfalso; apply H; now left|].
  rewrite IH; [reflexivity|]. intros Hin. apply H. now right.
Qed.

Lemma save_section_invariant (lines : list string) (st : split_state) :
  Notions.split_invariant lines st ->
  NoDup (Dict.keys (save_section st))
  /\ (forall k, In k (Dict.keys (save_section st)) ->
        k <> "" /\ exists l, In l lines /\ Py.startswith "## " l = true
                             /\ k = Py.strip (Py.skip 3 l)).
Proof.
  intros (Hnd & Hk & Hc). unfold save_section.
  destruct (current_section st) as [n|]; [|now split].
  destruct (Py.truthy n) eqn:Ht; [|now split].
  split; [now apply nodup_set|].
  intros k Hin. destruct (keys_set _ _ _ _ Hin) as [->|Hin']; [|now apply Hk].
  split; [intros ->; discriminate | now apply Hc].
Qed.

Lemma split_loop_invariant (lines seen : list string) (st : split_state) :
  (forall l, In l seen -> In l lines) ->
  Notions.split_invariant lines st ->
  Notions.split_invariant lines (fold_left split_step seen st).
Proof.
  revert st. induction seen as [|l seen IH]; intros st Hs Hinv; [exact Hinv|].
  cbn [fold_left]. apply IH; [intros l' Hl'; apply Hs; now right|].
  unfold split_step. destruct (Py.startswith "## " l) eqn:Hh.
  - destruct (save_section_invariant lines st Hinv) as [Hnd Hk].
    split; [exact Hnd|]. split; [exact Hk|]. cbn [current_section].
    intros n [= <-]. exists l. split; [apply Hs; now left | now split].
  - destruct (section_open st); [|exact Hinv].
    destruct Hinv as (Hnd & Hk & Hc). now split.
Qed.

Lemma initial_split_invariant (lines : list string) :
  Notions.split_invariant lines
    (fold_left split_step lines
       {| sections := []; current_section := None; section_content := [] |}).
Proof.
  apply split_loop_invariant; [auto|].
  split; [constructor|]. split; [intros k []|]. intros n H. discriminate.
Qed.

(** X12: the names of the sections are pairwise different and not empty,
    and each one is the stripped rest of a line that starts with "## ". *)
Theorem section_names_are_distinct_headings (lines : list string) :
  NoDup (Dict.keys (_split_into_sections lines))
  /\ forall k, In k (Dict.keys (_split_into_sections lines)) ->
       k <> "" /\ exists l, In l lines /\ Py.startswith "## " l = true
                            /\ k = Py.strip (Py.skip 3 l).
Proof.
  unfold _split_into_sections. apply save_section_invariant.
  apply initial_split_invariant.
Qed.

Lemma section_names_nodup (lines : list string) :
  NoDup (Dict.keys (_split_into_sections lines)).
Proof.
  unfold _split_into_sections.
  apply (save_section_invariant lines), initial_split_invariant.
Qed.

Lemma body_accumulates (body : list string) (st : split_state) :
  (forall l, In l body -> Py.startswith "## " l = false) ->
  section_open st = true ->
  fold_left split_step body st
  = {| sections := sections st; current_section := current_section st;
       section_content := section_content st ++ body |}.
Proof.
  revert st. induction body as [|l body IH]; intros st Hb Ho; cbn [fold_left].
  - rewrite app_nil_r. now destruct st.
  - assert (Hs : split_step st l
                 = {| sections := sections st; current_section := current_section st;
                      section_content := section_content st ++ [l] |}).
    { unfold split_step. now rewrite (Hb l (or_introl eq_refl)), Ho. }
    rewrite Hs, IH; [cbn; now rewrite <- app_assoc | intros l' Hl'; apply Hb; now right|].
    unfold section_open in *. exact Ho.
Qed.

(** X13: a heading line with a name, followed by lines that are no
    headings, gives the section of that name the following lines joined by
    line feeds; the section takes the place of an earlier one of the same
    name and goes last otherwise, and the sections before are not touched. *)
Theorem last_section_content (before body : list string) (heading : string) :
  Notions.opens_section heading = true ->
  (forall l, In l body -> Py.startswith "## " l = false) ->
  _split_into_sections (before ++ heading :: body)
  = Dict.set (Py.strip (Py.skip 3 heading)) (Py.join nl body)
      (_split_into_sections before).
Proof.
  unfold Notions.opens_section. intros Hh Hb. apply andb_prop in Hh.
  destruct Hh as [Hs Ht]. unfold _split_into_sections.
  rewrite fold_left_app. cbn [fold_left].
  set (st := fold_left split_step before _).
  assert (Hstep : split_step st heading
                  = {| sections := save_section st;
                       current_section := Some (Py.strip (Py.skip 3 heading));
                       section_content := [] |}).
  { unfold split_step. now rewrite Hs. }
  rewrite Hstep, body_accumulates; [|exact Hb|unfold section_open; cbn; exact Ht].
  unfold save_section at 1. cbn [current_section sections section_content app].
  now rewrite Ht.
Qed.

End SectionSplitProperties.

(** A second "Skills" heading replaces the content of the first. *)
Lemma last_section_content_witness :
  Parser._split_into_sections
    (["# A"; "## Skills"; "Go"; "## Projects"; "X"] ++ "## Skills " :: ["Rust"; "C"])
  = [("Skills", ("Rust" ++ nl ++ "C")%string); ("Projects", "X")].
Proof.
  rewrite last_section_content; [vm_compute; reflexivity | reflexivity|].
  intros l [<-|[<-|[]]]; reflexivity.
Defined.

Section ParseFields.

Import Parser.

Lemma fold_route_summary (secs : list (string * string)) (d : ResumeData) :
  let d' := fold_left parse_step secs d in
  summary d' = Notions.field_of Spec.Summary _parse_summary (summary d) secs
  /\ skills d' = Notions.field_of Spec.Skills _parse_skills (skills d) secs
  /\ experience d' = Notions.field_of Spec.Experience _parse_experience (experience d) secs
  /\ education d' = Notions.field_of Spec.Education _parse_education (education d) secs
  /\ certifications d'
     = Notions.field_of Spec.Certifications _parse_certifications (certifications d) secs
  /\ raw_sections d'
     = fold_left (fun acc s => Dict.set (fst s) (snd s) acc)
         (filter Notions.is_other secs) (raw_sections d)
  /\ name d' = name d /\ contact d' = contact d.
Proof.
  cbv zeta. revert d. induction secs as [|[n c] secs IH]; intros d.
  - repeat split.
  - cbn [fold_left]. destruct (IH (parse_step d (n, c))) as (H1 & H2 & H3 & H4 & H5 & H6 & H7 & H8).
    rewrite H1, H2, H3, H4, H5, H6, H7, H8. clear IH H1 H2 H3 H4 H5 H6 H7 H8.
    rewrite parse_step_routes.
    unfold Notions.field_of, Notions.is_other. cbn [Notions.last_of filter fst].
    destruct (Spec.category_of n) eqn:Hc; cbn [Spec.route];
      destruct (Notions.last_of Spec.Summary secs);
      destruct (Notions.last_of Spec.Skills secs);
      destruct (Notions.last_of Spec.Experience secs);
      destruct (Notions.last_of Spec.Education secs);
      destruct (Notions.last_of Spec.Certifications secs);
      repeat split.
Qed.

Lemma fold_set_nodup (secs acc : list (string * string)) :
  NoDup (Dict.keys (acc ++ secs)) ->
  fold_left (fun d s => Dict.set (fst s) (snd s) d) secs acc = acc ++ secs.
Proof.
  revert acc. induction secs as [|[k v] secs IH]; intros acc Hnd; cbn [fold_left fst snd].
  - now rewrite app_nil_r.
  - assert (Hk : ~ In k (Dict.keys acc)).
    { unfold Dict.keys in *. rewrite map_app in Hnd. cbn [map fst] in Hnd.
      apply NoDup_remove_2 in Hnd. intros H. apply Hnd. apply in_or_app. now left. }
    rewrite (set_fresh k v acc Hk), IH; rewrite <- app_assoc; [reflexivity | exact Hnd].
Qed.

Lemma nodup_filter_keys (f : string * string -> bool) (secs : list (string * string)) :
  NoDup (Dict.keys secs) -> NoDup (Dict.keys (filter f secs)).
Proof.
  unfold Dict.keys. induction secs as [|s secs IH]; intros H; [constructor|].
  inversion H as [|x l Hnin Hnd]; subst. cbn [filter].
  destruct (f s); [|now apply IH]. cbn [map]. constructor; [|now apply IH].
  intros Hin. apply Hnin. apply in_map_iff in Hin. destruct Hin as (y & Hy & Hin).
  apply filter_In in Hin. apply in_map_iff. exists y. now split; [|apply Hin].
Qed.

(** X14: each typed field of the parsed document comes from the last entry
    of its category in the dictionary [_split_into_sections] returns (the
    entries of the same category before it are dropped) and keeps its
    default when there is none; the entries of no category are stored with
    their names and their text as they are, in the order of that
    dictionary, which differs from the order of the document when a heading
    repeats. *)
Theorem parse_fields_from_sections (lines : list string) :
  let secs := _split_into_sections lines in
  let data := parse_lines lines in
  summary data = Notions.field_of Spec.Summary _parse_summary "" secs
  /\ skills data = Notions.field_of Spec.Skills _parse_skills [] secs
  /\ experience data = Notions.field_of Spec.Experience _parse_experience [] secs
  /\ education data = Notions.field_of Spec.Education _parse_education [] secs
  /\ certifications data
     = Notions.field_of Spec.Certifications _parse_certifications [] secs
  /\ raw_sections data = filter Notions.is_other secs
  /\ name data = _extract_name lines
  /\ contact data = _extract_contact lines.
Proof.
  cbv zeta. unfold parse_lines.
  destruct (fold_route_summary (_split_into_sections lines) (initial_data lines))
    as (H1 & H2 & H3 & H4 & H5 & H6 & H7 & H8).
  rewrite H1, H2, H3, H4, H5, H6, H7, H8. cbn [initial_data summary skills experience
    education certifications raw_sections name contact].
  repeat split.
  apply (fold_set_nodup _ []). cbn [app]. apply nodup_filter_keys.
  apply section_names_nodup.
Qed.

End ParseFields.

Section ExperienceProperties.

Import Parser.

Lemma dash_prefix (s : string) :
  Py.startswith "-" s = false -> Py.startswith "- " s = false.
Proof.
  unfold Py.startswith. intros H.
  destruct (String.prefix "- " s) eqn:Hp; [|reflexivity].
  apply prefix_spec in Hp. destruct Hp as [b ->].
  assert (Hd : String.prefix "-" ("- " ++ b) = true)
    by (apply prefix_spec; now exists (String " " b)).
  congruence.
Qed.

Lemma star_prefix (s : string) :
  Py.startswith "*" s = true -> Py.startswith "- " s = false.
Proof.
  unfold Py.startswith. intros H. apply prefix_spec in H. destruct H as [b ->].
  destruct (String.prefix "- " ("*" ++ b)) eqn:Hp; [|reflexivity].
  apply prefix_spec in Hp. destruct Hp as [b' Hb]. discriminate.
Qed.

(** A line that is no heading leaves the finished jobs and the heading
    fields of the current job, and adds its bullet, if it is one. *)
Lemma exp_step_in_block (st : exp_state) (l : string) :
  Notions.is_job_heading l = false ->
  experiences (exp_step st l) = experiences st
  /\ match current_job st, current_job (exp_step st l) with
     | None, None => True
     | Some job, Some job' =>
         Notions.heading_fields job' = Notions.heading_fields job
         /\ achievements job' = achievements job ++ Notions.bullets [l]
     | _, _ => False
     end.
Proof.
  unfold Notions.is_job_heading, Notions.bullets. intros Hh. unfold exp_step.
  rewrite Hh. cbn [filter map].
  destruct (Py.startswith "*" (Py.strip l) && Py.endswith "*" (Py.strip l)) eqn:Hi.
  - apply andb_prop in Hi. destruct Hi as [Hs _]. rewrite (star_prefix _ Hs).
    destruct (current_job st) as [job|] eqn:Hj; [|now rewrite Hj].
    destruct (negb (Py.truthy (dates job))); cbn; rewrite ?Hj, app_nil_r; auto.
  - unfold wants_description. destruct (current_job st) as [job|] eqn:Hj.
    + destruct (Py.truthy (Py.strip l) && negb (Py.startswith "-" (Py.strip l))
                && negb (Py.startswith "*" (Py.strip l))
                && negb (Py.truthy (description job))) eqn:Hd.
      * apply andb_prop in Hd. destruct Hd as [Hd _].
        apply andb_prop in Hd. destruct Hd as [Hd _].
        apply andb_prop in Hd. destruct Hd as [_ Hd]. apply negb_true_iff in Hd.
        rewrite (dash_prefix _ Hd). cbn. rewrite app_nil_r. auto.
      * destruct (Py.startswith "- " (Py.strip l)); cbn; rewrite ?Hj, ?app_nil_r; auto.
    + destruct (Py.startswith "- " (Py.strip l)); cbn; rewrite Hj; auto.
Qed.

Lemma exp_block (body : list string) (st : exp_state) :
  (forall l, In l body -> Notions.is_job_heading l = false) ->
  experiences (fold_left exp_step body st) = experiences st
  /\ match current_job st, current_job (fold_left exp_step body st) with
     | None, None => True
     | Some job, Some job' =>
         Notions.heading_fields job' = Notions.heading_fields job
         /\ achievements job' = achievements job ++ Notions.bullets body
     | _, _ => False
     end.
Proof.
  revert st. induction body as [|l body IH]; intros st Hb; cbn [fold_left].
  - split; [reflexivity|]. destruct (current_job st); [|exact I].
    unfold Notions.bullets. cbn. now rewrite app_nil_r.
  - destruct (exp_step_in_block st l (Hb l (or_introl eq_refl))) as [He Hc].
    destruct (IH (exp_step st l) (fun x Hx => Hb x (or_intror Hx))) as [He' Hc'].
    split; [now rewrite He'|].
    destruct (current_job st) as [job|]; destruct (current_job (exp_step st l)) as [job1|];
      try contradiction;
      destruct (current_job (fold_left exp_step body (exp_step st l))) as [job2|];
      try contradiction; [|exact I].
    destruct Hc as [Hk Ha]. destruct Hc' as [Hk' Ha'].
    split; [congruence|]. rewrite Ha', Ha, <- app_assoc. f_equal.
    unfold Notions.bullets. cbn [filter].
    destruct (Py.startswith "- " (Py.strip l)); reflexivity.
Qed.

Lemma exp_heading_step (st : exp_state) (l : string) :
  Notions.is_job_heading l = true ->
  exp_step st l
  = {| experiences := flush_job st; current_job := Some (Notions.job_of_heading l) |}.
Proof. unfold Notions.is_job_heading, exp_step. now intros ->. Qed.

Lemma heading_fields_of_jobs (lines : list string) (st : exp_state) :
  map Notions.heading_fields (flush_job (fold_left exp_step lines st))
  = map Notions.heading_fields (flush_job st)
    ++ map (fun l => Notions.heading_fields (Notions.job_of_heading l))
         (filter Notions.is_job_heading lines).
Proof.
  revert st. induction lines as [|l lines IH]; intros st; cbn [fold_left filter].
  - now rewrite app_nil_r.
  - rewrite IH. destruct (Notions.is_job_heading l) eqn:Hh.
    + rewrite (exp_heading_step st l Hh). unfold flush_job at 1. cbn.
      now rewrite map_app, <- app_assoc.
    + f_equal. destruct (exp_step_in_block st l Hh) as [He Hc].
      unfold flush_job. rewrite He.
      destruct (current_job st) as [job|]; destruct (current_job (exp_step st l)) as [job'|];
        try contradiction; [|reflexivity].
      rewrite !map_app. cbn [map]. now rewrite (proj1 Hc).
Qed.

(** X15: the experience section gives one job for each line that, stripped,
    starts with "### ", in order, and none else; title, company and location
    of a job are those of its heading, whatever follows it. *)
Theorem jobs_follow_headings (content : string) :
  let headings := filter Notions.is_job_heading (Py.split Py.LF content) in
  map Notions.heading_fields (_parse_experience content)
  = map (fun l => Notions.heading_fields (Notions.job_of_heading l)) headings
  /\ length (_parse_experience content) = length headings
  /\ (headings = [] -> _parse_experience content = []).
Proof.
  cbv zeta.
  assert (H : map Notions.heading_fields (_parse_experience content)
              = map (fun l => Notions.heading_fields (Notions.job_of_heading l))
                  (filter Notions.is_job_heading (Py.split Py.LF content))).
  { unfold _parse_experience. now rewrite heading_fields_of_jobs. }
  split; [exact H|]. split.
  - rewrite <- (length_map Notions.heading_fields), H. apply length_map.
  - intros He. rewrite He in H. now apply map_eq_nil in H.
Qed.

(** X16: when the lines of the section end with a heading and lines that are
    no headings, the last job is the one of that heading, its achievements
    are the stripped texts of the following lines that start with "- ", in
    order, and the jobs before are those of the lines before. *)
Theorem last_job_takes_its_bullets
    (content : string) (before body : list string) (heading : string) :
  Py.split Py.LF content = before ++ heading :: body ->
  Notions.is_job_heading heading = true ->
  (forall l, In l body -> Notions.is_job_heading l = false) ->
  exists job,
    _parse_experience content = Notions.jobs_of_lines before ++ [job]
    /\ Notions.heading_fields job
       = Notions.heading_fields (Notions.job_of_heading heading)
    /\ achievements job = Notions.bullets body.
Proof.
  intros Hs Hh Hb. unfold _parse_experience, Notions.jobs_of_lines.
  rewrite Hs, fold_left_app. cbn [fold_left].
  set (st := fold_left exp_step before _).
  rewrite (exp_heading_step st heading Hh).
  set (st1 := {| experiences := flush_job st; current_job := _ |}).
  destruct (exp_block body st1 Hb) as [He Hc]. cbn [current_job st1] in Hc.
  unfold flush_job at 1. rewrite He.
  destruct (current_job (fold_left exp_step body st1)) as [job|]; [|contradiction].
  exists job. split; [reflexivity|]. destruct Hc as [Hk Ha]. split; [exact Hk|].
  rewrite Ha. reflexivity.
Qed.

End ExperienceProperties.

(** Two jobs; the second has two bullets around a plain line. *)
Lemma last_job_takes_its_bullets_witness :
  exists job,
    Parser._parse_experience
      ("### Dev | Foo" ++ nl ++ "- a" ++ nl ++ "### Eng | Acme | NYC" ++ nl
       ++ "- built X" ++ nl ++ "text" ++ nl ++ "-  shipped Y ")%string
    = Notions.jobs_of_lines ["### Dev | Foo"; "- a"] ++ [job]
    /\ Parser.achievements job = ["built X"; "shipped Y"].
Proof.
  destruct (last_job_takes_its_bullets
              ("### Dev | Foo" ++ nl ++ "- a" ++ nl ++ "### Eng | Acme | NYC" ++ nl
               ++ "- built X" ++ nl ++ "text" ++ nl ++ "-  shipped Y ")%string
              ["### Dev | Foo"; "- a"] ["- built X"; "text"; "-  shipped Y "]
              "### Eng | Acme | NYC" eq_refl eq_refl) as (job & Hj & _ & Ha).
  - intros l [<-|[<-|[<-|[]]]]; reflexivity.
  - exists job. split; [exact Hj | exact Ha].
Defined.

Section EducationProperties.

Import Parser.

Lemma edu_step_degree_like (st : edu_state) (l : string) :
  Notions.degree_like l = true ->
  education_refs (edu_step st l) = flush_edu st
  /\ (Notions.degree_matches l = true ->
      current_edu (edu_step st l) = Some (length (store st)))
  /\ (Notions.degree_matches l = false ->
      current_edu (edu_step st l) = current_edu st /\ store (edu_step st l) = store st).
Proof.
  unfold Notions.degree_matches. intros Hd. rewrite Hd. cbn [andb].
  unfold Notions.degree_like in Hd. cbv zeta in Hd. apply andb_prop in Hd.
  destruct Hd as [Ht Hs]. unfold edu_step. rewrite Ht, Hs. cbn [negb].
  destruct (Re.match_ degree_re (Py.strip l)) as [[rest g]|].
  - destruct (Re.group 1 g); cbn; repeat split; try discriminate; auto.
  - cbn. repeat split; try discriminate; auto.
Qed.

Lemma edu_step_other (st : edu_state) (l : string) :
  Notions.degree_like l = false ->
  education_refs (edu_step st l) = education_refs st
  /\ current_edu (edu_step st l) = current_edu st
  /\ (current_edu st = None -> edu_step st l = st).
Proof.
  unfold Notions.degree_like. cbv zeta. intros Hd. unfold edu_step.
  destruct (Py.truthy (Py.strip l)); cbn [negb andb] in *; [|auto].
  rewrite Hd. destruct (current_edu st) eqn:Hc; cbn; auto.
  repeat split; auto. discriminate.
Qed.

(** Once an entry is current, every line that looks like a degree line
    appends a reference, and an entry stays current. *)
Lemma edu_loop_current (lines : list string) (st : edu_state) (i : nat) :
  current_edu st = Some i ->
  (exists j, current_edu (fold_left edu_step lines st) = Some j)
  /\ length (education_refs (fold_left edu_step lines st))
     = length (education_refs st) + length (filter Notions.degree_like lines).
Proof.
  revert st i. induction lines as [|l lines IH]; intros st i Hc; cbn [fold_left filter].
  - split; [now exists i | cbn; lia].
  - destruct (Notions.degree_like l) eqn:Hd.
    + destruct (edu_step_degree_like st l Hd) as (Hr & Hm & Hn).
      assert (Hc' : exists j, current_edu (edu_step st l) = Some j).
      { destruct (Notions.degree_matches l).
        - eexists. now apply Hm.
        - exists i. now rewrite (proj1 (Hn eq_refl)). }
      destruct Hc' as [j Hj]. destruct (IH _ j Hj) as [He Hl]. split; [exact He|].
      rewrite Hl, Hr. unfold flush_edu. rewrite Hc, length_app. cbn. lia.
    + destruct (edu_step_other st l Hd) as (Hr & Hk & _).
      rewrite Hc in Hk. destruct (IH _ i Hk) as [He Hl]. split; [exact He|].
      now rewrite Hl, Hr.
Qed.

Lemma degree_matches_like (l : string) :
  Notions.degree_matches l = true -> Notions.degree_like l = true.
Proof. unfold Notions.degree_matches. intros H. now apply andb_prop in H. Qed.

Lemma edu_loop_start (lines : list string) (st : edu_state) :
  current_edu st = None -> education_refs st = [] ->
  length (flush_edu (fold_left edu_step lines st)) = Notions.entries_expected lines.
Proof.
  revert st. induction lines as [|l lines IH]; intros st Hc Hr;
    cbn [fold_left Notions.entries_expected].
  - unfold flush_edu. now rewrite Hc, Hr.
  - destruct (Notions.degree_matches l) eqn:Hm.
    + destruct (edu_step_degree_like st l (degree_matches_like l Hm)) as (Hr' & Hc' & _).
      destruct (edu_loop_current lines (edu_step st l) _ (Hc' Hm)) as [[j Hj] Hl].
      unfold flush_edu at 1. rewrite Hj, length_app, Hl, Hr'.
      unfold flush_edu. rewrite Hc, Hr. cbn. lia.
    + destruct (Notions.degree_like l) eqn:Hd.
      * destruct (edu_step_degree_like st l Hd) as (Hr' & _ & Hn).
        destruct (Hn Hm) as [Hk _]. apply IH; [congruence|].
        rewrite Hr'. unfold flush_edu. now rewrite Hc.
      * destruct (edu_step_other st l Hd) as (_ & _ & Hs). rewrite (Hs Hc). now apply IH.
Qed.

(** X17: the education list has no entry before the first degree line the
    pattern matches, one entry for that line, and one more for every later
    line that starts with "**" and holds a second "**", matched or not (a
    line the pattern does not match lists the current entry once more). *)
Theorem education_entries_counted (content : string) :
  length (_parse_education content)
  = Notions.entries_expected (Py.split Py.LF content)
  /\ ((forall l, In l (Py.split Py.LF content) -> Notions.degree_matches l = false) ->
      _parse_education content = []).
Proof.
  assert (Hl : length (_parse_education content)
               = Notions.entries_expected (Py.split Py.LF content)).
  { unfold _parse_education. rewrite length_map. now apply edu_loop_start. }
  split; [exact Hl|]. intros Hn.
  apply length_zero_iff_nil. rewrite Hl. clear Hl.
  induction (Py.split Py.LF content) as [|l lines IH]; [reflexivity|].
  cbn [Notions.entries_expected]. rewrite (Hn l (or_introl eq_refl)).
  apply IH. intros l' Hl'. apply Hn. now right.
Qed.

Lemma edu_loop_details (body : list string) (st : edu_state) :
  (forall l, In l body -> Notions.degree_like l = false) ->
  education_refs (fold_left edu_step body st) = education_refs st
  /\ current_edu (fold_left edu_step body st) = current_edu st.
Proof.
  revert st. induction body as [|l body IH]; intros st Hb; cbn [fold_left]; [now split|].
  destruct (edu_step_other st l (Hb l (or_introl eq_refl))) as (Hr & Hc & _).
  destruct (IH (edu_step st l) (fun x Hx => Hb x (or_intror Hx))) as [Hr' Hc'].
  split; congruence.
Qed.

Lemma edu_current_after_match (lines : list string) (st : edu_state) :
  (exists l, In l lines /\ Notions.degree_matches l = true) ->
  exists j, current_edu (fold_left edu_step lines st) = Some j.
Proof.
  revert st. induction lines as [|l lines IH]; intros st [m [Hin Hm]]; [destruct Hin|].
  cbn [fold_left]. destruct Hin as [->|Hin].
  - destruct (edu_step_degree_like st m (degree_matches_like m Hm)) as (_ & Hc & _).
    now apply (edu_loop_current lines _ _ (Hc Hm)).
  - apply IH. now exists m.
Qed.

(** X18: when, after a degree line that matched, a line looks like a degree
    line but the pattern does not match it, and no degree line follows, the
    list ends with the same entry twice. *)
Theorem unmatched_degree_line_repeats_entry
    (content : string) (before body : list string) (line : string) :
  Py.split Py.LF content = before ++ line :: body ->
  (exists l, In l before /\ Notions.degree_matches l = true) ->
  Notions.degree_like line = true ->
  Notions.degree_matches line = false ->
  (forall l, In l body -> Notions.degree_like l = false) ->
  exists front entry, _parse_education content = front ++ [entry; entry].
Proof.
  intros Hs Hb Hd Hm Hbody. unfold _parse_education. rewrite Hs, fold_left_app.
  cbn [fold_left]. set (st := fold_left edu_step before _).
  destruct (edu_current_after_match before Notions.edu_start Hb) as [j Hj].
  change (fold_left edu_step before Notions.edu_start) with st in Hj.
  destruct (edu_step_degree_like st line Hd) as (Hr & _ & Hn).
  destruct (Hn Hm) as [Hc _].
  destruct (edu_loop_details body (edu_step st line) Hbody) as [Hr' Hc'].
  set (final := fold_left edu_step body (edu_step st line)) in *.
  unfold flush_edu at 1. rewrite Hc', Hc, Hj, Hr', Hr. unfold flush_edu. rewrite Hj.
  rewrite !map_app. cbn [map]. rewrite <- app_assoc. cbn [app].
  now exists (map (deref (store final)) (education_refs st)), (deref (store final) j).
Qed.

End EducationProperties.

(** A degree, a line with a single star inside the bold text, a detail. *)
Lemma unmatched_degree_line_repeats_entry_witness :
  exists front entry,
    Parser._parse_education
      ("**BS** | MIT | 2020" ++ nl ++ "**GPA: 3.9*4**" ++ nl ++ "Dean's list")%string
    = front ++ [entry; entry].
Proof.
  apply (unmatched_degree_line_repeats_entry
           ("**BS** | MIT | 2020" ++ nl ++ "**GPA: 3.9*4**" ++ nl ++ "Dean's list")%string
           ["**BS** | MIT | 2020"] ["Dean's list"] "**GPA: 3.9*4**" eq_refl).
  - exists "**BS** | MIT | 2020". split; [now left | reflexivity].
  - reflexivity.
  - reflexivity.
  - intros l [<-|[]]. reflexivity.
Defined.

Section PlainSkillsProperties.

Import Parser.

Lemma plain_items_not_nil (line : string) : Spec.plain_items line <> [].
Proof.
  unfold Spec.plain_items, comma_items. destruct (Py.has_char "," line); [|discriminate].
  intros H. apply map_eq_nil in H. now apply split_not_nil in H.
Qed.

Lemma add_item_general (items : list string) (line : string) :
  add_skill_item
    {| skills_acc := Notions.general_only items; current_category := "General" |} line
  = {| skills_acc := Notions.general_only (items ++ Spec.plain_items line);
       current_category := "General" |}.
Proof.
  pose proof (plain_items_not_nil line) as Hne.
  unfold add_skill_item, Spec.plain_items in *. cbn [skills_acc current_category].
  destruct items as [|i items]; cbn -[Py.has_char comma_items].
  - destruct (Py.has_char "," line).
    + destruct (comma_items line); [contradiction | reflexivity].
    + reflexivity.
  - destruct (Py.has_char "," line); reflexivity.
Qed.

Lemma plain_skills_loop (lines : list string) (items : list string) :
  (forall l, In l lines ->
     Py.strip l = "" \/ Spec.is_plain_skill_line (Py.strip l) = true) ->
  skills_loop lines
    {| skills_acc := Notions.general_only items; current_category := "General" |}
  = {| skills_acc := Notions.general_only (items ++ Notions.plain_skill_items lines);
       current_category := "General" |}.
Proof.
  unfold skills_loop, Notions.plain_skill_items. revert items.
  induction lines as [|l lines IH]; intros items Hl; cbn [fold_left filter flat_map].
  - now rewrite app_nil_r.
  - destruct (Hl l (or_introl eq_refl)) as [He|Hp].
    + assert (Hs : forall st, skills_step st l = st)
        by (intros st; unfold skills_step; now rewrite He).
      rewrite Hs, He. cbn [Py.truthy]. apply IH. intros x Hx. apply Hl. now right.
    + rewrite (plain_line_step _ l Hp), add_item_general.
      assert (Ht : Py.truthy (Py.strip l) = true).
      { unfold Spec.is_plain_skill_line in Hp.
        apply andb_prop in Hp. destruct Hp as [Hp _].
        apply andb_prop in Hp. destruct Hp as [Hp _].
        now apply andb_prop in Hp. }
      rewrite Ht. cbn [flat_map]. rewrite IH, <- app_assoc; [reflexivity|].
      intros x Hx. apply Hl. now right.
Qed.

(** X19: a skills section whose lines are blank or regular items (no "### "
    heading, no bold line, no line with "**" and ":") has the single
    category "General" with the items of its lines in order, a line with a
    comma giving its stripped pieces; it has no category at all when every
    line is blank. *)
Theorem plain_skills_go_to_general (content : string) :
  (forall l, In l (Py.split Py.LF content) ->
     Py.strip l = "" \/ Spec.is_plain_skill_line (Py.strip l) = true) ->
  _parse_skills content
  = Notions.general_only (Notions.plain_skill_items (Py.split Py.LF content)).
Proof.
  intros H. unfold _parse_skills.
  change {| skills_acc := []; current_category := "General" |}
    with {| skills_acc := Notions.general_only []; current_category := "General" |}.
  now rewrite (plain_skills_loop _ [] H).
Qed.

End PlainSkillsProperties.

(** Three lines, one blank. *)
Lemma plain_skills_go_to_general_witness :
  Parser._parse_skills ("Python, Go" ++ nl ++ "  " ++ nl ++ "- Rust")%string
  = [("General", ["Python"; "Go"; "- Rust"])].
Proof.
  rewrite plain_skills_go_to_general; [reflexivity|].
  intros l [<-|[<-|[<-|[]]]]; (now left) || (now right).
Defined.

(** ** Soundness of the matcher *)

Section MatcherSoundness.

Lemma length_append (u v : string) :
  String.length (u ++ v) = String.length u + String.length v.
Proof. induction u as [|c u IH]; simpl; [reflexivity | now rewrite IH]. Qed.

Lemma substring_prefix (u v : string) :
  String.substring 0 (String.length u) (u ++ v) = u.
Proof.
  induction u as [|c u IH]; simpl; [now destruct v | now rewrite IH].
Qed.

Lemma consumed_append (u v : string) : Re.consumed (u ++ v) v = u.
Proof.
  unfold Re.consumed. rewrite length_append.
  replace (String.length u + String.length v - String.length v) with (String.length u)
    by lia.
  apply substring_prefix.
Qed.

(** What the matcher returns comes from its continuation, on a rest left by
    a word of the pattern. *)
Lemma run_sound (r : regex) :
  forall s g k x,
    Re.run r s g k = Some x ->
    exists u v g', s = (u ++ v)%string /\ Re.matches r u /\ k v g' = Some x.
Proof.
  induction r as [|p|a IHa b IHb|a IHa b IHb|a IHa|i a IHa]; intros s g k x H.
  - exists EmptyString, s, g. repeat split; [constructor | exact H].
  - simpl in H. destruct s as [|c s']; [discriminate|].
    destruct (p c) eqn:Hc; [|discriminate].
    exists (String c EmptyString), s', g. repeat split; [now constructor | exact H].
  - simpl in H. apply IHa in H. destruct H as (u & v & g1 & -> & Hu & H).
    apply IHb in H. destruct H as (u' & v' & g2 & -> & Hu' & H).
    exists (u ++ u')%string, v', g2. rewrite append_assoc.
    repeat split; [now constructor | exact H].
  - simpl in H. destruct (Re.run a s g k) as [y|] eqn:Ha.
    + injection H as <-. apply IHa in Ha. destruct Ha as (u & v & g1 & -> & Hu & H).
      exists u, v, g1. repeat split; [now apply MAltL | exact H].
    + apply IHb in H. destruct H as (u & v & g1 & -> & Hu & H).
      exists u, v, g1. repeat split; [now apply MAltR | exact H].
  - simpl in H. revert H. generalize (String.length s) at 1. intros n. revert s g.
    induction n as [|n IHn]; intros s g H.
    + exists EmptyString, s, g. repeat split; [constructor | exact H].
    + match type of H with
      | match ?m with Some _ => _ | None => _ end = _ => destruct m as [y|] eqn:Ha
      end.
      * injection H as <-. apply IHa in Ha.
        destruct Ha as (u & v & g1 & -> & Hu & H).
        destruct (String.length v <? String.length (u ++ v)); [|discriminate].
        apply IHn in H. destruct H as (u' & v' & g2 & -> & Hu' & H).
        exists (u ++ u')%string, v', g2. rewrite append_assoc.
        repeat split; [now apply MStarS | exact H].
      * exists EmptyString, s, g. repeat split; [constructor | exact H].
  - simpl in H. apply IHa in H. destruct H as (u & v & g1 & -> & Hu & H).
    exists u, v, ((i, Re.consumed (u ++ v) v) :: g1).
    repeat split; [now constructor | exact H].
Qed.

(** The text [re.search] returns is a word of the pattern and a piece of the
    text searched. *)
Lemma search_sound (r : regex) (s m : string) (g : Re.groups) :
  Re.search r s = Some (m, g) -> Re.matches r m /\ Notions.piece_of m s.
Proof.
  induction s as [|c s IH]; simpl.
  - destruct (Re.match_ r EmptyString) as [[rest g0]|] eqn:Hm; [|discriminate].
    intros [= <- <-]. unfold Re.match_ in Hm. apply run_sound in Hm.
    destruct Hm as (u & v & g1 & He & Hu & [= <- <-]).
    rewrite He, consumed_append. split; [exact Hu|]. now exists EmptyString, v.
  - destruct (Re.match_ r (String c s)) as [[rest g0]|] eqn:Hm.
    + intros [= <- <-]. unfold Re.match_ in Hm. apply run_sound in Hm.
      destruct Hm as (u & v & g1 & He & Hu & [= <- <-]).
      rewrite He, consumed_append. split; [exact Hu|]. now exists EmptyString, v.
    + intros H. destruct (IH H) as [Hu (pre & post & ->)]. split; [exact Hu|].
      now exists (String c pre), post.
Qed.

Lemma matches_star_class (p : ascii -> bool) (u : string) :
  Re.matches (Re.Star (Re.Cls p)) u -> Notions.all_chars p u = true.
Proof.
  remember (Re.Star (Re.Cls p)) as r eqn:Hr. intros H.
  induction H as [| | | | | |a u v Hu _ Hv IH|]; try discriminate; [reflexivity|].
  injection Hr as ->. inversion Hu; subst. simpl.
  rewrite (IH eq_refl). now rewrite andb_true_r.
Qed.

Lemma matches_plus_class (p : ascii -> bool) (u : string) :
  Re.matches (Re.Plus (Re.Cls p)) u -> u <> EmptyString /\ Notions.all_chars p u = true.
Proof.
  unfold Re.Plus. intros H. inversion H as [| |a b x y Hx Hy| | | | |]; subst.
  inversion Hx; subst. apply matches_star_class in Hy. simpl.
  split; [discriminate|]. now rewrite Hy, andb_true_r.
Qed.

Lemma matches_chr (c : ascii) (u : string) :
  Re.matches (Re.Chr c) u -> u = String c EmptyString.
Proof.
  unfold Re.Chr. intros H. inversion H as [|p d Hd| | | | | |]; subst.
  apply Ascii.eqb_eq in Hd. now subst.
Qed.

Lemma matches_email (m : string) :
  Re.matches Parser.email_re m -> Notions.address_shaped m.
Proof.
  unfold Parser.email_re, Parser.word_dot_dash, Re.word. intros H.
  inversion H as [| |a1 b1 local r1 Hl H1| | | | |]; subst. clear H.
  inversion H1 as [| |a2 b2 at_ r2 Ha H2| | | | |]; subst. clear H1.
  inversion H2 as [| |a3 b3 domain r3 Hd H3| | | | |]; subst. clear H2.
  inversion H3 as [| |a4 b4 dot_ tld Hp Ht| | | | |]; subst. clear H3.
  apply matches_chr in Ha, Hp. subst.
  apply matches_plus_class in Hl, Hd, Ht.
  exists local, domain, tld. now repeat split.
Qed.

End MatcherSoundness.

Section ContactProperties.

Import Parser.

(** X20: the e-mail address of the contact block is empty, or a piece of
    the joined contact lines of the form local@domain.tld: each part is not
    empty, local part and domain hold word characters, "." and "-" only,
    and the last part word characters only. *)
Theorem email_is_address_shaped (lines : list string) :
  email (_extract_contact lines) = ""
  \/ (Notions.piece_of (email (_extract_contact lines)) (Notions.contact_text lines)
      /\ Notions.address_shaped (email (_extract_contact lines))).
Proof.
  unfold _extract_contact, Notions.contact_text. cbn [email]. unfold group0_or.
  destruct (Re.search email_re _) as [[m g]|] eqn:Hs; [|now left].
  right. apply search_sound in Hs. destruct Hs as [Hm Hp].
  split; [exact Hp | now apply matches_email].
Qed.

Lemma has_char_lstrip (p : ascii -> bool) (c : ascii) (s : string) :
  Py.has_char c (Py.lstrip_by p s) = true -> Py.has_char c s = true.
Proof.
  induction s as [|a s IH]; simpl; [discriminate|].
  destruct (p a); [|now simpl]. intros H. rewrite (IH H). apply orb_true_r.
Qed.

Lemma has_char_rstrip (p : ascii -> bool) (c : ascii) (s : string) :
  Py.has_char c (Py.rstrip_by p s) = true -> Py.has_char c s = true.
Proof.
  induction s as [|a s IH]; simpl; [discriminate|].
  destruct (Py.rstrip_by p s) as [|b r].
  - destruct (p a); simpl; [discriminate|]. rewrite orb_false_r. now intros ->.
  - cbn [Py.has_char]. intros H. apply orb_prop in H. destruct H as [H|H].
    + now rewrite H.
    + rewrite (IH H). apply orb_true_r.
Qed.

Lemma has_char_strip (c : ascii) (s : string) :
  Py.has_char c (Py.strip s) = true -> Py.has_char c s = true.
Proof.
  unfold Py.strip, Py.strip_by. intros H.
  now apply has_char_lstrip with (p := Py.isspace), has_char_rstrip with (p := Py.isspace).
Qed.

Lemma has_char_rev_onto (c : ascii) (a b : string) :
  Py.has_char c (Py.rev_onto a b) = Py.has_char c a || Py.has_char c b.
Proof.
  revert b. induction a as [|x a IH]; intros b; simpl; [reflexivity|].
  rewrite IH. simpl. destruct (Ascii.eqb x c); destruct (Py.has_char c a);
    destruct (Py.has_char c b); reflexivity.
Qed.

Lemma match_pipe (c : ascii) (s : string) :
  Re.match_ pipe_re (String c s) = if Ascii.eqb "|" c then Some (s, []) else None.
Proof. reflexivity. Qed.

(** The first piece of a split on "|" has no "|" and no character that
    the text does not have. *)
Lemma first_piece (fuel : nat) (s acc : string) (x : ascii) :
  String.length s < fuel ->
  let piece := hd "" (Re.split_loop fuel pipe_re s acc) in
  (Py.has_char "|" acc = false -> Py.has_char "|" piece = false)
  /\ (Py.has_char x piece = true -> Py.has_char x acc || Py.has_char x s = true).
Proof.
  cbv zeta. revert s acc. induction fuel as [|fuel IH]; intros s acc Hf; [lia|].
  destruct s as [|c s]; cbn [Re.split_loop hd].
  - rewrite !has_char_rev_onto. cbn [Py.has_char]. rewrite !orb_false_r. now split.
  - rewrite match_pipe. destruct (Ascii.eqb "|" c) eqn:Hc.
    + assert (Hl : (String.length s <? String.length (String c s)) = true)
        by (apply Nat.ltb_lt; simpl; lia).
      rewrite Hl. cbn [hd]. rewrite !has_char_rev_onto. cbn [Py.has_char].
      rewrite !orb_false_r. split; [auto|]. intros ->. reflexivity.
    + simpl in Hf. destruct (IH s (String c acc) ltac:(lia)) as [H1 H2]. split.
      * intros Ha. apply H1. cbn [Py.has_char]. rewrite Ha, orb_false_r.
        rewrite Ascii.eqb_sym. exact Hc.
      * intros Hx. specialize (H2 Hx). cbn [Py.has_char] in *.
        destruct (Ascii.eqb c x); destruct (Py.has_char x acc);
          destruct (Py.has_char x s); auto.
Qed.

(** X21: the location of the contact block holds no "|" and no "@" and has
    no white space around it. *)
Theorem location_is_clean (lines : list string) :
  let loc := location (_extract_contact lines) in
  Py.has_char "|" loc = false
  /\ Py.has_char "@" loc = false
  /\ Py.strip loc = loc.
Proof.
  cbv zeta. unfold _extract_contact. cbn [location].
  induction (contact_lines_from lines false) as [|line rest IH]; cbn [location_from].
  - repeat split.
  - destruct (Py.truthy (Py.strip line) && negb (Py.has_char "@" (Py.strip line))
              && negb (Py.contains "linkedin" (Py.lower (Py.strip line)))
              && negb (Py.contains "github" (Py.lower (Py.strip line)))
              && negb (Re.found phone_digits_re (Py.strip line))) eqn:Hg; [|exact IH].
    destruct (Py.truthy (Py.strip (hd "" (Re.split pipe_re (Py.strip line))))); [|exact IH].
    apply andb_prop in Hg. destruct Hg as [Hg _].
    apply andb_prop in Hg. destruct Hg as [Hg _].
    apply andb_prop in Hg. destruct Hg as [Hg _].
    apply andb_prop in Hg. destruct Hg as [_ Hat]. apply negb_true_iff in Hat.
    unfold Re.split.
    assert (Hlt : String.length (Py.strip line) < S (String.length (Py.strip line))) by lia.
    split; [|split].
    + destruct (first_piece _ (Py.strip line) "" "|" Hlt) as [H1 _].
      destruct (Py.has_char "|" (Py.strip (hd "" _))) eqn:Hp; [|reflexivity].
      apply has_char_strip in Hp. rewrite (H1 eq_refl) in Hp. discriminate.
    + destruct (first_piece _ (Py.strip line) "" "@" Hlt) as [_ H2].
      destruct (Py.has_char "@" (Py.strip (hd "" _))) eqn:Hp; [|reflexivity].
      apply has_char_strip in Hp. specialize (H2 Hp). cbn [Py.has_char orb] in H2.
      congruence.
    + apply strip_idempotent.
Qed.

End ContactProperties.

(** * The exporter *)

Section ExportProperties.

Import ATSValidator Exporter.

Variable fs : Parser.filesystem.
Variable new_builder : raised + (DocxBuilder.Styles * Docx.Document).
Variable save : Docx.Document -> string -> option raised.
Variable stored : Docx.Document -> string -> Artifact.
Variable set_order : list string -> list string.
Variable validator_styles : Styles.

(** The loop over the validation results only appends messages: those of
    the critical failures to the errors, those of the other failures to the
    warnings. *)
Lemma message_loop (rs : list ValidationResult) (st : ExportResults) :
  fold_left message_step rs st
  = {| success := success st;
       input_file := input_file st;
       output_file := output_file st;
       errors := errors st ++ map message (filter is_critical_failure rs);
       warnings := warnings st ++ map message (filter Notions.is_other_failure rs);
       validation := validation st |}.
Proof.
  revert st. induction rs as [|r rs IH]; intros st; cbn [fold_left filter map].
  - rewrite !app_nil_r. now destruct st.
  - rewrite IH. unfold message_step, is_critical_failure, Notions.is_other_failure.
    destruct (passed r); cbn [negb andb]; [reflexivity|].
    destruct (String.eqb (severity r) "critical"); cbn [negb map];
      cbn [append_error append_warning success input_file output_file errors warnings
             validation];
      now rewrite <- app_assoc.
Qed.

(** The verdict of [validate] is that no result is a critical failure,
    also for a file that is missing or does not open. *)
Lemma verdict_no_critical (art : Artifact) :
  fst (validate set_order validator_styles art) = true
  <-> filter is_critical_failure (snd (validate set_order validator_styles art)) = [].
Proof.
  unfold validate. destruct (file_exists art); cbn [negb].
  - destruct (opened art) as [e|doc]; cbn [fst snd].
    + split; discriminate.
    + rewrite Nat.eqb_eq. apply length_zero_iff_nil.
  - cbn [fst snd]. split; discriminate.
Qed.


(** X23: success is True exactly when the file was read, the builder made
    and the document saved: it does not depend on the validation, neither
    on its being asked for nor on its verdict.  When success is False the
    results hold no validation, no warning and exactly one error, which
    starts with "File not found: " or "Export failed: ". *)
Theorem export_success_ignores_validation (markdown_path output_path : string) (v : bool) :
  let results :=
    export fs new_builder save stored set_order validator_styles markdown_path output_path v in
  (success results = true
   <-> Notions.stages_pass fs new_builder save markdown_path output_path)
  /\ (success results = false ->
      validation results = None
      /\ warnings results = []
      /\ exists text, errors results = [("File not found: " ++ text)%string]
                      \/ errors results = [("Export failed: " ++ text)%string]).
Proof.
  cbv zeta. unfold export, Notions.stages_pass, Parser.init, Parser._read_file.
  destruct (fs markdown_path) as [[text|unreadable]|] eqn:Hf; cbn [Parser.bind].
  2: { split.
       - split; [destruct unreadable; discriminate|].
         intros (t & s & d & H & _). discriminate.
       - intros _. destruct unreadable as [m|m|m]; cbn; (split; [reflexivity|]);
           (split; [reflexivity|]); exists m; now right. }
  - destruct new_builder as [e|[styles template]] eqn:Hb.
    + split.
      * split; [destruct e; discriminate|].
        intros (t & s & d & _ & H & _). discriminate.
      * intros _. destruct e as [m|m]; cbn; (split; [reflexivity|]);
          (split; [reflexivity|]); exists m; [now left | now right].
    + change (Parser.parse _) with (Parser.parse_text text).
      destruct (save (DocxBuilder.build styles (Parser.parse_text text) template) output_path)
        as [e|] eqn:Hs.
      * split.
        -- split; [destruct e; discriminate|].
           intros (t & s & d & Ht & H & Hn). congruence.
        -- intros _. destruct e as [m|m]; cbn; (split; [reflexivity|]);
             (split; [reflexivity|]); exists m; [now left | now right].
      * assert (Hok : success
                  (if v
                   then
                     let (is_valid, validation_results) :=
                       validate set_order validator_styles
                         (stored (DocxBuilder.build styles (Parser.parse_text text) template)
                            output_path) in
                     fold_left message_step validation_results
                       (set_validation (Some (is_valid, validation_results))
                          (set_success true
                             {| success := false; input_file := markdown_path;
                                output_file := output_path; errors := [];
                                warnings := []; validation := None |}))
                   else
                     set_success true
                       {| success := false; input_file := markdown_path;
                          output_file := output_path; errors := [];
                          warnings := []; validation := None |}) = true).
        { destruct v; [|reflexivity].
          destruct (validate _ _ _) as [is_valid rs]. now rewrite message_loop. }
        split.
        -- split; [|intros _; exact Hok].
           intros _. now exists text, styles, template.
        -- rewrite Hok. discriminate.
  - split.
    + split; [discriminate|]. intros (t & s & d & H & _). discriminate.
    + intros _. cbn. split; [reflexivity|]. split; [reflexivity|].
      exists ("Resume file not found: " ++ markdown_path)%string. now left.
Qed.

(** X24: when the file was read, the builder made and the document saved,
    an export with validation holds the verdict and the results of
    [validate] on the saved file, the messages of the critical failures as
    errors and those of all other failures as warnings, in the order of the
    results; there is no error exactly when the verdict is True.  Without
    validation the results hold neither messages nor a validation. *)
Theorem export_validation_messages
    (markdown_path output_path text : string)
    (styles : DocxBuilder.Styles) (template : Docx.Document) :
  let document := DocxBuilder.build styles (Parser.parse_text text) template in
  let checked := validate set_order validator_styles (stored document output_path) in
  let run := export fs new_builder save stored set_order validator_styles
               markdown_path output_path in
  fs markdown_path = Some (Parser.Text text) ->
  new_builder = inr (styles, template) ->
  save document output_path = None ->
  validation (run true) = Some checked
  /\ errors (run true) = map message (filter is_critical_failure (snd checked))
  /\ warnings (run true) = map message (filter Notions.is_other_failure (snd checked))
  /\ (errors (run true) = [] <-> fst checked = true)
  /\ run false = set_success true (Notions.nothing_exported markdown_path output_path).
Proof.
  cbv zeta. intros Hf Hb Hs.
  unfold export, Parser.init, Parser._read_file. rewrite Hf, Hb. cbn [Parser.bind].
  change (Parser.parse _) with (Parser.parse_text text). rewrite Hs.
  destruct (validate set_order validator_styles
              (stored (DocxBuilder.build styles (Parser.parse_text text) template) output_path))
    as [is_valid rs] eqn:Hv.
  rewrite message_loop. cbn [errors warnings validation set_validation set_success app snd fst].
  repeat split; try reflexivity.
  - intros He. apply map_eq_nil in He.
    pose proof (verdict_no_critical
                  (stored (DocxBuilder.build styles (Parser.parse_text text) template)
                     output_path)) as Hn.
    rewrite Hv in Hn. cbn [fst snd] in Hn. now apply Hn.
  - intros Hi.
    pose proof (verdict_no_critical
                  (stored (DocxBuilder.build styles (Parser.parse_text text) template)
                     output_path)) as Hn.
    rewrite Hv in Hn. cbn [fst snd] in Hn. now rewrite (proj1 Hn Hi).
Qed.

End ExportProperties.


(** Scenario A, exported on a new document with the fallback styles. *)
Lemma export_validation_messages_witness :
  Exporter.errors
    (Exporter.export (Spec.one_file "cv.md" Spec.scenario_a) Samples.plain_builder
       Samples.quiet_save Samples.saved_file Spec.insertion_order Spec.no_styles
       "cv.md" "cv.docx" true)
  = []
  /\ Exporter.warnings
       (Exporter.export (Spec.one_file "cv.md" Spec.scenario_a) Samples.plain_builder
          Samples.quiet_save Samples.saved_file Spec.insertion_order Spec.no_styles
          "cv.md" "cv.docx" true)
     = ["Missing standard sections: Experience"].
Proof.
  destruct (export_validation_messages (Spec.one_file "cv.md" Spec.scenario_a)
              Samples.plain_builder Samples.quiet_save Samples.saved_file
              Spec.insertion_order Spec.no_styles "cv.md" "cv.docx" Spec.scenario_a
              DocxBuilder._default_styles DocxBuilder.empty_document
              eq_refl eq_refl eq_refl) as (_ & He & Hw & _).
  split; [rewrite He | rewrite Hw]; vm_compute; reflexivity.
Defined.
